(** * EufyLife BLE: body-composition calculator and profile matcher

    A shallow embedding of [body_metrics.py], of the matching callback of
    [sensor.py], of the impedance handlers of [extended_client.py] and of
    the weight-range auto-conversion of [config_flow.py].

    Numbers.  Python's [float] values are embedded as exact rationals
    ([Q]): every decimal literal of the source denotes the rational it
    spells, and [+ - * /] are the exact operations.  The binary rounding
    error of IEEE-754 doubles is therefore abstracted away; everything
    else (evaluation order, clamps, [round], the raising division) follows
    the source.  Python [int] values are embedded as [Z]. *)

From Stdlib Require Import ZArith QArith Qround Qabs Qminmax Lqa Lia.
From Stdlib Require Import List String Bool DecimalString DecimalNat FinFun.
Import ListNotations.
Local Open Scope Q_scope.

(** ** Python primitives *)

Module Py.

(** [a < b] on numbers. *)
Definition ltb (a b : Q) : bool :=
  match Qcompare a b with Lt => true | _ => false end.

(** [a <= b] on numbers. *)
Definition leb (a b : Q) : bool :=
  match Qcompare a b with Gt => false | _ => true end.

(** [max(a, b)]: the first argument unless the second is strictly greater. *)
Definition max (a b : Q) : Q := if ltb a b then b else a.

(** [min(a, b)]: the first argument unless the second is strictly smaller. *)
Definition min (a b : Q) : Q := if ltb b a then b else a.

(** [round(x)]: nearest integer, ties to the even one. *)
Definition round (x : Q) : Z :=
  let f := Qfloor x in
  match Qcompare (x - inject_Z f) 0.5 with
  | Lt => f
  | Gt => (f + 1)%Z
  | Eq => if Z.even f then f else (f + 1)%Z
  end.

(** [round(x, 1)]: nearest multiple of one tenth, ties to the even one. *)
Definition round1 (x : Q) : Q := inject_Z (round (x * 10)) / 10.

(** [a / b]; [None] stands for [ZeroDivisionError]. *)
Definition div (a b : Q) : option Q :=
  if Qeq_bool b 0 then None else Some (a / b).

(** [a ** 2]. *)
Definition sq (a : Q) : Q := a ^ 2.

End Py.

(** Sequencing of computations that may raise. *)
Definition bind {A B : Type} (m : option A) (k : A -> option B) : option B :=
  match m with
  | Some a => k a
  | None => None
  end.

Notation "x <- m ;; k" := (bind m (fun x => k))
  (at level 61, m at next level, right associativity).

(** ** const.py *)

Definition SEX_MALE : string := "male".
Definition SEX_FEMALE : string := "female".
Definition WEIGHT_UNIT_KG : string := "kg".
Definition WEIGHT_UNIT_LBS : string := "lbs".
Definition KG_TO_LBS : Q := 2.20462.
Definition DEFAULT_WEIGHT_MIN : Q := 66.0.
Definition DEFAULT_WEIGHT_MAX : Q := 330.0.

(** ** body_metrics.py *)

Record UserProfile := mkUserProfile {
  age : Z;
  height : Q;
  sex : string
}.

Record BodyCompositionResult := mkResult {
  bmi : Q;
  body_fat : Q;
  muscle_mass : Q;
  bone_mass : Q;
  water_percentage : Q;
  visceral_fat : Q;
  bmr : Z;
  metabolic_age : Z;
  protein_percentage : Q;
  ideal_weight : Q;
  body_type : string;
  lean_body_mass : Q
}.

Definition BODY_TYPES : list string :=
  [ "Obese"; "Overweight"; "Thick-set";
    "Lack-exercise"; "Balanced"; "Balanced-muscular";
    "Skinny"; "Balanced-skinny"; "Skinny-muscular" ]%string.

(** The attributes [BodyMetricsCalculator.__init__] stores. *)
Record BodyMetricsCalculator := mkCalculator {
  c_weight : Q;
  c_impedance : Q;
  c_height : Q;
  c_age : Z;
  c_sex : string
}.

Definition new_calculator (weight impedance : Q) (profile : UserProfile)
  : BodyMetricsCalculator :=
  {| c_weight := weight;
     c_impedance := impedance;
     c_height := height profile;
     c_age := age profile;
     c_sex := sex profile |}.

Definition is_male (self : BodyMetricsCalculator) : bool :=
  String.eqb (c_sex self) "male".

Definition get_bmi (self : BodyMetricsCalculator) : option Q :=
  Py.div (c_weight self) (Py.sq (c_height self / 100)).

Definition get_ideal_weight (self : BodyMetricsCalculator) : option Q :=
  Some (22 * Py.sq (c_height self / 100)).

Definition get_lean_body_mass (self : BodyMetricsCalculator) : option Q :=
  let h_sq := Py.sq (c_height self / 100) in
  lbm <-
    (if is_male self then
       q <- Py.div (45.0 * h_sq) (c_impedance self) ;;
       Some (q + 0.40 * c_weight self - 0.05 * inject_Z (c_age self) + 27.0)
     else
       q <- Py.div (55.0 * h_sq) (c_impedance self) ;;
       Some (q + 0.35 * c_weight self - 0.05 * inject_Z (c_age self) + 20.0)) ;;
  Some (Py.max lbm (c_weight self * 0.25)).

Definition get_fat_percentage (self : BodyMetricsCalculator) : option Q :=
  lbm <- get_lean_body_mass self ;;
  q <- Py.div (c_weight self - lbm) (c_weight self) ;;
  let fat_percentage := q * 100 in
  Some (Py.round1 (Py.max 3.0 (Py.min 60.0 fat_percentage))).

Definition get_bone_mass (self : BodyMetricsCalculator) : option Q :=
  lbm <- get_lean_body_mass self ;;
  let bone_mass := if is_male self then lbm * 0.049 else lbm * 0.048 in
  Some (Py.round1 (Py.max 0.5 (Py.min 8.0 bone_mass))).

Definition get_muscle_mass (self : BodyMetricsCalculator) : option Q :=
  lbm <- get_lean_body_mass self ;;
  bone <- get_bone_mass self ;;
  let muscle_mass := lbm - bone in
  Some (Py.round1 (Py.max 10.0 muscle_mass)).

Definition get_water_percentage (self : BodyMetricsCalculator) : option Q :=
  fat_pct <- get_fat_percentage self ;;
  let water_percentage := (100 - fat_pct) * 0.7126 in
  Some (Py.round1 (Py.max 35.0 (Py.min 75.0 water_percentage))).

Definition get_visceral_fat (self : BodyMetricsCalculator) : option Q :=
  let vfal :=
    if is_male self then
      0.3 * c_weight self - 0.09 * c_height self
        + 0.10 * inject_Z (c_age self) + 1.0
    else
      0.3 * c_weight self - 0.09 * c_height self
        + 0.08 * inject_Z (c_age self) - 1.0 in
  Some (Py.round1 (Py.max 1.0 (Py.min 50.0 vfal))).

Definition get_bmr (self : BodyMetricsCalculator) : option Z :=
  lbm <- get_lean_body_mass self ;;
  let bmr :=
    if is_male self then 360 + 21.6 * lbm - 1.5 * inject_Z (c_age self)
    else 340 + 21.6 * lbm - 1.5 * inject_Z (c_age self) in
  Some (Py.round (Py.max 500 (Py.min 3000 bmr))).

Definition get_metabolic_age (self : BodyMetricsCalculator) : option Z :=
  fat_pct <- get_fat_percentage self ;;
  let ideal_fat := if is_male self then 20.0 else 25.0 in
  let metabolic_age := inject_Z (c_age self) + (fat_pct - ideal_fat) * 0.88 in
  Some (Py.round (Py.max 15 (Py.min 90 metabolic_age))).

Definition get_protein_percentage (self : BodyMetricsCalculator) : option Q :=
  muscle <- get_muscle_mass self ;;
  q <- Py.div muscle (c_weight self) ;;
  let protein_percentage := q * 100 * 0.189 in
  Some (Py.round1 (Py.max 5.0 (Py.min 25.0 protein_percentage))).

(** The two levels [get_body_type] computes before indexing [BODY_TYPES]. *)
Definition fat_level (male : bool) (fat : Q) : nat :=
  if male then
    if Py.ltb fat 15.0 then 0%nat
    else if Py.ltb fat 25.0 then 1%nat
    else 2%nat
  else
    if Py.ltb fat 22.0 then 0%nat
    else if Py.ltb fat 32.0 then 1%nat
    else 2%nat.

Definition muscle_level (male : bool) (muscle weight : Q) : nat :=
  if male then
    if Py.ltb muscle (weight * 0.40) then 0%nat
    else if Py.ltb muscle (weight * 0.48) then 1%nat
    else 2%nat
  else
    if Py.ltb muscle (weight * 0.33) then 0%nat
    else if Py.ltb muscle (weight * 0.40) then 1%nat
    else 2%nat.

Definition get_body_type (self : BodyMetricsCalculator) : option string :=
  fat <- get_fat_percentage self ;;
  muscle <- get_muscle_mass self ;;
  let body_type_index :=
    (fat_level (is_male self) fat * 3
     + muscle_level (is_male self) muscle (c_weight self))%nat in
  nth_error BODY_TYPES body_type_index.

Definition calculate_all (self : BodyMetricsCalculator)
  : option BodyCompositionResult :=
  v_bmi <- get_bmi self ;;
  v_body_fat <- get_fat_percentage self ;;
  v_muscle_mass <- get_muscle_mass self ;;
  v_bone_mass <- get_bone_mass self ;;
  v_water_percentage <- get_water_percentage self ;;
  v_visceral_fat <- get_visceral_fat self ;;
  v_bmr <- get_bmr self ;;
  v_metabolic_age <- get_metabolic_age self ;;
  v_protein_percentage <- get_protein_percentage self ;;
  v_ideal_weight <- get_ideal_weight self ;;
  v_body_type <- get_body_type self ;;
  v_lean_body_mass <- get_lean_body_mass self ;;
  Some {| bmi := Py.round1 v_bmi;
          body_fat := v_body_fat;
          muscle_mass := v_muscle_mass;
          bone_mass := v_bone_mass;
          water_percentage := v_water_percentage;
          visceral_fat := v_visceral_fat;
          bmr := v_bmr;
          metabolic_age := v_metabolic_age;
          protein_percentage := v_protein_percentage;
          ideal_weight := Py.round1 v_ideal_weight;
          body_type := v_body_type;
          lean_body_mass := Py.round1 v_lean_body_mass |}.

(** The caller's contract of the calculator (spec, section 4.1). *)
Definition valid_input (self : BodyMetricsCalculator) : Prop :=
  0 < c_weight self /\ 0 < c_impedance self /\ 0 < c_height self.

(** ** sensor.py: profiles and the body-composition sensor entities *)

Record ProfileConfig := mkProfileConfig {
  profile_id : string;
  name : string;
  profile : UserProfile;
  weight_min : Q;
  weight_max : Q;
  weight_unit : string
}.

(** [EufyLifeBLEState] of the upstream client library: the positional
    fields the handlers of [extended_client.py] fill in. *)
Record EufyLifeBLEState := mkBLEState {
  weight_kg : Q;
  final_weight_kg : option Q;
  heart_rate : option Z;
  is_low_battery : bool
}.

(** The attributes of [EufyLifeBLEDeviceExtended] this repository reads
    and writes. *)
Record Client := mkClient {
  state : option EufyLifeBLEState;
  impedance : option Q;
  impedance_final : option Q;
  heart_rate_extended : option Z
}.

(** The subclasses of [EufyLifeBodyCompositionSensorEntity]; they differ
    in [_extract_value] only.  [BaseSensor] is the base class itself. *)
Inductive SensorKind :=
| BaseSensor
| BodyFatSensor
| MuscleMassSensor
| BoneMassSensor
| WaterPercentageSensor
| VisceralFatSensor
| BMISensor
| BMRSensor
| MetabolicAgeSensor
| ProteinPercentageSensor.

Inductive Value :=
| VFloat (q : Q)
| VInt (z : Z).

(** Mutable attributes of one body-composition sensor entity. *)
Record Entity := mkEntity {
  kind : SensorKind;
  profile_config : ProfileConfig;
  last_result : option BodyCompositionResult;
  attr_native_value : option Value
}.

(** What one run of the callback does besides updating the entity. *)
Inductive Effect :=
| CalculatorInvoked (weight impedance : Q) (p : UserProfile)
| WriteHaState (v : Value)
| LogException (profile_name : string).

(** [_extract_value]: the outer [None] is the [NotImplementedError] of the
    base class, the inner option is Python's [None]. *)
Definition extract_value (k : SensorKind) (result : BodyCompositionResult)
  : option (option Value) :=
  match k with
  | BaseSensor => None
  | BodyFatSensor => Some (Some (VFloat (body_fat result)))
  | MuscleMassSensor => Some (Some (VFloat (muscle_mass result)))
  | BoneMassSensor => Some (Some (VFloat (bone_mass result)))
  | WaterPercentageSensor => Some (Some (VFloat (water_percentage result)))
  | VisceralFatSensor => Some (Some (VFloat (visceral_fat result)))
  | BMISensor => Some (Some (VFloat (bmi result)))
  | BMRSensor => Some (Some (VInt (bmr result)))
  | MetabolicAgeSensor => Some (Some (VInt (metabolic_age result)))
  | ProteinPercentageSensor =>
      Some (Some (VFloat (protein_percentage result)))
  end.

(** The scale reading converted to the profile's configured unit. *)
Definition measured (pc : ProfileConfig) (weight_kg : Q) : Q :=
  if String.eqb (weight_unit pc) WEIGHT_UNIT_LBS then weight_kg * KG_TO_LBS
  else weight_kg.

(** [weight_min <= measured <= weight_max]. *)
Definition in_range (pc : ProfileConfig) (weight_kg : Q) : bool :=
  Py.leb (weight_min pc) (measured pc weight_kg)
  && Py.leb (measured pc weight_kg) (weight_max pc).

Definition set_last_result (self : Entity) (r : BodyCompositionResult)
  : Entity :=
  {| kind := kind self;
     profile_config := profile_config self;
     last_result := Some r;
     attr_native_value := attr_native_value self |}.

Definition set_native_value (self : Entity) (v : Value) : Entity :=
  {| kind := kind self;
     profile_config := profile_config self;
     last_result := last_result self;
     attr_native_value := Some v |}.

(** [EufyLifeBodyCompositionSensorEntity._handle_extended_update]. *)
Definition _handle_extended_update (client : Client) (self : Entity)
  : Entity * list Effect :=
  match impedance_final client, state client with
  | None, _ => (self, [])
  | _, None => (self, [])
  | Some impedance_final, Some st =>
    match final_weight_kg st with
    | None => (self, [])
    | Some weight_kg =>
      if negb (in_range (profile_config self) weight_kg) then (self, [])
      else
        let invoked :=
          CalculatorInvoked weight_kg impedance_final
            (profile (profile_config self)) in
        let calculator :=
          new_calculator weight_kg impedance_final
            (profile (profile_config self)) in
        match calculate_all calculator with
        | None => (self, [invoked; LogException (name (profile_config self))])
        | Some result =>
          let self' := set_last_result self result in
          match extract_value (kind self) result with
          | None =>
              (self', [invoked; LogException (name (profile_config self))])
          | Some None => (self', [invoked])
          | Some (Some value) =>
              (set_native_value self' value, [invoked; WriteHaState value])
          end
        end
    end
  end.

(** Every registered entity runs its callback on the same client. *)
Fixpoint fire_callbacks (client : Client) (entities : list Entity)
  : list Entity * list Effect :=
  match entities with
  | [] => ([], [])
  | e :: rest =>
      let '(e', fx) := _handle_extended_update client e in
      let '(rest', fxs) := fire_callbacks client rest in
      (e' :: rest', fx ++ fxs)
  end.

(** ** extended_client.py *)

Definition bytearray := list Byte.byte.

(** [data[i]]; [None] stands for [IndexError]. *)
Definition byte_at (data : bytearray) (i : nat) : option Z :=
  option_map (fun b => Z.of_N (Byte.to_N b)) (nth_error data i).

Definition len (data : bytearray) : Z := Z.of_nat (List.length data).

Definition _T9150_BODY_COMP_FLAG : Z := 0x20.
Definition _T9150_FINAL_FLAG : Z := 0x80.

(** The callbacks a handler fires, each with the client as it is at that
    moment: the extended callbacks, then the state callbacks. *)
Inductive Notification :=
| ExtendedCallbacks (snapshot : Client)
| StateCallbacks (snapshot : Client).

Definition snapshot_of (n : Notification) : Client :=
  match n with
  | ExtendedCallbacks c => c
  | StateCallbacks c => c
  end.

Definition set_state (self : Client) (st : EufyLifeBLEState) : Client :=
  {| state := Some st;
     impedance := impedance self;
     impedance_final := impedance_final self;
     heart_rate_extended := heart_rate_extended self |}.

Definition set_impedance (self : Client) (z : Q) : Client :=
  {| state := state self;
     impedance := Some z;
     impedance_final := impedance_final self;
     heart_rate_extended := heart_rate_extended self |}.

Definition set_impedance_final (self : Client) (z : Q) : Client :=
  {| state := state self;
     impedance := impedance self;
     impedance_final := Some z;
     heart_rate_extended := heart_rate_extended self |}.

Definition set_heart_rate_extended (self : Client) (hr : Z) : Client :=
  {| state := state self;
     impedance := impedance self;
     impedance_final := impedance_final self;
     heart_rate_extended := Some hr |}.

Definition option_Q_eqb (a b : option Q) : bool :=
  match a, b with
  | Some x, Some y => Qeq_bool x y
  | None, None => true
  | _, _ => false
  end.

Definition option_Z_eqb (a b : option Z) : bool :=
  match a, b with
  | Some x, Some y => Z.eqb x y
  | None, None => true
  | _, _ => false
  end.

Definition state_eqb (a b : EufyLifeBLEState) : bool :=
  Qeq_bool (weight_kg a) (weight_kg b)
  && option_Q_eqb (final_weight_kg a) (final_weight_kg b)
  && option_Z_eqb (heart_rate a) (heart_rate b)
  && Bool.eqb (is_low_battery a) (is_low_battery b).

(** Modelled from the spec: [_set_state_and_fire_callbacks] is a method
    of the upstream [EufyLifeBLEDevice] class, which is not part of this
    repository.  Section 6 has the device layer deliver a measurement
    through the callbacks whenever the device reports a change: the new
    state is stored and the state callbacks run when it differs from the
    stored one.  It does not know the attributes the subclass adds. *)
Definition _set_state_and_fire_callbacks (self : Client)
  (st : EufyLifeBLEState) : Client * list Notification :=
  match state self with
  | Some old =>
      if state_eqb old st then (self, [])
      else (set_state self st, [StateCallbacks (set_state self st)])
  | None => (set_state self st, [StateCallbacks (set_state self st)])
  end.

Definition _handle_t9150_body_comp_packet (self : Client) (data : bytearray)
  : option (Client * list Notification) :=
  status <- byte_at data 10 ;;
  hr <- byte_at data 15 ;;
  let self1 := if (0 <? hr)%Z then set_heart_rate_extended self hr else self in
  r <-
    (if (19 <=? len data)%Z then
       b17 <- byte_at data 17 ;;
       b18 <- byte_at data 18 ;;
       let raw_impedance := Z.lor b17 (Z.shiftl b18 8) in
       if (0 <? raw_impedance)%Z then
         let impedance_ohms := inject_Z raw_impedance / 10.0 in
         let self2 := set_impedance self1 impedance_ohms in
         let is_final :=
           negb (Z.land status _T9150_FINAL_FLAG =? 0)%Z in
         let self3 :=
           if is_final then set_impedance_final self2 impedance_ohms
           else self2 in
         Some (self3, [ExtendedCallbacks self3])
       else Some (self1, [])
     else Some (self1, [])) ;;
  let '(self4, fired) := r in
  b13 <- byte_at data 13 ;;
  b12 <- byte_at data 12 ;;
  let weight_kg := inject_Z (Z.lor (Z.shiftl b13 8) b12) / 100 in
  let is_final := negb (Z.land status _T9150_FINAL_FLAG =? 0)%Z in
  let final_weight_kg := if is_final then Some weight_kg else None in
  let heart_rate := heart_rate_extended self4 in
  let '(self5, fired') :=
    _set_state_and_fire_callbacks self4
      (mkBLEState weight_kg final_weight_kg heart_rate false) in
  Some (self5, fired ++ fired').

Definition _handle_weight_update_t9148_t9149 (self : Client)
  (data : bytearray) : option (Client * list Notification) :=
  if negb (len data =? 16)%Z then Some (self, [])
  else
    b0 <- byte_at data 0 ;;
    if negb (b0 =? 0xCF)%Z then Some (self, [])
    else
      b2 <- byte_at data 2 ;;
      if negb (b2 =? 0x00)%Z then Some (self, [])
      else
        b7 <- byte_at data 7 ;;
        b6 <- byte_at data 6 ;;
        let weight_kg := inject_Z (Z.lor (Z.shiftl b7 8) b6) / 100 in
        b12 <- byte_at data 12 ;;
        let is_final := (b12 =? 0x00)%Z in
        let final_weight_kg := if is_final then Some weight_kg else None in
        b10 <- byte_at data 10 ;;
        b9 <- byte_at data 9 ;;
        b8 <- byte_at data 8 ;;
        let raw_impedance :=
          Z.lor (Z.lor (Z.shiftl b10 16) (Z.shiftl b9 8)) b8 in
        let '(self3, fired) :=
          if (0 <? raw_impedance)%Z then
            let self1 := set_impedance self (inject_Z raw_impedance) in
            let self2 :=
              if is_final
              then set_impedance_final self1 (inject_Z raw_impedance)
              else self1 in
            (self2, [ExtendedCallbacks self2])
          else (self, []) in
        let '(self4, fired') :=
          _set_state_and_fire_callbacks self3
            (mkBLEState weight_kg final_weight_kg None false) in
        Some (self4, fired ++ fired').

(** The loop of [_handle_t9150_advertisement]: the last body-composition
    packet and the last weight-only packet among the values. *)
Fixpoint select_packets (values : list bytearray)
  (body_comp_data weight_data : option bytearray)
  : option (option bytearray * option bytearray) :=
  match values with
  | [] => Some (body_comp_data, weight_data)
  | data :: rest =>
      is_body_comp <-
        (if (19 <=? len data)%Z then
           b10 <- byte_at data 10 ;;
           Some (negb (Z.land b10 _T9150_BODY_COMP_FLAG =? 0)%Z)
         else Some false) ;;
      if is_body_comp then select_packets rest (Some data) weight_data
      else
        is_weight <-
          (if (18 <=? len data)%Z then
             b10 <- byte_at data 10 ;;
             Some ((b10 =? 0x01)%Z || (b10 =? 0x05)%Z)
           else Some false) ;;
        if is_weight then select_packets rest body_comp_data (Some data)
        else select_packets rest body_comp_data weight_data
  end.

(** [_handle_t9150_advertisement].  The weight-only branch calls
    [_handle_advertisement_weight_update_t9130_t9150] of the upstream
    class; [upstream] is the state that method hands to
    [_set_state_and_fire_callbacks], if any. *)
Definition _handle_t9150_advertisement (self : Client)
  (values : list bytearray) (upstream : option EufyLifeBLEState)
  : option (Client * list Notification) :=
  match values with
  | [] => Some (self, [])
  | _ =>
      sel <- select_packets values None None ;;
      match sel with
      | (Some body_comp_data, _) =>
          _handle_t9150_body_comp_packet self body_comp_data
      | (None, Some weight_data) =>
          match upstream with
          | Some st => Some (_set_state_and_fire_callbacks self st)
          | None => Some (self, [])
          end
      | (None, None) => Some (self, [])
      end
  end.

(** ** The client together with its registered entities *)

Record System := mkSystem {
  sys_client : Client;
  sys_entities : list Entity;
  sys_trace : list Effect
}.

(** What the Bluetooth layer delivers to the client. *)
Inductive Event :=
| T9150Advertisement (values : list bytearray)
    (upstream : option EufyLifeBLEState)
| GattNotification (data : bytearray)
| UpstreamStateUpdate (st : EufyLifeBLEState).

Definition client_step (self : Client) (ev : Event)
  : option (Client * list Notification) :=
  match ev with
  | T9150Advertisement values upstream =>
      _handle_t9150_advertisement self values upstream
  | GattNotification data => _handle_weight_update_t9148_t9149 self data
  | UpstreamStateUpdate st => Some (_set_state_and_fire_callbacks self st)
  end.

(** The entities register [_handle_extended_update] both as extended
    callback and as state callback. *)
Fixpoint deliver (fired : list Notification) (entities : list Entity)
  : list Entity * list Effect :=
  match fired with
  | [] => (entities, [])
  | n :: rest =>
      let '(entities', fx) := fire_callbacks (snapshot_of n) entities in
      let '(entities'', fxs) := deliver rest entities' in
      (entities'', fx ++ fxs)
  end.

(** One event; a handler that raises leaves everything as it was. *)
Definition step (s : System) (ev : Event) : System :=
  match client_step (sys_client s) ev with
  | None => s
  | Some (client', fired) =>
      let '(entities', fx) := deliver fired (sys_entities s) in
      {| sys_client := client';
         sys_entities := entities';
         sys_trace := sys_trace s ++ fx |}
  end.

(** [EufyLifeBLEDeviceExtended.__init__]. *)
Definition init_client : Client :=
  {| state := None;
     impedance := None;
     impedance_final := None;
     heart_rate_extended := None |}.

Definition init_system (entities : list Entity) : System :=
  {| sys_client := init_client;
     sys_entities := entities;
     sys_trace := [] |}.

Definition run (s : System) (evs : list Event) : System :=
  fold_left step evs s.

Inductive reachable : System -> Prop :=
| reachable_init : forall entities, reachable (init_system entities)
| reachable_step : forall s ev, reachable s -> reachable (step s ev).

(** The invariant of claim C9 on the client: no final impedance yet, or a
    strictly positive one. *)
Definition impedance_final_ok (c : Client) : Prop :=
  match impedance_final c with
  | None => True
  | Some z => 0 < z
  end.

(** What claim C9 asks of one effect: a calculator is only ever built
    with a strictly positive impedance, so its division succeeds. *)
Definition never_divides_by_zero (fx : Effect) : Prop :=
  match fx with
  | CalculatorInvoked w z p =>
      0 < z /\ get_lean_body_mass (new_calculator w z p) <> None
  | _ => True
  end.

(** What a handler must preserve: the invariant on the client it returns
    and on every client it shows to a callback. *)
Definition keeps_impedance_ok (r : option (Client * list Notification))
  : Prop :=
  match r with
  | None => True
  | Some (self', fired) =>
      impedance_final_ok self'
      /\ Forall (fun n => impedance_final_ok (snapshot_of n)) fired
  end.

(** ** config_flow.py: the auto-conversion of [async_step_edit_profile] *)

(** [converted_min] / [converted_max] for one stored bound [old]. *)
Definition converted (old_wu new_wu : string) (old : Q) : Q :=
  if negb (String.eqb old_wu new_wu) then
    let factor :=
      if String.eqb old_wu WEIGHT_UNIT_KG && String.eqb new_wu WEIGHT_UNIT_LBS
      then KG_TO_LBS
      else 1.0 / KG_TO_LBS in
    Py.round1 (old * factor)
  else old.

(** Editing a profile to the other unit and back again. *)
Definition kg_lbs_kg (x : Q) : Q :=
  converted WEIGHT_UNIT_LBS WEIGHT_UNIT_KG
    (converted WEIGHT_UNIT_KG WEIGHT_UNIT_LBS x).

Definition lbs_kg_lbs (x : Q) : Q :=
  converted WEIGHT_UNIT_KG WEIGHT_UNIT_LBS
    (converted WEIGHT_UNIT_LBS WEIGHT_UNIT_KG x).

(** ** The claims' own words, for comparison with the code *)

(** [clamp_[lo,hi]]: the mathematical clamp, independent of Python's
    [max] and [min]. *)
Definition clamp (lo hi x : Q) : Q := Qmax lo (Qmin hi x).

(** The clamped and rounded fat percentage of a lean body mass. *)
Definition clamped_fat (weight lbm : Q) : Q :=
  Py.round1 (clamp 3.0 60.0 (((weight - lbm) / weight) * 100)).

(** Water percentage chained on the clamped and rounded fat percentage. *)
Definition water_of_clamped_fat (weight lbm : Q) : Q :=
  Py.round1 (clamp 35.0 75.0 ((100 - clamped_fat weight lbm) * 0.7126)).

(** Water percentage chained on the raw fat percentage instead. *)
Definition water_of_raw_fat (weight lbm : Q) : Q :=
  Py.round1
    (clamp 35.0 75.0 ((100 - ((weight - lbm) / weight) * 100) * 0.7126)).

(** The 3 x 3 classification on fat percentage and on muscle mass as a
    fraction of weight. *)
Definition fat_class (male : bool) (fat : Q) : nat :=
  let '(low, normal) := if male then (15.0, 25.0) else (22.0, 32.0) in
  if Qlt_le_dec fat low then 0%nat
  else if Qlt_le_dec fat normal then 1%nat
  else 2%nat.

Definition muscle_class (male : bool) (ratio : Q) : nat :=
  let '(low, normal) := if male then (0.40, 0.48) else (0.33, 0.40) in
  if Qlt_le_dec ratio low then 0%nat
  else if Qlt_le_dec ratio normal then 1%nat
  else 2%nat.

Definition classify (male : bool) (fat ratio : Q) : option string :=
  nth_error BODY_TYPES (fat_class male fat * 3 + muscle_class male ratio).

(** ** Concrete inputs *)

(** A light adult of 40 kg: the lean body mass exceeds the weight. *)
Definition light_adult : BodyMetricsCalculator :=
  new_calculator 40 500 (mkUserProfile 30 175 "male").

(** An age outside the form's 1..99, where the floor of the lean body
    mass applies. *)
Definition floor_case : BodyMetricsCalculator :=
  new_calculator 80.1 500 (mkUserProfile 1000 170 "male").

Definition adult_a : BodyMetricsCalculator :=
  new_calculator 75 500 (mkUserProfile 30 175 "male").

(** Same weight and impedance as [adult_a], one year younger and a
    centimetre taller. *)
Definition adult_b : BodyMetricsCalculator :=
  new_calculator 75 500 (mkUserProfile 29 176 "male").

(** A range of 60 to 90 pounds. *)
Definition child_lbs : ProfileConfig :=
  {| profile_id := "child";
     name := "Child";
     profile := mkUserProfile 10 140 "female";
     weight_min := 60;
     weight_max := 90;
     weight_unit := WEIGHT_UNIT_LBS |}.

(** A range entered upside down. *)
Definition inverted_range : ProfileConfig :=
  {| profile_id := "adult";
     name := "Adult";
     profile := mkUserProfile 30 175 "male";
     weight_min := 90;
     weight_max := 60;
     weight_unit := WEIGHT_UNIT_KG |}.

(** The body-fat sensor of the [child_lbs] profile, with a restored
    value. *)
Definition child_body_fat : Entity :=
  {| kind := BodyFatSensor;
     profile_config := child_lbs;
     last_result := None;
     attr_native_value := Some (VFloat 21.5) |}.

(** A client that holds a final reading of [w] kg at 500 Ohm. *)
Definition client_with_final (w : Q) : Client :=
  {| state := Some (mkBLEState w (Some w) None false);
     impedance := Some 500;
     impedance_final := Some 500;
     heart_rate_extended := None |}.

(** A final T9148 notification: 30.00 kg (0x0BB8), impedance 500
    (0x0001F4). *)
Definition t9148_final_packet : bytearray :=
  [ Byte.xcf; Byte.x00; Byte.x00; Byte.x00; Byte.x00; Byte.x00;
    Byte.xb8; Byte.x0b; Byte.xf4; Byte.x01; Byte.x00; Byte.x00;
    Byte.x00; Byte.x00; Byte.x00; Byte.x00 ].

(** ** const.py: the keys and defaults the helpers below use *)

Definition CONF_USER_HEIGHT : string := "user_height".
Definition CONF_HEIGHT_FT : string := "height_ft".
Definition CONF_HEIGHT_IN : string := "height_in".
Definition HEIGHT_UNIT_CM : string := "cm".
Definition HEIGHT_UNIT_FTIN : string := "ft_in".

(** ** Numbers held in dictionaries *)

(** A number as a form or the stored options hold it: an [int] or a
    [float]. *)
Inductive Num :=
| NInt (z : Z)
| NFloat (q : Q).

(** [float(n)]. *)
Definition py_float (n : Num) : Q :=
  match n with
  | NInt z => inject_Z z
  | NFloat q => q
  end.

(** [int(n)]: a float is truncated towards zero. *)
Definition py_int (n : Num) : Z :=
  match n with
  | NInt z => z
  | NFloat q => Z.quot (Qnum q) (Zpos (Qden q))
  end.

(** A dictionary from keys to numbers, and [d[key]] on it; [None] stands
    for [KeyError]. *)
Definition NumDict := list (string * Num).

Fixpoint getitem (d : NumDict) (key : string) : option Num :=
  match d with
  | [] => None
  | (k, v) :: rest => if String.eqb k key then Some v else getitem rest key
  end.

(** ** config_flow.py: height helpers *)

(** [a // b] and [a % b] on floats, for a positive constant [b]. *)
Definition floordiv (a b : Q) : Q := inject_Z (Qfloor (a / b)).
Definition modulo (a b : Q) : Q := a - b * inject_Z (Qfloor (a / b)).

Definition _cm_to_ftin (height_cm : Q) : Z * Q :=
  let total_inches := height_cm / 2.54 in
  let ft := py_int (NFloat (floordiv total_inches 12)) in
  let inches := Py.round1 (modulo total_inches 12) in
  (ft, inches).

Definition _ftin_to_cm (feet : Z) (inches : Q) : Q :=
  Py.round1 (inject_Z feet * 30.48 + inches * 2.54).

Definition _height_defaults (height_cm : Q) (height_unit : string)
  : NumDict :=
  if String.eqb height_unit HEIGHT_UNIT_FTIN then
    let '(ft, inches) := _cm_to_ftin height_cm in
    [ (CONF_HEIGHT_FT, NInt ft); (CONF_HEIGHT_IN, NFloat inches) ]
  else [ (CONF_USER_HEIGHT, NFloat (Py.round1 height_cm)) ].

Definition _extract_height_cm (user_input : NumDict) (height_unit : string)
  : option Q :=
  if String.eqb height_unit HEIGHT_UNIT_FTIN then
    ft <- getitem user_input CONF_HEIGHT_FT ;;
    inches <- getitem user_input CONF_HEIGHT_IN ;;
    Some (_ftin_to_cm (py_int ft) (py_float inches))
  else
    h <- getitem user_input CONF_USER_HEIGHT ;;
    Some (py_float h).

(** ** sensor.py: reading the stored profiles *)

(** One profile dictionary of the entry options.  Every key may be
    missing; the values have the types the options flow writes: text for
    the name, the sex and the unit, numbers for the rest. *)
Record StoredProfile := mkStoredProfile {
  s_profile_name : option string;
  s_user_age : option Num;
  s_user_height : option Num;
  s_user_sex : option string;
  s_weight_min : option Num;
  s_weight_max : option Num;
  s_weight_unit : option string
}.

(** [d.get(key, default)]. *)
Definition get_default {A : Type} (v : option A) (default : A) : A :=
  match v with
  | Some a => a
  | None => default
  end.

(** The body of the [try] of [_get_profiles]; [None] stands for the
    [KeyError] of a missing height or sex. *)
Definition build_profile_config (profile_id : string) (data : StoredProfile)
  : option ProfileConfig :=
  v_name <- s_profile_name data ;;
  v_age <- s_user_age data ;;
  v_height <- s_user_height data ;;
  v_sex <- s_user_sex data ;;
  Some {| profile_id := profile_id;
          name := v_name;
          profile := {| age := py_int v_age;
                        height := py_float v_height;
                        sex := v_sex |};
          weight_min :=
            py_float (get_default (s_weight_min data)
                        (NFloat DEFAULT_WEIGHT_MIN));
          weight_max :=
            py_float (get_default (s_weight_max data)
                        (NFloat DEFAULT_WEIGHT_MAX));
          weight_unit := get_default (s_weight_unit data) WEIGHT_UNIT_KG |}.

(** [_get_profiles] on the profiles dictionary, in insertion order: the
    profiles built and the ids a warning was logged for. *)
Fixpoint _get_profiles (profiles_data : list (string * StoredProfile))
  : list ProfileConfig * list string :=
  match profiles_data with
  | [] => ([], [])
  | (profile_id, data) :: rest =>
      let '(result, warned) := _get_profiles rest in
      match s_profile_name data, s_user_age data with
      | Some _, Some _ =>
          match build_profile_config profile_id data with
          | Some pc => (pc :: result, warned)
          | None => (result, profile_id :: warned)
          end
      | _, _ => (result, warned)
      end
  end.

(** ** Invariants and reference functions of the added properties *)

(** Health of the cached extended values: impedances are strictly
    positive and fit 24 bits, a final impedance implies a current one,
    the heart rate is a non-zero byte. *)
Definition extended_values_ok (c : Client) : Prop :=
  match impedance c with
  | None => True
  | Some z => 0 < z <= 16777215
  end
  /\ match impedance_final c with
     | None => True
     | Some z => 0 < z <= 16777215
     end
  /\ (impedance_final c <> None -> impedance c <> None)
  /\ match heart_rate_extended c with
     | None => True
     | Some hr => (1 <= hr <= 255)%Z
     end.

(** The published value agrees with the last result. *)
Definition entity_consistent (e : Entity) : Prop :=
  match last_result e with
  | None => True
  | Some r =>
      kind e <> BaseSensor ->
      Some (attr_native_value e) = extract_value (kind e) r
  end.

(** The tests of the loop of [_handle_t9150_advertisement] as predicates
    on one packet. *)
Definition is_body_comp_packet (data : bytearray) : bool :=
  (19 <=? len data)%Z
  && match byte_at data 10 with
     | Some b10 => negb (Z.land b10 _T9150_BODY_COMP_FLAG =? 0)%Z
     | None => false
     end.

Definition is_weight_packet (data : bytearray) : bool :=
  negb (is_body_comp_packet data)
  && (18 <=? len data)%Z
  && match byte_at data 10 with
     | Some b10 => (b10 =? 0x01)%Z || (b10 =? 0x05)%Z
     | None => false
     end.

(** The last element of a list that passes a test. *)
Definition find_last {A : Type} (f : A -> bool) (l : list A) : option A :=
  find f (rev l).

(** A legacy profile: stored before the range and the unit existed. *)
Definition legacy_profile : StoredProfile :=
  {| s_profile_name := Some "Default"%string;
     s_user_age := Some (NFloat 30);
     s_user_height := Some (NFloat 170);
     s_user_sex := Some "male"%string;
     s_weight_min := None;
     s_weight_max := None;
     s_weight_unit := None |}.

(** A final T9150 body-composition packet: status 0xA5, 30.00 kg,
    impedance raw 5000 (500.0 Ohm), no heart rate. *)
Definition t9150_final_packet : bytearray :=
  [ Byte.x00; Byte.x00; Byte.x00; Byte.x00; Byte.x00; Byte.x00;
    Byte.x00; Byte.x00; Byte.x00; Byte.x00; Byte.xa5; Byte.x00;
    Byte.xb8; Byte.x0b; Byte.x00; Byte.x00; Byte.x00; Byte.x88;
    Byte.x13 ].

(** A final T9148 notification of somebody else: 100.00 kg (0x2710),
    impedance 600 (0x000258). *)
Definition t9148_heavier_packet : bytearray :=
  [ Byte.xcf; Byte.x00; Byte.x00; Byte.x00; Byte.x00; Byte.x00;
    Byte.x10; Byte.x27; Byte.x58; Byte.x02; Byte.x00; Byte.x00;
    Byte.x00; Byte.x00; Byte.x00; Byte.x00 ].

(** The client after [t9148_heavier_packet] arrived on
    [client_with_final 30], and the client its extended callbacks saw. *)
Definition client_seen_by_callbacks : Client :=
  {| state := Some (mkBLEState 30 (Some 30) None false);
     impedance := Some (inject_Z 600);
     impedance_final := Some (inject_Z 600);
     heart_rate_extended := None |}.

Definition client_after_heavier : Client :=
  {| state := Some (mkBLEState (inject_Z 10000 / 100)
                      (Some (inject_Z 10000 / 100)) None false);
     impedance := Some (inject_Z 600);
     impedance_final := Some (inject_Z 600);
     heart_rate_extended := None |}.

(** Two states the upstream setter takes for the same. *)
Definition same_reading (a b : EufyLifeBLEState) : Prop :=
  weight_kg a == weight_kg b
  /\ match final_weight_kg a, final_weight_kg b with
     | Some x, Some y => x == y
     | None, None => True
     | _, _ => False
     end.

(** The two ways [_get_profiles] looks at a stored profile: all four
    mandatory keys are there, or the name and the age are there but the
    height or the sex is not. *)
Definition has {A : Type} (v : option A) : bool :=
  match v with
  | Some _ => true
  | None => false
  end.

Definition is_complete (entry : string * StoredProfile) : bool :=
  has (s_profile_name (snd entry)) && has (s_user_age (snd entry))
  && has (s_user_height (snd entry)) && has (s_user_sex (snd entry)).

Definition is_malformed (entry : string * StoredProfile) : bool :=
  has (s_profile_name (snd entry)) && has (s_user_age (snd entry))
  && negb (has (s_user_height (snd entry)) && has (s_user_sex (snd entry))).

(** ** config_flow.py: the id of a new profile *)

(** [str(n)] for a counter. *)
Definition decimal (n : nat) : string :=
  DecimalString.NilEmpty.string_of_uint (Nat.to_uint n).

(** The f-string [f"{base_id}_{counter}"]. *)
Definition numbered_id (base_id : string) (counter : nat) : string :=
  (base_id ++ "_" ++ decimal counter)%string.

(** [key in self._profiles]. *)
Definition has_key (keys : list string) (key : string) : bool :=
  existsb (String.eqb key) keys.

(** The [while] loop of [async_step_add_profile_range]; every iteration
    uses one unit of fuel. *)
Fixpoint free_profile_id (fuel : nat) (keys : list string)
  (base_id profile_id : string) (counter : nat) : option string :=
  if has_key keys profile_id then
    match fuel with
    | O => None
    | S fuel' =>
        free_profile_id fuel' keys base_id
          (numbered_id base_id counter) (S counter)
    end
  else Some profile_id.

(** The id under which a new profile is stored, for the keys already in
    [self._profiles] and the slug of the new name. *)
Definition new_profile_id (keys : list string) (base_id : string)
  : option string :=
  free_profile_id (List.length keys) keys base_id base_id 2.

(** The ids the loop tries, in order. *)
Definition candidate (base_id : string) (n : nat) : string :=
  match n with
  | O => base_id
  | S m => numbered_id base_id (S (S m))
  end.

(** ** extended_client.py: the list of extended callbacks *)

(** Callbacks are compared by identity; a number stands for one. *)
Definition Callback := nat.

(** [list.remove(x)]: drops the first occurrence; [None] stands for
    [ValueError]. *)
Fixpoint list_remove (l : list Callback) (x : Callback)
  : option (list Callback) :=
  match l with
  | [] => None
  | y :: rest =>
      if Nat.eqb y x then Some rest
      else option_map (cons y) (list_remove rest x)
  end.

(** [register_extended_callback]: the new list, and the
    [unregister_callback] closure it returns. *)
Definition register_extended_callback (callbacks : list Callback)
  (callback : Callback)
  : list Callback * (list Callback -> option (list Callback)) :=
  (callbacks ++ [callback], fun current => list_remove current callback).

(** ** extended_client.py and sensor.py: the entities of one device *)

Definition supports_body_composition (model_id : string) : bool :=
  existsb (String.eqb model_id) [ "eufy T9148"; "eufy T9149"; "eufy T9150" ]%string.

Definition supports_heart_rate (model_id : string) : bool :=
  existsb (String.eqb model_id) [ "eufy T9149"; "eufy T9150" ]%string.

Inductive SensorEntity :=
| WeightSensorEntity
| RealTimeWeightSensorEntity
| HeartRateSensorEntity
| ImpedanceSensorEntity
| BodyCompositionSensorEntity (k : SensorKind) (pc : ProfileConfig).

(** The nine sensors [async_setup_entry] adds for one profile. *)
Definition profile_sensors (pc : ProfileConfig) : list SensorEntity :=
  [ BodyCompositionSensorEntity BodyFatSensor pc;
    BodyCompositionSensorEntity MuscleMassSensor pc;
    BodyCompositionSensorEntity BoneMassSensor pc;
    BodyCompositionSensorEntity WaterPercentageSensor pc;
    BodyCompositionSensorEntity VisceralFatSensor pc;
    BodyCompositionSensorEntity BMISensor pc;
    BodyCompositionSensorEntity BMRSensor pc;
    BodyCompositionSensorEntity MetabolicAgeSensor pc;
    BodyCompositionSensorEntity ProteinPercentageSensor pc ].

(** The [for pc in profiles] loop. *)
Fixpoint extend_with_profiles (entities : list SensorEntity)
  (profiles : list ProfileConfig) : list SensorEntity :=
  match profiles with
  | [] => entities
  | pc :: rest => extend_with_profiles (entities ++ profile_sensors pc) rest
  end.

(** [async_setup_entry] of [sensor.py], for the model of the client and
    the profiles [_get_profiles] returned. *)
Definition async_setup_entry (model_id : string)
  (profiles : list ProfileConfig) : list SensorEntity :=
  let entities := [ WeightSensorEntity; RealTimeWeightSensorEntity ] in
  let entities :=
    if supports_heart_rate model_id then entities ++ [ HeartRateSensorEntity ]
    else entities in
  let entities :=
    if supports_body_composition model_id
    then entities ++ [ ImpedanceSensorEntity ]
    else entities in
  match profiles with
  | [] => entities
  | _ =>
      if supports_body_composition model_id
      then extend_with_profiles entities profiles
      else entities
  end.

(** ** config_flow.py: migration of the single-profile options *)

(** The keys of the options of an entry made before profiles existed. *)
Record LegacyOptions := mkLegacyOptions {
  o_user_age : option Num;
  o_user_height : option Num;
  o_user_sex : option string
}.

Definition DEFAULT_USER_HEIGHT : Q := 170.
Definition DEFAULT_USER_SEX : string := SEX_MALE.
Definition DEFAULT_WEIGHT_UNIT : string := WEIGHT_UNIT_LBS.

(** The silent migration at the top of [async_step_init]: the profiles
    it leaves in [self._profiles]. *)
Definition migrate_legacy_options
  (profiles : list (string * StoredProfile)) (options : LegacyOptions)
  : list (string * StoredProfile) :=
  match profiles, o_user_age options with
  | [], Some v_age =>
      [ ("default"%string,
         {| s_profile_name := Some "Default"%string;
            s_user_age := Some (NInt (py_int v_age));
            s_user_height :=
              Some (NFloat
                      (py_float (get_default (o_user_height options)
                                   (NFloat DEFAULT_USER_HEIGHT))));
            s_user_sex :=
              Some (get_default (o_user_sex options) DEFAULT_USER_SEX);
            s_weight_min := Some (NFloat DEFAULT_WEIGHT_MIN);
            s_weight_max := Some (NFloat DEFAULT_WEIGHT_MAX);
            s_weight_unit := Some DEFAULT_WEIGHT_UNIT |}) ]
  | _, _ => profiles
  end.

(** * Properties *)

(** ** Comparisons, [max], [min] *)

Lemma ltb_true (a b : Q) : Py.ltb a b = true <-> a < b.
Proof.
  unfold Py.ltb. rewrite Qlt_alt.
  destruct (Qcompare a b); split; congruence.
Qed.

Lemma ltb_false (a b : Q) : Py.ltb a b = false <-> b <= a.
Proof.
  unfold Py.ltb.
  destruct (Qcompare_spec a b); split; intros; try congruence; lra.
Qed.

Lemma leb_true (a b : Q) : Py.leb a b = true <-> a <= b.
Proof.
  unfold Py.leb. rewrite Qle_alt.
  destruct (Qcompare a b); split; congruence.
Qed.

Lemma leb_false (a b : Q) : Py.leb a b = false <-> b < a.
Proof.
  unfold Py.leb.
  destruct (Qcompare_spec a b); split; intros; try congruence; lra.
Qed.

Lemma max_cases (a b : Q) :
  (b <= a /\ Py.max a b = a) \/ (a < b /\ Py.max a b = b).
Proof.
  unfold Py.max. destruct (Py.ltb a b) eqn:E.
  - right. split; [ now apply ltb_true | reflexivity ].
  - left. split; [ now apply ltb_false | reflexivity ].
Qed.

Lemma min_cases (a b : Q) :
  (a <= b /\ Py.min a b = a) \/ (b < a /\ Py.min a b = b).
Proof.
  unfold Py.min. destruct (Py.ltb b a) eqn:E.
  - right. split; [ now apply ltb_true | reflexivity ].
  - left. split; [ now apply ltb_false | reflexivity ].
Qed.

Lemma max_lower (a b : Q) : a <= Py.max a b /\ b <= Py.max a b.
Proof. destruct (max_cases a b) as [[H ->] | [H ->]]; lra. Qed.

(** [max(lo, min(hi, x))] stays in [[lo, hi]]. *)
Lemma clamp_bounds (lo hi x : Q) :
  lo <= hi -> lo <= Py.max lo (Py.min hi x) <= hi.
Proof.
  intros Hlh.
  destruct (max_cases lo (Py.min hi x)) as [[H ->] | [H ->]];
    destruct (min_cases hi x) as [[H' E] | [H' E]]; rewrite ?E in *; lra.
Qed.

(** ** Rounding *)

Lemma round_error (x : Q) :
  x - 0.5 <= inject_Z (Py.round x) <= x + 0.5.
Proof.
  unfold Py.round.
  pose proof (Qfloor_le x) as Hlo.
  pose proof (Qlt_floor x) as Hhi.
  rewrite inject_Z_plus in Hhi. change (inject_Z 1) with 1 in Hhi.
  destruct (Qcompare_spec (x - inject_Z (Qfloor x)) 0.5) as [E | L | G].
  - destruct (Z.even (Qfloor x)).
    + lra.
    + rewrite inject_Z_plus. change (inject_Z 1) with 1. lra.
  - lra.
  - rewrite inject_Z_plus. change (inject_Z 1) with 1. lra.
Qed.

Lemma floor_le_round (x : Q) : (Qfloor x <= Py.round x)%Z.
Proof.
  unfold Py.round.
  destruct (Qcompare (x - inject_Z (Qfloor x)) 0.5);
    try destruct (Z.even (Qfloor x)); lia.
Qed.

Lemma round_le_floor_succ (x : Q) : (Py.round x <= Qfloor x + 1)%Z.
Proof.
  unfold Py.round.
  destruct (Qcompare (x - inject_Z (Qfloor x)) 0.5);
    try destruct (Z.even (Qfloor x)); lia.
Qed.

(** Rounding never crosses an integer. *)
Lemma round_ge_int (n : Z) (x : Q) : inject_Z n <= x -> (n <= Py.round x)%Z.
Proof.
  intros H. apply Qfloor_resp_le in H. rewrite Qfloor_Z in H.
  pose proof (floor_le_round x). lia.
Qed.

Lemma round_le_int (n : Z) (x : Q) : x <= inject_Z n -> (Py.round x <= n)%Z.
Proof.
  intros H.
  pose proof (Qfloor_resp_le _ _ H) as Hf. rewrite Qfloor_Z in Hf.
  destruct (Z.eq_dec (Qfloor x) n) as [E | NE].
  - unfold Py.round. rewrite E.
    pose proof (Qfloor_le x) as Hlo. rewrite E in Hlo.
    destruct (Qcompare_spec (x - inject_Z n) 0.5); [ lra | lia | lra ].
  - pose proof (round_le_floor_succ x). lia.
Qed.

Lemma round_int (n : Z) (x : Q) : x == inject_Z n -> Py.round x = n.
Proof.
  intros E. apply Z.le_antisymm.
  - apply round_le_int. lra.
  - apply round_ge_int. lra.
Qed.

Lemma div10 (a : Q) : a / 10 == a * 0.1.
Proof. unfold Qdiv. reflexivity. Qed.

Lemma round1_error (x : Q) : x - 0.05 <= Py.round1 x <= x + 0.05.
Proof.
  unfold Py.round1. rewrite div10.
  pose proof (round_error (x * 10)). lra.
Qed.

(** Rounding to one decimal never crosses a multiple of one tenth. *)
Lemma round1_ge (lo : Q) (n : Z) (x : Q) :
  lo == inject_Z n * 0.1 -> lo <= x -> lo <= Py.round1 x.
Proof.
  intros E H. unfold Py.round1. rewrite div10, E.
  assert (Hn : (n <= Py.round (x * 10))%Z) by (apply round_ge_int; lra).
  rewrite Zle_Qle in Hn. lra.
Qed.

Lemma round1_le (hi : Q) (n : Z) (x : Q) :
  hi == inject_Z n * 0.1 -> x <= hi -> Py.round1 x <= hi.
Proof.
  intros E H. unfold Py.round1. rewrite div10, E.
  assert (Hn : (Py.round (x * 10) <= n)%Z) by (apply round_le_int; lra).
  rewrite Zle_Qle in Hn. lra.
Qed.

Lemma round1_fix (n : Z) (x : Q) :
  x == inject_Z n * 0.1 -> Py.round1 x == x.
Proof.
  intros E. unfold Py.round1. rewrite div10.
  rewrite (round_int n) by lra. lra.
Qed.

(** The clamp-then-round chain of every percentage and mass. *)
Lemma round1_clamp_bounds (lo hi : Q) (nlo nhi : Z) (x : Q) :
  lo == inject_Z nlo * 0.1 -> hi == inject_Z nhi * 0.1 -> lo <= hi ->
  lo <= Py.round1 (Py.max lo (Py.min hi x)) <= hi.
Proof.
  intros Elo Ehi Hlh.
  destruct (clamp_bounds lo hi x Hlh) as [H1 H2].
  split.
  - now apply (round1_ge lo nlo).
  - now apply (round1_le hi nhi).
Qed.

Lemma round_clamp_bounds (lo hi : Z) (x : Q) :
  (lo <= hi)%Z ->
  (lo <= Py.round (Py.max (inject_Z lo) (Py.min (inject_Z hi) x)) <= hi)%Z.
Proof.
  intros Hlh. rewrite Zle_Qle in Hlh.
  destruct (clamp_bounds (inject_Z lo) (inject_Z hi) x Hlh) as [H1 H2].
  split.
  - now apply round_ge_int.
  - now apply round_le_int.
Qed.

(** ** The calculator returns on valid input *)

Lemma div_some (a b : Q) : ~ b == 0 -> Py.div a b = Some (a / b).
Proof.
  intros H. unfold Py.div.
  destruct (Qeq_bool b 0) eqn:E; [ | reflexivity ].
  apply Qeq_bool_eq in E. contradiction.
Qed.

Lemma div_none (a b : Q) : b == 0 -> Py.div a b = None.
Proof.
  intros H. unfold Py.div. now rewrite (Qeq_eq_bool _ _ H).
Qed.

Lemma sq_pos (a : Q) : 0 < a -> 0 < Py.sq (a / 100).
Proof.
  intros H. unfold Py.sq.
  assert (E : a / 100 == a * 0.01) by (unfold Qdiv; reflexivity).
  rewrite E. simpl. nra.
Qed.

Lemma div_nonneg (a b : Q) : 0 <= a -> 0 < b -> 0 <= a / b.
Proof. intros Ha Hb. apply Qle_shift_div_l; lra. Qed.

(** The lean body mass before the floor, as the source computes it. *)
Lemma lean_body_mass_some (self : BodyMetricsCalculator) :
  0 < c_impedance self ->
  exists lbm,
    get_lean_body_mass self = Some (Py.max lbm (c_weight self * 0.25))
    /\ lbm =
       (if is_male self then
          45.0 * Py.sq (c_height self / 100) / c_impedance self
            + 0.40 * c_weight self - 0.05 * inject_Z (c_age self) + 27.0
        else
          55.0 * Py.sq (c_height self / 100) / c_impedance self
            + 0.35 * c_weight self - 0.05 * inject_Z (c_age self) + 20.0).
Proof.
  intros Hz. unfold get_lean_body_mass.
  destruct (is_male self); rewrite div_some by lra; cbn [bind];
    eexists; split; reflexivity.
Qed.

Lemma lean_body_mass_floor (self : BodyMetricsCalculator) (lbm : Q) :
  get_lean_body_mass self = Some lbm -> c_weight self * 0.25 <= lbm.
Proof.
  unfold get_lean_body_mass. intros H.
  destruct (is_male self);
    match type of H with
    | context [Py.div ?a ?b] => destruct (Py.div a b)
    end; cbn [bind] in H; try discriminate;
    injection H as <-; apply max_lower.
Qed.

Lemma fat_percentage_some (self : BodyMetricsCalculator) (lbm : Q) :
  0 < c_weight self ->
  get_lean_body_mass self = Some lbm ->
  get_fat_percentage self =
    Some (Py.round1 (Py.max 3.0 (Py.min 60.0
            ((c_weight self - lbm) / c_weight self * 100)))).
Proof.
  intros Hw Hl. unfold get_fat_percentage.
  rewrite Hl. cbn [bind]. rewrite div_some by lra. reflexivity.
Qed.

Lemma bone_mass_some (self : BodyMetricsCalculator) (lbm : Q) :
  get_lean_body_mass self = Some lbm ->
  get_bone_mass self =
    Some (Py.round1 (Py.max 0.5 (Py.min 8.0
            (if is_male self then lbm * 0.049 else lbm * 0.048)))).
Proof. intros Hl. unfold get_bone_mass. now rewrite Hl. Qed.

Lemma muscle_mass_some (self : BodyMetricsCalculator) (lbm bone : Q) :
  get_lean_body_mass self = Some lbm ->
  get_bone_mass self = Some bone ->
  get_muscle_mass self = Some (Py.round1 (Py.max 10.0 (lbm - bone))).
Proof. intros Hl Hb. unfold get_muscle_mass. now rewrite Hl, Hb. Qed.

Lemma water_percentage_some (self : BodyMetricsCalculator) (fat : Q) :
  get_fat_percentage self = Some fat ->
  get_water_percentage self =
    Some (Py.round1 (Py.max 35.0 (Py.min 75.0 ((100 - fat) * 0.7126)))).
Proof. intros Hf. unfold get_water_percentage. now rewrite Hf. Qed.

Lemma bmr_some (self : BodyMetricsCalculator) (lbm : Q) :
  get_lean_body_mass self = Some lbm ->
  get_bmr self =
    Some (Py.round (Py.max 500 (Py.min 3000
            (if is_male self
             then 360 + 21.6 * lbm - 1.5 * inject_Z (c_age self)
             else 340 + 21.6 * lbm - 1.5 * inject_Z (c_age self))))).
Proof. intros Hl. unfold get_bmr. now rewrite Hl. Qed.

Lemma metabolic_age_some (self : BodyMetricsCalculator) (fat : Q) :
  get_fat_percentage self = Some fat ->
  get_metabolic_age self =
    Some (Py.round (Py.max 15 (Py.min 90
            (inject_Z (c_age self)
             + (fat - (if is_male self then 20.0 else 25.0)) * 0.88)))).
Proof. intros Hf. unfold get_metabolic_age. now rewrite Hf. Qed.

Lemma protein_percentage_some (self : BodyMetricsCalculator) (muscle : Q) :
  0 < c_weight self ->
  get_muscle_mass self = Some muscle ->
  get_protein_percentage self =
    Some (Py.round1 (Py.max 5.0 (Py.min 25.0
            (muscle / c_weight self * 100 * 0.189)))).
Proof.
  intros Hw Hm. unfold get_protein_percentage.
  rewrite Hm. cbn [bind]. rewrite div_some by lra. reflexivity.
Qed.

Lemma fat_level_le (male : bool) (fat : Q) : (fat_level male fat <= 2)%nat.
Proof.
  unfold fat_level.
  destruct male; repeat match goal with
                        | |- context [Py.ltb ?a ?b] => destruct (Py.ltb a b)
                        end; lia.
Qed.

Lemma muscle_level_le (male : bool) (muscle weight : Q) :
  (muscle_level male muscle weight <= 2)%nat.
Proof.
  unfold muscle_level.
  destruct male; repeat match goal with
                        | |- context [Py.ltb ?a ?b] => destruct (Py.ltb a b)
                        end; lia.
Qed.

(** Every index the two levels can produce is inside [BODY_TYPES]. *)
Lemma body_types_index (fl ml : nat) :
  (fl <= 2)%nat -> (ml <= 2)%nat ->
  exists s, nth_error BODY_TYPES (fl * 3 + ml) = Some s /\ In s BODY_TYPES.
Proof.
  intros Hf Hm.
  assert (Hc : (fl = 0 \/ fl = 1 \/ fl = 2)%nat) by lia.
  assert (Hd : (ml = 0 \/ ml = 1 \/ ml = 2)%nat) by lia.
  destruct Hc as [-> | [-> | ->]]; destruct Hd as [-> | [-> | ->]];
    eexists; (split; [ reflexivity | simpl; tauto ]).
Qed.

Lemma body_type_some (self : BodyMetricsCalculator) (fat muscle : Q) :
  get_fat_percentage self = Some fat ->
  get_muscle_mass self = Some muscle ->
  get_body_type self =
    nth_error BODY_TYPES
      (fat_level (is_male self) fat * 3
       + muscle_level (is_male self) muscle (c_weight self)).
Proof. intros Hf Hm. unfold get_body_type. now rewrite Hf, Hm. Qed.

(** On valid input every getter returns, and [calculate_all] assembles
    the record from their values. *)
Lemma calculate_all_some (self : BodyMetricsCalculator) :
  valid_input self ->
  exists lbm fat bone muscle water visceral v_bmr v_age protein v_type,
    get_lean_body_mass self = Some lbm
    /\ get_fat_percentage self = Some fat
    /\ get_bone_mass self = Some bone
    /\ get_muscle_mass self = Some muscle
    /\ get_water_percentage self = Some water
    /\ get_visceral_fat self = Some visceral
    /\ get_bmr self = Some v_bmr
    /\ get_metabolic_age self = Some v_age
    /\ get_protein_percentage self = Some protein
    /\ get_body_type self = Some v_type
    /\ calculate_all self =
       Some {| bmi :=
                 Py.round1 (c_weight self / Py.sq (c_height self / 100));
               body_fat := fat;
               muscle_mass := muscle;
               bone_mass := bone;
               water_percentage := water;
               visceral_fat := visceral;
               bmr := v_bmr;
               metabolic_age := v_age;
               protein_percentage := protein;
               ideal_weight :=
                 Py.round1 (22 * Py.sq (c_height self / 100));
               body_type := v_type;
               lean_body_mass := Py.round1 lbm |}.
Proof.
  intros (Hw & Hz & Hh).
  destruct (lean_body_mass_some self Hz) as (raw & Hl & _).
  pose proof (fat_percentage_some self _ Hw Hl) as Hf.
  pose proof (bone_mass_some self _ Hl) as Hb.
  pose proof (muscle_mass_some self _ _ Hl Hb) as Hm.
  pose proof (water_percentage_some self _ Hf) as Hwa.
  pose proof (bmr_some self _ Hl) as Hbmr.
  pose proof (metabolic_age_some self _ Hf) as Hage.
  pose proof (protein_percentage_some self _ Hw Hm) as Hp.
  pose proof (body_type_some self _ _ Hf Hm) as Ht.
  match type of Ht with
  | _ = nth_error _ (?f * 3 + ?m)%nat =>
      destruct (body_types_index f m
                  (fat_level_le _ _) (muscle_level_le _ _ _))
        as (s & Hs & _)
  end.
  rewrite Hs in Ht.
  do 10 eexists.
  repeat (split; [ eassumption || reflexivity | ]).
  unfold calculate_all, get_bmi, get_ideal_weight.
  pose proof (sq_pos _ Hh) as Hsq.
  rewrite div_some by lra.
  rewrite Hf, Hm, Hb, Hwa, Hbmr, Hage, Hp, Ht, Hl.
  reflexivity.
Qed.

(** ** Rounding is monotone and respects equality of rationals *)

Lemma round_mono (x y : Q) : x <= y -> (Py.round x <= Py.round y)%Z.
Proof.
  intros H.
  pose proof (Qfloor_resp_le _ _ H) as Hf.
  destruct (Z.eq_dec (Qfloor x) (Qfloor y)) as [E | NE].
  - unfold Py.round. rewrite <- E.
    destruct (Qcompare_spec (x - inject_Z (Qfloor x)) 0.5) as [Ex | Lx | Gx];
      destruct (Qcompare_spec (y - inject_Z (Qfloor x)) 0.5) as [Ey | Ly | Gy];
      try destruct (Z.even (Qfloor x)); try lia; lra.
  - pose proof (round_le_floor_succ x). pose proof (floor_le_round y). lia.
Qed.

Lemma round_comp (x y : Q) : x == y -> Py.round x = Py.round y.
Proof.
  intros E. apply Z.le_antisymm; apply round_mono; lra.
Qed.

Lemma round1_mono (x y : Q) : x <= y -> Py.round1 x <= Py.round1 y.
Proof.
  intros H. unfold Py.round1. rewrite !div10.
  assert (Hr : (Py.round (x * 10) <= Py.round (y * 10))%Z)
    by (apply round_mono; lra).
  rewrite Zle_Qle in Hr. lra.
Qed.

Lemma round1_comp (x y : Q) : x == y -> Py.round1 x == Py.round1 y.
Proof.
  intros E. apply Qle_antisym; apply round1_mono; lra.
Qed.

Lemma max_is_Qmax (a b : Q) : Py.max a b == Qmax a b.
Proof.
  destruct (max_cases a b) as [[H ->] | [H ->]];
    destruct (Q.max_spec a b) as [[H' E] | [H' E]]; rewrite E; lra.
Qed.

Lemma min_is_Qmin (a b : Q) : Py.min a b == Qmin a b.
Proof.
  destruct (min_cases a b) as [[H ->] | [H ->]];
    destruct (Q.min_spec a b) as [[H' E] | [H' E]]; rewrite E; lra.
Qed.

Lemma max_min_is_clamp (lo hi x : Q) :
  Py.max lo (Py.min hi x) == clamp lo hi x.
Proof.
  unfold clamp. rewrite max_is_Qmax.
  apply Q.max_compat; [ reflexivity | apply min_is_Qmin ].
Qed.

Lemma clamp_comp (lo hi x y : Q) : x == y -> clamp lo hi x == clamp lo hi y.
Proof.
  intros E. unfold clamp.
  apply Q.max_compat; [ reflexivity | ].
  apply Q.min_compat; [ reflexivity | exact E ].
Qed.

(** ** C1: the floor of the lean body mass and the reported field *)

(** C1, counterexample.  The claim as stated fails: for a weight of
    80.1 kg the floor is 20.025 kg, and when the floor applies the
    reported field is that value rounded to one decimal, 20.0. *)
Lemma lean_body_mass_floor_lost_by_rounding :
  valid_input floor_case
  /\ exists r,
       calculate_all floor_case = Some r
       /\ get_lean_body_mass floor_case = Some (c_weight floor_case * 0.25)
       /\ lean_body_mass r == 20.0
       /\ ~ (c_weight floor_case * 0.25 <= lean_body_mass r).
Proof.
  split.
  - repeat split.
  - eexists. split; [ vm_compute; reflexivity | ].
    split; [ reflexivity | ].
    split; [ reflexivity | ].
    cbn. intros H. vm_compute in H. apply H. reflexivity.
Qed.

(** C1, amended.  On every valid input [calculate_all] returns, and its
    [lean_body_mass] field is at least the floor [weight * 0.25] rounded
    to one decimal, hence at least [weight * 0.25 - 0.05]; it is at least
    [weight * 0.25] itself whenever the age is at most 399, which covers
    the 1..99 of the data model. *)
Theorem lean_body_mass_floor_up_to_rounding (self : BodyMetricsCalculator) :
  valid_input self ->
  exists r,
    calculate_all self = Some r
    /\ Py.round1 (c_weight self * 0.25) <= lean_body_mass r
    /\ c_weight self * 0.25 - 0.05 <= lean_body_mass r
    /\ ((c_age self <= 399)%Z -> c_weight self * 0.25 <= lean_body_mass r).
Proof.
  intros Hv.
  destruct (calculate_all_some self Hv)
    as (lbm & fat & bone & muscle & water & visceral & v_bmr & v_age
        & protein & v_type & Hl & _ & _ & _ & _ & _ & _ & _ & _ & _ & Hc).
  destruct Hv as (Hw & Hz & Hh).
  eexists. split; [ exact Hc | ]. cbn [lean_body_mass].
  pose proof (lean_body_mass_floor self lbm Hl) as Hfloor.
  pose proof (round1_mono _ _ Hfloor) as Hmono.
  pose proof (round1_error (c_weight self * 0.25)) as Herr.
  split; [ exact Hmono | ].
  split; [ lra | ].
  intros Hage.
  destruct (lean_body_mass_some self Hz) as (raw & Hl' & Hraw).
  rewrite Hl in Hl'. injection Hl' as ->.
  pose proof (round1_error (Py.max raw (c_weight self * 0.25))) as Herr'.
  pose proof (max_lower raw (c_weight self * 0.25)) as [Hmax _].
  assert (Hq : 0 <= inject_Z 399 - inject_Z (c_age self)).
  { rewrite Zle_Qle in Hage. lra. }
  change (inject_Z 399) with 399 in Hq.
  pose proof (sq_pos _ Hh) as Hsq.
  assert (Hraw' : c_weight self * 0.25 + 0.05 <= raw).
  { rewrite Hraw. destruct (is_male self).
    - pose proof (div_nonneg (45.0 * Py.sq (c_height self / 100))
                    (c_impedance self) ltac:(lra) Hz). lra.
    - pose proof (div_nonneg (55.0 * Py.sq (c_height self / 100))
                    (c_impedance self) ltac:(lra) Hz). lra. }
  lra.
Qed.

(** Witness of the amended C1 on an ordinary adult. *)
Lemma lean_body_mass_floor_up_to_rounding_witness :
  exists r,
    calculate_all adult_a = Some r
    /\ Py.round1 (c_weight adult_a * 0.25) <= lean_body_mass r
    /\ c_weight adult_a * 0.25 - 0.05 <= lean_body_mass r
    /\ ((c_age adult_a <= 399)%Z -> c_weight adult_a * 0.25 <= lean_body_mass r).
Proof.
  apply (lean_body_mass_floor_up_to_rounding adult_a).
  repeat split.
Defined.

(** ** C2: every clamped metric lies within its bound *)

Lemma visceral_fat_some (self : BodyMetricsCalculator) :
  exists vfal,
    get_visceral_fat self =
      Some (Py.round1 (Py.max 1.0 (Py.min 50.0 vfal))).
Proof. unfold get_visceral_fat. eexists. reflexivity. Qed.

Ltac tenths := first [ reflexivity | lra ].

(** C2.  On every valid input [calculate_all] returns a result whose
    body fat is in [3, 60], bone mass in [0.5, 8], water percentage in
    [35, 75], visceral fat in [1, 50], BMR in [500, 3000], metabolic age
    in [15, 90], protein percentage in [5, 25], and whose muscle mass is
    at least 10. *)
Theorem clamped_metrics_within_bounds (self : BodyMetricsCalculator) :
  valid_input self ->
  exists r,
    calculate_all self = Some r
    /\ 3.0 <= body_fat r <= 60.0
    /\ 0.5 <= bone_mass r <= 8.0
    /\ 35.0 <= water_percentage r <= 75.0
    /\ 1.0 <= visceral_fat r <= 50.0
    /\ (500 <= bmr r <= 3000)%Z
    /\ (15 <= metabolic_age r <= 90)%Z
    /\ 5.0 <= protein_percentage r <= 25.0
    /\ 10.0 <= muscle_mass r.
Proof.
  intros Hv.
  destruct (calculate_all_some self Hv)
    as (lbm & fat & bone & muscle & water & visceral & v_bmr & v_age
        & protein & v_type & Hl & Hf & Hb & Hm & Hwa & Hvi & Hbmr & Hage
        & Hp & _ & Hc).
  destruct Hv as (Hw & Hz & Hh).
  eexists. split; [ exact Hc | ]. cbn.
  rewrite (fat_percentage_some self _ Hw Hl) in Hf. injection Hf as <-.
  rewrite (water_percentage_some self _ (fat_percentage_some self _ Hw Hl))
    in Hwa. injection Hwa as <-.
  pose proof Hb as Hb'.
  rewrite (bone_mass_some self _ Hl) in Hb'. injection Hb' as Eb.
  pose proof Hm as Hm'.
  rewrite (muscle_mass_some self _ _ Hl Hb) in Hm'. injection Hm' as Em.
  rewrite (protein_percentage_some self _ Hw Hm) in Hp. injection Hp as <-.
  rewrite (bmr_some self _ Hl) in Hbmr. injection Hbmr as <-.
  rewrite (metabolic_age_some self _ (fat_percentage_some self _ Hw Hl))
    in Hage. injection Hage as <-.
  destruct (visceral_fat_some self) as (vfal & Hvi').
  rewrite Hvi' in Hvi. injection Hvi as <-.
  rewrite <- Eb, <- Em.
  split; [ apply (round1_clamp_bounds 3.0 60.0 30 600); tenths | ].
  split; [ apply (round1_clamp_bounds 0.5 8.0 5 80); tenths | ].
  split; [ apply (round1_clamp_bounds 35.0 75.0 350 750); tenths | ].
  split; [ apply (round1_clamp_bounds 1.0 50.0 10 500); tenths | ].
  split; [ apply (round_clamp_bounds 500 3000); lia | ].
  split; [ apply (round_clamp_bounds 15 90); lia | ].
  split; [ apply (round1_clamp_bounds 5.0 25.0 50 250); tenths | ].
  apply (round1_ge 10.0 100); [ tenths | apply max_lower ].
Qed.

(** Witness of C2 on an ordinary adult. *)
Lemma clamped_metrics_within_bounds_witness :
  exists r,
    calculate_all adult_a = Some r
    /\ 3.0 <= body_fat r <= 60.0
    /\ 0.5 <= bone_mass r <= 8.0
    /\ 35.0 <= water_percentage r <= 75.0
    /\ 1.0 <= visceral_fat r <= 50.0
    /\ (500 <= bmr r <= 3000)%Z
    /\ (15 <= metabolic_age r <= 90)%Z
    /\ 5.0 <= protein_percentage r <= 25.0
    /\ 10.0 <= muscle_mass r.
Proof.
  apply (clamped_metrics_within_bounds adult_a).
  repeat split.
Defined.

(** ** C5: water percentage consumes the clamped fat percentage *)

Lemma body_fat_is_clamped_fat (self : BodyMetricsCalculator) (lbm fat : Q) :
  0 < c_weight self ->
  get_lean_body_mass self = Some lbm ->
  get_fat_percentage self = Some fat ->
  fat == clamped_fat (c_weight self) lbm.
Proof.
  intros Hw Hl Hf.
  rewrite (fat_percentage_some self _ Hw Hl) in Hf. injection Hf as <-.
  unfold clamped_fat. apply round1_comp, max_min_is_clamp.
Qed.

(** C5.  On every valid input the reported water percentage is the
    clamp-and-round chain applied to the fat percentage that was itself
    clamped to [3, 60] and rounded; the reported body fat is that same
    clamped value. *)
Theorem water_percentage_uses_clamped_fat (self : BodyMetricsCalculator) :
  valid_input self ->
  exists r lbm,
    calculate_all self = Some r
    /\ get_lean_body_mass self = Some lbm
    /\ body_fat r == clamped_fat (c_weight self) lbm
    /\ water_percentage r == water_of_clamped_fat (c_weight self) lbm.
Proof.
  intros Hv.
  destruct (calculate_all_some self Hv)
    as (lbm & fat & bone & muscle & water & visceral & v_bmr & v_age
        & protein & v_type & Hl & Hf & _ & _ & Hwa & _ & _ & _ & _ & _ & Hc).
  destruct Hv as (Hw & Hz & Hh).
  exists (mkResult
            (Py.round1 (c_weight self / Py.sq (c_height self / 100)))
            fat muscle bone water visceral v_bmr v_age protein
            (Py.round1 (22 * Py.sq (c_height self / 100)))
            v_type (Py.round1 lbm)), lbm.
  split; [ exact Hc | ]. split; [ exact Hl | ]. cbn.
  pose proof (body_fat_is_clamped_fat self lbm fat Hw Hl Hf) as Efat.
  split; [ exact Efat | ].
  rewrite (water_percentage_some self _ Hf) in Hwa. injection Hwa as <-.
  unfold water_of_clamped_fat.
  apply round1_comp. rewrite max_min_is_clamp.
  apply clamp_comp. rewrite Efat. reflexivity.
Qed.

(** Witness of C5 on an ordinary adult. *)
Lemma water_percentage_uses_clamped_fat_witness :
  exists r lbm,
    calculate_all adult_a = Some r
    /\ get_lean_body_mass adult_a = Some lbm
    /\ body_fat r == clamped_fat (c_weight adult_a) lbm
    /\ water_percentage r == water_of_clamped_fat (c_weight adult_a) lbm.
Proof.
  apply (water_percentage_uses_clamped_fat adult_a).
  repeat split.
Defined.

(** The two chains are different functions: for a light adult the fat
    percentage is clamped up to 3.0 and the code reports 69.1 percent of
    water, where the raw fat percentage would give 74.4. *)
Lemma clamped_and_raw_chain_differ :
  exists r lbm,
    calculate_all light_adult = Some r
    /\ get_lean_body_mass light_adult = Some lbm
    /\ water_percentage r == 69.1
    /\ water_of_raw_fat (c_weight light_adult) lbm == 74.4.
Proof.
  do 2 eexists.
  split; [ vm_compute; reflexivity | ].
  split; [ vm_compute; reflexivity | ].
  split; vm_compute; reflexivity.
Qed.

(** ** C8: the body type depends on sex, fat percentage and muscle ratio *)

Lemma fat_level_is_fat_class (male : bool) (fat : Q) :
  fat_level male fat = fat_class male fat.
Proof.
  unfold fat_level, fat_class.
  destruct male; cbv zeta beta iota;
    repeat match goal with
           | |- context [Py.ltb ?a ?b] =>
               let E := fresh in
               destruct (Py.ltb a b) eqn:E;
               [ apply ltb_true in E | apply ltb_false in E ]
           | |- context [Qlt_le_dec ?a ?b] => destruct (Qlt_le_dec a b)
           end; try reflexivity; lra.
Qed.

Lemma ratio_lt (muscle weight k : Q) :
  0 < weight -> (muscle < weight * k <-> muscle / weight < k).
Proof.
  intros Hw. split; intros H.
  - apply Qlt_shift_div_r; lra.
  - assert (E : muscle == muscle / weight * weight) by (field; lra).
    rewrite E. nra.
Qed.

Lemma muscle_level_is_muscle_class (male : bool) (muscle weight : Q) :
  0 < weight ->
  muscle_level male muscle weight = muscle_class male (muscle / weight).
Proof.
  intros Hw. unfold muscle_level, muscle_class.
  destruct male; cbv zeta beta iota;
    repeat match goal with
           | |- context [Py.ltb ?a ?b] =>
               let E := fresh in
               destruct (Py.ltb a b) eqn:E;
               [ apply ltb_true in E | apply ltb_false in E ]
           | |- context [Qlt_le_dec ?a ?b] => destruct (Qlt_le_dec a b)
           end; try reflexivity;
    repeat match goal with
           | H : _ < weight * _ |- _ => apply (ratio_lt _ _ _ Hw) in H
           | H : weight * ?k <= ?m |- _ =>
               assert (~ m / weight < k)
                 by (rewrite <- (ratio_lt _ _ _ Hw); lra);
               clear H
           end; lra.
Qed.

Lemma fat_class_comp (male : bool) (f1 f2 : Q) :
  f1 == f2 -> fat_class male f1 = fat_class male f2.
Proof.
  intros E. unfold fat_class.
  destruct male; cbv zeta beta iota;
    repeat match goal with
           | |- context [Qlt_le_dec ?a ?b] => destruct (Qlt_le_dec a b)
           end; try reflexivity; lra.
Qed.

Lemma muscle_class_comp (male : bool) (r1 r2 : Q) :
  r1 == r2 -> muscle_class male r1 = muscle_class male r2.
Proof.
  intros E. unfold muscle_class.
  destruct male; cbv zeta beta iota;
    repeat match goal with
           | |- context [Qlt_le_dec ?a ?b] => destruct (Qlt_le_dec a b)
           end; try reflexivity; lra.
Qed.

(** [get_body_type] factors through the classification on fat percentage
    and muscle mass as a fraction of weight. *)
Lemma body_type_is_classify (self : BodyMetricsCalculator) (fat muscle : Q) :
  0 < c_weight self ->
  get_fat_percentage self = Some fat ->
  get_muscle_mass self = Some muscle ->
  get_body_type self = classify (is_male self) fat (muscle / c_weight self).
Proof.
  intros Hw Hf Hm.
  rewrite (body_type_some self _ _ Hf Hm). unfold classify.
  now rewrite fat_level_is_fat_class, muscle_level_is_muscle_class.
Qed.

(** C8.  Two calculators of the same sex and positive weights whose fat
    percentages agree and whose muscle masses are the same fraction of
    the weight return the same body type, whatever their ages and
    heights; it is the entry of [BODY_TYPES] at index
    [fat_level * 3 + muscle_level], both levels being 0, 1 or 2. *)
Theorem body_type_depends_on_fat_and_muscle_ratio
  (c1 c2 : BodyMetricsCalculator) (fat1 muscle1 fat2 muscle2 : Q) :
  c_sex c1 = c_sex c2 ->
  0 < c_weight c1 ->
  0 < c_weight c2 ->
  get_fat_percentage c1 = Some fat1 ->
  get_muscle_mass c1 = Some muscle1 ->
  get_fat_percentage c2 = Some fat2 ->
  get_muscle_mass c2 = Some muscle2 ->
  fat1 == fat2 ->
  muscle1 / c_weight c1 == muscle2 / c_weight c2 ->
  exists fl ml s,
    (fl <= 2)%nat /\ (ml <= 2)%nat
    /\ nth_error BODY_TYPES (fl * 3 + ml) = Some s
    /\ get_body_type c1 = Some s
    /\ get_body_type c2 = Some s.
Proof.
  intros Hsex Hw1 Hw2 Hf1 Hm1 Hf2 Hm2 Ef Em.
  pose proof (body_type_is_classify c1 _ _ Hw1 Hf1 Hm1) as H1.
  pose proof (body_type_is_classify c2 _ _ Hw2 Hf2 Hm2) as H2.
  assert (Hmale : is_male c1 = is_male c2) by (unfold is_male; now rewrite Hsex).
  unfold classify in H1, H2.
  rewrite <- Hmale, <- (fat_class_comp _ _ _ Ef),
    <- (muscle_class_comp _ _ _ Em) in H2.
  rewrite <- fat_level_is_fat_class in H1, H2.
  rewrite <- (muscle_level_is_muscle_class _ _ _ Hw1) in H1, H2.
  destruct (body_types_index _ _
              (fat_level_le (is_male c1) fat1)
              (muscle_level_le (is_male c1) muscle1 (c_weight c1)))
    as (s & Hs & _).
  exists (fat_level (is_male c1) fat1),
    (muscle_level (is_male c1) muscle1 (c_weight c1)), s.
  split; [ apply fat_level_le | ].
  split; [ apply muscle_level_le | ].
  split; [ exact Hs | ].
  rewrite H1, H2, Hs. split; reflexivity.
Qed.

(** Witness of C8: two adults of different age and height. *)
Lemma body_type_depends_on_fat_and_muscle_ratio_witness :
  exists fl ml s,
    (fl <= 2)%nat /\ (ml <= 2)%nat
    /\ nth_error BODY_TYPES (fl * 3 + ml) = Some s
    /\ get_body_type adult_a = Some s
    /\ get_body_type adult_b = Some s.
Proof.
  refine (body_type_depends_on_fat_and_muscle_ratio
            adult_a adult_b 25.6 53.1 25.6 53.1 _ _ _ _ _ _ _ _ _);
    vm_compute; reflexivity.
Defined.

(** ** C3, C4, C10: the containment test of the matcher *)

Lemma in_range_spec (pc : ProfileConfig) (w : Q) :
  in_range pc w = true
  <-> weight_min pc <= measured pc w <= weight_max pc.
Proof.
  unfold in_range. rewrite andb_true_iff, !leb_true. tauto.
Qed.

Lemma in_range_false (pc : ProfileConfig) (w : Q) :
  in_range pc w = false
  <-> measured pc w < weight_min pc \/ weight_max pc < measured pc w.
Proof.
  unfold in_range. rewrite andb_false_iff, !leb_false. tauto.
Qed.

Lemma pounds_as_kilograms (lo hi w : Q) :
  lo <= w * 2.20462 <= hi <-> lo / 2.20462 <= w <= hi / 2.20462.
Proof.
  split; intros [H1 H2]; split.
  - apply Qle_shift_div_r; lra.
  - apply Qle_shift_div_l; lra.
  - assert (E : lo == lo / 2.20462 * 2.20462) by (field; lra).
    rewrite E. nra.
  - assert (E : hi == hi / 2.20462 * 2.20462) by (field; lra).
    rewrite E. nra.
Qed.

(** C3, counterexample.  A range of 60 to 90 pounds matches a reading of
    30 kg, yet 30 is not between [60 * 2.20462] and [90 * 2.20462]: the
    stored range is not multiplied by the factor. *)
Lemma pounds_range_is_not_multiplied :
  weight_unit child_lbs = WEIGHT_UNIT_LBS
  /\ in_range child_lbs 30 = true
  /\ ~ (weight_min child_lbs * 2.20462 <= 30
        <= weight_max child_lbs * 2.20462).
Proof.
  split; [ reflexivity | ]. split; [ reflexivity | ].
  cbn. intros [H _]. lra.
Qed.

(** C3, amended.  For a profile configured in pounds the matcher converts
    the reading to pounds, [weight_kg * 2.20462], and compares that with
    the stored range; put in kilograms, the range is divided by the
    factor.  For any other unit the stored range is compared with
    [weight_kg] directly. *)
Theorem matcher_compares_in_profile_unit (pc : ProfileConfig) (w : Q) :
  in_range pc w = true
  <-> (if String.eqb (weight_unit pc) WEIGHT_UNIT_LBS
       then weight_min pc <= w * 2.20462 <= weight_max pc
            /\ weight_min pc / 2.20462 <= w <= weight_max pc / 2.20462
       else weight_min pc <= w <= weight_max pc).
Proof.
  rewrite in_range_spec. unfold measured, KG_TO_LBS.
  destruct (String.eqb (weight_unit pc) WEIGHT_UNIT_LBS).
  - rewrite <- pounds_as_kilograms. tauto.
  - tauto.
Qed.

(** C4.  For a range of 60 to 90 pounds the containment test accepts a
    reading of 30 kg and rejects a reading of 20 kg. *)
Theorem pounds_range_60_90 (pc : ProfileConfig) :
  weight_min pc == 60 ->
  weight_max pc == 90 ->
  weight_unit pc = WEIGHT_UNIT_LBS ->
  in_range pc 30 = true /\ in_range pc 20 = false.
Proof.
  intros Hmin Hmax Hu. split.
  - apply in_range_spec. unfold measured, KG_TO_LBS. rewrite Hu. cbn. lra.
  - apply in_range_false. unfold measured, KG_TO_LBS. rewrite Hu. cbn. lra.
Qed.

(** Witness of C4. *)
Lemma pounds_range_60_90_witness :
  in_range child_lbs 30 = true /\ in_range child_lbs 20 = false.
Proof.
  apply (pounds_range_60_90 child_lbs); reflexivity.
Defined.

(** An entity whose profile does not contain the reading is left alone. *)
Lemma out_of_range_is_ignored (client : Client) (self : Entity) :
  (forall st w,
     state client = Some st -> final_weight_kg st = Some w ->
     in_range (profile_config self) w = false) ->
  _handle_extended_update client self = (self, []).
Proof.
  intros H. unfold _handle_extended_update.
  destruct (impedance_final client); [ | reflexivity ].
  destruct (state client) as [st | ]; [ | reflexivity ].
  destruct (final_weight_kg st) as [w | ] eqn:Ew; [ | reflexivity ].
  now rewrite (H st w eq_refl Ew).
Qed.

(** C10.  A profile whose range is inverted, [weight_min > weight_max],
    contains no reading at all: the containment test is false for every
    weight, and the callback returns without result, effect or error. *)
Theorem inverted_range_matches_nothing (pc : ProfileConfig) :
  weight_max pc < weight_min pc ->
  (forall w, in_range pc w = false)
  /\ (forall client self,
        profile_config self = pc ->
        _handle_extended_update client self = (self, [])).
Proof.
  intros Hinv.
  assert (Hno : forall w, in_range pc w = false).
  { intros w. apply in_range_false.
    destruct (Qlt_le_dec (measured pc w) (weight_min pc)); [ left | right ];
      lra. }
  split; [ exact Hno | ].
  intros client self <-. apply out_of_range_is_ignored. intros; apply Hno.
Qed.

(** Witness of C10. *)
Lemma inverted_range_matches_nothing_witness :
  (forall w, in_range inverted_range w = false)
  /\ (forall client self,
        profile_config self = inverted_range ->
        _handle_extended_update client self = (self, [])).
Proof.
  apply (inverted_range_matches_nothing inverted_range).
  reflexivity.
Defined.

(** ** C6: the callback leaves the entity alone unless everything is known *)

(** C6.  When the final impedance is absent, or the client state or its
    final weight is absent, or the final weight converted to the
    profile's unit is outside [[weight_min, weight_max]], one run of
    [_handle_extended_update] returns the entity as it was (same native
    value, same last result) with no effect at all: the calculator is not
    invoked, nothing is written and nothing is logged. *)
Theorem update_skipped_unless_complete (client : Client) (self : Entity) :
  impedance_final client = None
  \/ state client = None
  \/ (exists st, state client = Some st /\ final_weight_kg st = None)
  \/ (exists st w,
        state client = Some st /\ final_weight_kg st = Some w
        /\ (measured (profile_config self) w < weight_min (profile_config self)
            \/ weight_max (profile_config self)
               < measured (profile_config self) w)) ->
  _handle_extended_update client self = (self, [])
  /\ attr_native_value (fst (_handle_extended_update client self))
     = attr_native_value self
  /\ last_result (fst (_handle_extended_update client self))
     = last_result self
  /\ (forall w z p,
        ~ In (CalculatorInvoked w z p)
             (snd (_handle_extended_update client self))).
Proof.
  intros H.
  assert (E : _handle_extended_update client self = (self, [])).
  { destruct H as [H | [H | [(st & Hs & Hw) | (st & w & Hs & Hw & Hout)]]].
    - unfold _handle_extended_update. now rewrite H.
    - unfold _handle_extended_update. rewrite H.
      now destruct (impedance_final client).
    - unfold _handle_extended_update. rewrite Hs, Hw.
      now destruct (impedance_final client).
    - apply out_of_range_is_ignored. intros st' w' Hs' Hw'.
      rewrite Hs in Hs'. injection Hs' as <-.
      rewrite Hw in Hw'. injection Hw' as <-.
      now apply in_range_false. }
  rewrite E. cbn. repeat split; auto.
Qed.

(** Witness of C6: a final reading of 20 kg is outside 60..90 pounds. *)
Lemma update_skipped_unless_complete_witness :
  _handle_extended_update (client_with_final 20) child_body_fat
    = (child_body_fat, [])
  /\ attr_native_value
       (fst (_handle_extended_update (client_with_final 20) child_body_fat))
     = attr_native_value child_body_fat
  /\ last_result
       (fst (_handle_extended_update (client_with_final 20) child_body_fat))
     = last_result child_body_fat
  /\ (forall w z p,
        ~ In (CalculatorInvoked w z p)
             (snd (_handle_extended_update (client_with_final 20)
                     child_body_fat))).
Proof.
  apply (update_skipped_unless_complete (client_with_final 20) child_body_fat).
  right. right. right.
  exists (mkBLEState 20 (Some 20) None false), 20.
  split; [ reflexivity | ]. split; [ reflexivity | ].
  left. vm_compute. reflexivity.
Defined.

(** The guard is not idle: a final reading of 30 kg inside the range
    invokes the calculator and publishes the new body fat. *)
Lemma update_runs_when_complete :
  let '(self', effects) :=
    _handle_extended_update (client_with_final 30) child_body_fat in
  exists r,
    last_result self' = Some r
    /\ attr_native_value self' = Some (VFloat (body_fat r))
    /\ effects = [ CalculatorInvoked 30 500 (profile child_lbs);
                   WriteHaState (VFloat (body_fat r)) ].
Proof. vm_compute. eexists. repeat split. Qed.

(** ** C9: the calculator never receives a zero impedance *)

(** Whatever the callback does, a calculator it builds carries the cached
    final impedance and the cached final weight. *)
Lemma invoked_from_cache (client : Client) (self : Entity)
  (w z : Q) (p : UserProfile) :
  In (CalculatorInvoked w z p) (snd (_handle_extended_update client self)) ->
  impedance_final client = Some z
  /\ exists st, state client = Some st /\ final_weight_kg st = Some w.
Proof.
  unfold _handle_extended_update.
  destruct (impedance_final client) as [z' | ]; [ | intros [] ].
  destruct (state client) as [st | ]; [ | intros [] ].
  destruct (final_weight_kg st) as [w' | ] eqn:Ew; [ | intros [] ].
  destruct (negb (in_range (profile_config self) w')); [ intros [] | ].
  assert (Hhead :
    forall rest,
      In (CalculatorInvoked w z p)
         (CalculatorInvoked w' z' (profile (profile_config self)) :: rest) ->
      (forall fx, In fx rest ->
         match fx with CalculatorInvoked _ _ _ => False | _ => True end) ->
      Some z' = Some z
      /\ exists st0, Some st = Some st0 /\ final_weight_kg st0 = Some w).
  { intros rest [E | Hin] Hrest.
    - injection E as -> -> _. split; [ reflexivity | ]. now exists st.
    - now apply Hrest in Hin. }
  destruct (calculate_all _) as [r | ].
  - destruct (extract_value (kind self) r) as [[v | ] | ]; cbn [snd];
      intros Hin; apply (Hhead _ Hin); cbn;
      intros fx Hfx; repeat destruct Hfx as [<- | Hfx]; auto; contradiction.
  - cbn [snd]. intros Hin. apply (Hhead _ Hin). cbn.
    intros fx Hfx; repeat destruct Hfx as [<- | Hfx]; auto; contradiction.
Qed.

Lemma positive_impedance_divides (w z : Q) (p : UserProfile) :
  0 < z -> get_lean_body_mass (new_calculator w z p) <> None.
Proof.
  intros Hz.
  destruct (lean_body_mass_some (new_calculator w z p) Hz) as (l & E & _).
  rewrite E. discriminate.
Qed.

(** A zero impedance would be the division fault the callers guard. *)
Lemma zero_impedance_raises (w : Q) (p : UserProfile) :
  get_lean_body_mass (new_calculator w 0 p) = None
  /\ calculate_all (new_calculator w 0 p) = None.
Proof.
  assert (E : get_lean_body_mass (new_calculator w 0 p) = None).
  { unfold get_lean_body_mass. cbn [c_impedance new_calculator].
    destruct (is_male _); rewrite div_none by reflexivity; reflexivity. }
  split; [ exact E | ].
  unfold calculate_all, get_fat_percentage. rewrite E. cbn [bind].
  now destruct (get_bmi _).
Qed.

Lemma handle_update_safe (client : Client) (self : Entity) :
  impedance_final_ok client ->
  Forall never_divides_by_zero (snd (_handle_extended_update client self)).
Proof.
  intros Hok. apply Forall_forall. intros [w z p | v | n] Hin; cbn; auto.
  apply invoked_from_cache in Hin as [Hz _].
  unfold impedance_final_ok in Hok. rewrite Hz in Hok.
  split; [ exact Hok | now apply positive_impedance_divides ].
Qed.

Lemma fire_callbacks_safe (client : Client) (entities : list Entity) :
  impedance_final_ok client ->
  Forall never_divides_by_zero (snd (fire_callbacks client entities)).
Proof.
  intros Hok. induction entities as [ | e rest IH]; cbn.
  - constructor.
  - pose proof (handle_update_safe client e Hok) as He.
    destruct (_handle_extended_update client e) as [e' fx].
    destruct (fire_callbacks client rest) as [rest' fxs].
    cbn in *. apply Forall_app. now split.
Qed.

Lemma deliver_safe (fired : list Notification) (entities : list Entity) :
  Forall (fun n => impedance_final_ok (snapshot_of n)) fired ->
  Forall never_divides_by_zero (snd (deliver fired entities)).
Proof.
  revert entities. induction fired as [ | n rest IH]; intros entities Hall.
  - constructor.
  - inversion Hall as [ | ? ? Hn Hrest]; subst. cbn.
    pose proof (fire_callbacks_safe (snapshot_of n) entities Hn) as Hf.
    destruct (fire_callbacks (snapshot_of n) entities) as [entities' fx].
    pose proof (IH entities' Hrest) as Hd.
    destruct (deliver rest entities') as [entities'' fxs].
    cbn in *. apply Forall_app. now split.
Qed.

Lemma set_state_keeps (self : Client) (st : EufyLifeBLEState) :
  impedance_final_ok self ->
  keeps_impedance_ok (Some (_set_state_and_fire_callbacks self st)).
Proof.
  intros Hok. unfold _set_state_and_fire_callbacks.
  destruct (state self) as [old | ]; [ destruct (state_eqb old st) | ];
    cbn; repeat split; auto.
Qed.

Lemma keeps_app (self : Client) (fired : list Notification)
  (st : EufyLifeBLEState) :
  impedance_final_ok self ->
  Forall (fun n => impedance_final_ok (snapshot_of n)) fired ->
  keeps_impedance_ok
    (let '(self', fired') := _set_state_and_fire_callbacks self st in
     Some (self', fired ++ fired')).
Proof.
  intros Hok Hall. pose proof (set_state_keeps self st Hok) as H.
  destruct (_set_state_and_fire_callbacks self st) as [self' fired'].
  cbn in *. destruct H as [H1 H2]. split; [ exact H1 | ].
  apply Forall_app. now split.
Qed.

Lemma tenth_positive (raw : Z) : (0 < raw)%Z -> 0 < inject_Z raw / 10.0.
Proof.
  intros H. rewrite Zlt_Qlt in H. change (inject_Z 0) with 0 in H.
  apply Qlt_shift_div_l; lra.
Qed.

Lemma set_heart_rate_ok (self : Client) (hr : Z) :
  impedance_final_ok self -> impedance_final_ok (set_heart_rate_extended self hr).
Proof. auto. Qed.

Lemma set_impedance_ok (self : Client) (z : Q) :
  impedance_final_ok self -> impedance_final_ok (set_impedance self z).
Proof. auto. Qed.

Lemma set_impedance_final_ok (self : Client) (z : Q) :
  0 < z -> impedance_final_ok (set_impedance_final self z).
Proof. auto. Qed.

Create HintDb impedance.

#[local] Hint Resolve set_heart_rate_ok set_impedance_ok
  set_impedance_final_ok tenth_positive : impedance.

(** Splits a computation on the outcome of its next fallible step. *)
Ltac next_step :=
  match goal with
  | |- context [bind ?m _] =>
      let E := fresh "E" in
      destruct m eqn:E; cbn [bind]; [ | exact I ]
  end.

Lemma t9150_body_comp_keeps (self : Client) (data : bytearray) :
  impedance_final_ok self ->
  keeps_impedance_ok (_handle_t9150_body_comp_packet self data).
Proof.
  intros Hok. unfold _handle_t9150_body_comp_packet.
  destruct (byte_at data 10) as [status | ]; cbn [bind]; [ | exact I ].
  destruct (byte_at data 15) as [hr | ]; cbn [bind]; [ | exact I ].
  assert (Hok1 : impedance_final_ok
                   (if (0 <? hr)%Z then set_heart_rate_extended self hr
                    else self))
    by (destruct (0 <? hr)%Z; auto with impedance).
  set (self1 := if (0 <? hr)%Z then set_heart_rate_extended self hr else self)
    in *.
  destruct (19 <=? len data)%Z.
  - destruct (byte_at data 17) as [b17 | ]; cbn [bind]; [ | exact I ].
    destruct (byte_at data 18) as [b18 | ]; cbn [bind]; [ | exact I ].
    destruct (0 <? Z.lor b17 (Z.shiftl b18 8))%Z eqn:Hraw; cbn [bind].
    + apply Z.ltb_lt in Hraw.
      destruct (byte_at data 13) as [b13 | ]; cbn [bind]; [ | exact I ].
      destruct (byte_at data 12) as [b12 | ]; cbn [bind]; [ | exact I ].
      apply keeps_app.
      * destruct (negb _); auto with impedance.
      * constructor; [ | constructor ]. cbn.
        destruct (negb _); auto with impedance.
    + destruct (byte_at data 13) as [b13 | ]; cbn [bind]; [ | exact I ].
      destruct (byte_at data 12) as [b12 | ]; cbn [bind]; [ | exact I ].
      apply keeps_app; [ exact Hok1 | constructor ].
  - cbn [bind].
    destruct (byte_at data 13) as [b13 | ]; cbn [bind]; [ | exact I ].
    destruct (byte_at data 12) as [b12 | ]; cbn [bind]; [ | exact I ].
    apply keeps_app; [ exact Hok1 | constructor ].
Qed.

Lemma t9148_keeps (self : Client) (data : bytearray) :
  impedance_final_ok self ->
  keeps_impedance_ok (_handle_weight_update_t9148_t9149 self data).
Proof.
  intros Hok. unfold _handle_weight_update_t9148_t9149.
  destruct (negb (len data =? 16)%Z); [ now split | ].
  destruct (byte_at data 0) as [b0 | ]; cbn [bind]; [ | exact I ].
  destruct (negb (b0 =? 0xCF)%Z); [ now split | ].
  destruct (byte_at data 2) as [b2 | ]; cbn [bind]; [ | exact I ].
  destruct (negb (b2 =? 0x00)%Z); [ now split | ].
  repeat next_step.
  match goal with
  | |- context [(0 <? ?raw)%Z] => destruct (0 <? raw)%Z eqn:Hraw
  end.
  - apply Z.ltb_lt in Hraw. rewrite Zlt_Qlt in Hraw.
    change (inject_Z 0) with 0 in Hraw.
    apply keeps_app.
    + destruct (_ =? _)%Z; auto with impedance.
    + constructor; [ | constructor ]. cbn.
      destruct (_ =? _)%Z; auto with impedance.
  - apply keeps_app; [ exact Hok | constructor ].
Qed.

Lemma t9150_advertisement_keeps (self : Client) (values : list bytearray)
  (upstream : option EufyLifeBLEState) :
  impedance_final_ok self ->
  keeps_impedance_ok (_handle_t9150_advertisement self values upstream).
Proof.
  intros Hok. unfold _handle_t9150_advertisement.
  destruct values as [ | v rest]; [ now split | ].
  destruct (select_packets (v :: rest) None None) as [[body weight] | ];
    cbn [bind]; [ | exact I ].
  destruct body as [body | ].
  - now apply t9150_body_comp_keeps.
  - destruct weight as [weight | ]; [ | now split ].
    destruct upstream as [st | ]; [ | now split ].
    now apply set_state_keeps.
Qed.

Lemma client_step_keeps (self : Client) (ev : Event) :
  impedance_final_ok self -> keeps_impedance_ok (client_step self ev).
Proof.
  intros Hok. destruct ev as [values upstream | data | st]; cbn.
  - now apply t9150_advertisement_keeps.
  - now apply t9148_keeps.
  - now apply set_state_keeps.
Qed.

(** One event preserves both halves of the invariant. *)
Lemma step_safe (s : System) (ev : Event) :
  impedance_final_ok (sys_client s) ->
  Forall never_divides_by_zero (sys_trace s) ->
  impedance_final_ok (sys_client (step s ev))
  /\ Forall never_divides_by_zero (sys_trace (step s ev)).
Proof.
  intros Hok Htrace. unfold step.
  pose proof (client_step_keeps (sys_client s) ev Hok) as Hk.
  destruct (client_step (sys_client s) ev) as [[client' fired] | ];
    [ | now split ].
  destruct Hk as [Hok' Hfired].
  pose proof (deliver_safe fired (sys_entities s) Hfired) as Hd.
  destruct (deliver fired (sys_entities s)) as [entities' fx].
  cbn in *. split; [ exact Hok' | ].
  apply Forall_app. now split.
Qed.

(** C9.  In every reachable state the cached final impedance is absent or
    strictly positive, and every calculator the matcher has built so far
    received a strictly positive impedance, for which the division in
    [get_lean_body_mass] returns. *)
Theorem impedance_never_zero (s : System) :
  reachable s ->
  impedance_final_ok (sys_client s)
  /\ (forall w z p,
        In (CalculatorInvoked w z p) (sys_trace s) ->
        0 < z /\ get_lean_body_mass (new_calculator w z p) <> None).
Proof.
  intros Hr.
  assert (H : impedance_final_ok (sys_client s)
              /\ Forall never_divides_by_zero (sys_trace s)).
  { induction Hr as [entities | s ev Hr [IH1 IH2]].
    - split; [ exact I | constructor ].
    - now apply step_safe. }
  destruct H as [H1 H2]. split; [ exact H1 | ].
  intros w z p Hin. rewrite Forall_forall in H2.
  exact (H2 _ Hin).
Qed.

(** Witness of C9: the state reached by one final T9148 notification of
    30 kg and 500 Ohm with the [child_lbs] body-fat sensor registered. *)
Lemma impedance_never_zero_witness :
  impedance_final_ok
    (sys_client (step (init_system [child_body_fat])
                   (GattNotification t9148_final_packet)))
  /\ (forall w z p,
        In (CalculatorInvoked w z p)
           (sys_trace (step (init_system [child_body_fat])
                         (GattNotification t9148_final_packet))) ->
        0 < z /\ get_lean_body_mass (new_calculator w z p) <> None).
Proof.
  apply (impedance_never_zero
           (step (init_system [child_body_fat])
              (GattNotification t9148_final_packet))).
  apply reachable_step. apply reachable_init.
Defined.

(** That state holds a final impedance of 500 Ohm, and the calculator was
    invoked once with it. *)
Lemma reached_state_has_invocation :
  let s := step (init_system [child_body_fat])
             (GattNotification t9148_final_packet) in
  impedance_final (sys_client s) = Some (inject_Z 500)
  /\ In (CalculatorInvoked (inject_Z 3000 / 100) (inject_Z 500)
           (profile child_lbs)) (sys_trace s).
Proof.
  split; [ reflexivity | ]. vm_compute. left. reflexivity.
Qed.

(** The handlers raise only on a packet too short to carry the status and
    heart-rate bytes, before anything is stored; the advertisement
    dispatcher, which checks the length first, never raises. *)
Lemma byte_at_some (data : bytearray) (i : nat) :
  (Z.of_nat i < len data)%Z -> exists b, byte_at data i = Some b.
Proof.
  unfold len, byte_at. intros H.
  destruct (nth_error data i) as [b | ] eqn:E.
  - eexists. reflexivity.
  - apply nth_error_None in E. lia.
Qed.

Lemma t9150_body_comp_returns (self : Client) (data : bytearray) :
  (16 <= len data)%Z -> _handle_t9150_body_comp_packet self data <> None.
Proof.
  intros Hlen. unfold _handle_t9150_body_comp_packet.
  destruct (byte_at_some data 10 ltac:(lia)) as (b10 & ->).
  destruct (byte_at_some data 15 ltac:(lia)) as (b15 & ->).
  destruct (byte_at_some data 13 ltac:(lia)) as (b13 & E13).
  destruct (byte_at_some data 12 ltac:(lia)) as (b12 & E12).
  cbn [bind].
  destruct (19 <=? len data)%Z eqn:H19.
  - apply Z.leb_le in H19.
    destruct (byte_at_some data 17 ltac:(lia)) as (b17 & ->).
    destruct (byte_at_some data 18 ltac:(lia)) as (b18 & ->).
    cbn [bind]. destruct (0 <? _)%Z; cbn [bind]; rewrite E13, E12; cbn [bind];
      destruct (_set_state_and_fire_callbacks _ _); discriminate.
  - cbn [bind]. rewrite E13, E12. cbn [bind].
    destruct (_set_state_and_fire_callbacks _ _); discriminate.
Qed.

Lemma t9148_returns (self : Client) (data : bytearray) :
  _handle_weight_update_t9148_t9149 self data <> None.
Proof.
  unfold _handle_weight_update_t9148_t9149.
  destruct (len data =? 16)%Z eqn:Hlen; cbn [negb]; [ | discriminate ].
  apply Z.eqb_eq in Hlen.
  destruct (byte_at_some data 0 ltac:(lia)) as (b0 & ->).
  destruct (byte_at_some data 2 ltac:(lia)) as (b2 & ->).
  destruct (byte_at_some data 7 ltac:(lia)) as (b7 & ->).
  destruct (byte_at_some data 6 ltac:(lia)) as (b6 & ->).
  destruct (byte_at_some data 12 ltac:(lia)) as (b12 & ->).
  destruct (byte_at_some data 10 ltac:(lia)) as (b10 & ->).
  destruct (byte_at_some data 9 ltac:(lia)) as (b9 & ->).
  destruct (byte_at_some data 8 ltac:(lia)) as (b8 & ->).
  cbn [bind].
  destruct (negb (b0 =? 0xCF)%Z); [ discriminate | ].
  destruct (negb (b2 =? 0x00)%Z); [ discriminate | ].
  destruct (0 <? _)%Z; destruct (_set_state_and_fire_callbacks _ _);
    discriminate.
Qed.

(** The loop returns, and the body-composition packet it selects has at
    least 19 bytes. *)
Lemma select_packets_returns (values : list bytearray)
  (body weight : option bytearray) :
  (forall d, body = Some d -> (19 <= len d)%Z) ->
  exists body' weight',
    select_packets values body weight = Some (body', weight')
    /\ (forall d, body' = Some d -> (19 <= len d)%Z).
Proof.
  revert body weight.
  induction values as [ | data rest IH]; intros body weight Hbody; cbn.
  - now exists body, weight.
  - destruct (19 <=? len data)%Z eqn:H19.
    + apply Z.leb_le in H19.
      destruct (byte_at_some data 10 ltac:(lia)) as (b10 & ->). cbn [bind].
      destruct (negb (Z.land b10 _T9150_BODY_COMP_FLAG =? 0)%Z).
      * apply IH. intros d [= <-]. exact H19.
      * destruct (18 <=? len data)%Z; cbn [bind];
          try destruct ((b10 =? 1)%Z || (b10 =? 5)%Z); now apply IH.
    + cbn [bind]. destruct (18 <=? len data)%Z eqn:H18.
      * apply Z.leb_le in H18.
        destruct (byte_at_some data 10 ltac:(lia)) as (b10 & ->). cbn [bind].
        destruct ((b10 =? 1)%Z || (b10 =? 5)%Z); now apply IH.
      * cbn [bind]. now apply IH.
Qed.

Lemma t9150_advertisement_returns (self : Client) (values : list bytearray)
  (upstream : option EufyLifeBLEState) :
  _handle_t9150_advertisement self values upstream <> None.
Proof.
  unfold _handle_t9150_advertisement.
  destruct values as [ | v rest]; [ discriminate | ].
  destruct (select_packets_returns (v :: rest) None None)
    as (body & weight & -> & Hlen); [ discriminate | ].
  cbn [bind]. destruct body as [d | ].
  - apply t9150_body_comp_returns. specialize (Hlen d eq_refl). lia.
  - destruct weight; [ destruct upstream | ]; discriminate.
Qed.

(** No event makes the client raise: every index the handlers read is
    covered by a length test. *)
Lemma client_step_returns (self : Client) (ev : Event) :
  client_step self ev <> None.
Proof.
  destruct ev as [values upstream | data | st]; cbn.
  - apply t9150_advertisement_returns.
  - apply t9148_returns.
  - discriminate.
Qed.

(** Every run from the initial state is reachable. *)
Lemma run_reachable (entities : list Entity) (evs : list Event) :
  reachable (run (init_system entities) evs).
Proof.
  unfold run.
  assert (H : forall s, reachable s -> reachable (fold_left step evs s)).
  { induction evs as [ | ev rest IH]; intros s Hs; cbn.
    - exact Hs.
    - apply IH. now apply reachable_step. }
  apply H. apply reachable_init.
Qed.

(** ** C7: converting a stored weight to the other unit and back *)

Lemma inject_Z_succ (n : Z) : inject_Z (n + 1) == inject_Z n + 1.
Proof. rewrite inject_Z_plus. reflexivity. Qed.

Lemma inject_Z_pred (n : Z) : inject_Z (n - 1) == inject_Z n - 1.
Proof.
  replace (n - 1)%Z with (n + -1)%Z by lia.
  rewrite inject_Z_plus. unfold Qminus. reflexivity.
Qed.

Lemma round_below_half (n : Z) (x : Q) :
  x < inject_Z n + 0.5 -> (Py.round x <= n)%Z.
Proof.
  intros H. pose proof (round_error x) as [_ Hr].
  assert (L : inject_Z (Py.round x) < inject_Z (n + 1))
    by (rewrite inject_Z_succ; lra).
  rewrite <- Zlt_Qlt in L. lia.
Qed.

Lemma round_above_half (n : Z) (x : Q) :
  inject_Z n - 0.5 < x -> (n <= Py.round x)%Z.
Proof.
  intros H. pose proof (round_error x) as [Hr _].
  assert (L : inject_Z (n - 1) < inject_Z (Py.round x))
    by (rewrite inject_Z_pred; lra).
  rewrite <- Zlt_Qlt in L. lia.
Qed.

Lemma kg_to_lbs_unfold (x : Q) :
  converted WEIGHT_UNIT_KG WEIGHT_UNIT_LBS x = Py.round1 (x * 2.20462).
Proof. reflexivity. Qed.

Lemma lbs_to_kg_unfold (x : Q) :
  converted WEIGHT_UNIT_LBS WEIGHT_UNIT_KG x
  = Py.round1 (x * (1000000 # 2204620)).
Proof. reflexivity. Qed.

(** C7, counterexample.  A bound of 60.95 lb becomes 27.6 kg and comes
    back as 60.8 lb, 0.15 away from where it started. *)
Lemma pounds_round_trip_exceeds_tolerance :
  0 <= 60.95 <= 300
  /\ converted WEIGHT_UNIT_LBS WEIGHT_UNIT_KG 60.95 == 27.6
  /\ lbs_kg_lbs 60.95 == 60.8
  /\ ~ (Qabs (lbs_kg_lbs 60.95 - 60.95) <= 0.1).
Proof.
  split; [ split; discriminate | ].
  split; [ reflexivity | ]. split; [ reflexivity | ].
  intros H. vm_compute in H. apply H. reflexivity.
Qed.

(** The tolerance of 0.1 is attained on a one-decimal value: 1.0 lb
    becomes 0.5 kg and comes back as 1.1 lb. *)
Lemma pounds_round_trip_attains_tolerance :
  converted WEIGHT_UNIT_LBS WEIGHT_UNIT_KG 1.0 == 0.5
  /\ lbs_kg_lbs 1.0 == 1.1.
Proof. split; reflexivity. Qed.

(** C7, amended.  From kilograms to pounds and back every value returns
    within 0.1 of itself.  From pounds to kilograms and back a value
    returns within 0.17 of itself, and within 0.1 when it has at most one
    decimal, as every value stored by the form or by an earlier
    conversion has. *)
Theorem unit_round_trip (x : Q) (n : Z) :
  Qabs (kg_lbs_kg x - x) <= 0.1
  /\ Qabs (lbs_kg_lbs x - x) <= 0.17
  /\ Qabs (lbs_kg_lbs (inject_Z n / 10) - inject_Z n / 10) <= 0.1.
Proof.
  unfold kg_lbs_kg, lbs_kg_lbs.
  rewrite !kg_to_lbs_unfold, !lbs_to_kg_unfold.
  split; [ | split ].
  - apply Qabs_Qle_condition.
    pose proof (round1_error (x * 2.20462)) as H1.
    pose proof (round1_error
                  (Py.round1 (x * 2.20462) * (1000000 # 2204620))) as H2.
    lra.
  - apply Qabs_Qle_condition.
    pose proof (round1_error (x * (1000000 # 2204620))) as H1.
    pose proof (round1_error
                  (Py.round1 (x * (1000000 # 2204620)) * 2.20462)) as H2.
    lra.
  - apply Qabs_Qle_condition.
    pose proof (round1_error (inject_Z n / 10 * (1000000 # 2204620))) as H1.
    set (y := Py.round1 (inject_Z n / 10 * (1000000 # 2204620))) in *.
    clearbody y.
    rewrite div10 in H1.
    assert (Hup : (Py.round (y * 2.20462 * 10) <= n + 1)%Z)
      by (apply round_below_half; rewrite inject_Z_succ; lra).
    assert (Hlo : (n - 1 <= Py.round (y * 2.20462 * 10))%Z)
      by (apply round_above_half; rewrite inject_Z_pred; lra).
    rewrite Zle_Qle in Hup, Hlo.
    rewrite inject_Z_succ in Hup. rewrite inject_Z_pred in Hlo.
    unfold Py.round1. rewrite !div10. lra.
Qed.

(** * Further properties of the code *)

(** ** body_metrics.py: when the calculator raises *)

Lemma sq_zero_iff (a : Q) : Py.sq (a / 100) == 0 <-> a == 0.
Proof.
  unfold Py.sq.
  assert (E : a / 100 == a * 0.01) by (unfold Qdiv; reflexivity).
  rewrite E. simpl. split; intros H; nra.
Qed.

Lemma lean_body_mass_none_iff (self : BodyMetricsCalculator) :
  get_lean_body_mass self = None <-> c_impedance self == 0.
Proof.
  unfold get_lean_body_mass. split.
  - intros H. destruct (Qeq_dec (c_impedance self) 0) as [E | NE]; [ exact E | ].
    destruct (is_male self); rewrite div_some in H by exact NE; discriminate.
  - intros E. destruct (is_male self); now rewrite div_none.
Qed.

Lemma fat_percentage_none_iff (self : BodyMetricsCalculator) :
  get_fat_percentage self = None
  <-> c_impedance self == 0 \/ c_weight self == 0.
Proof.
  unfold get_fat_percentage.
  destruct (get_lean_body_mass self) as [lbm | ] eqn:Hl; cbn [bind].
  - assert (Hz : ~ c_impedance self == 0).
    { intros E. apply lean_body_mass_none_iff in E. congruence. }
    split.
    + intros H. right.
      destruct (Qeq_dec (c_weight self) 0) as [E | NE]; [ exact E | ].
      rewrite div_some in H by exact NE. discriminate.
    + intros [E | E]; [ contradiction | ]. now rewrite div_none.
  - apply lean_body_mass_none_iff in Hl. tauto.
Qed.

(** X1.  [calculate_all] raises exactly when the weight, the impedance or
    the height is zero; on every other input, negative values included,
    it returns a result. *)
Theorem calculate_all_raises_iff_zero (self : BodyMetricsCalculator) :
  calculate_all self = None
  <-> c_weight self == 0 \/ c_impedance self == 0 \/ c_height self == 0.
Proof.
  split.
  - intros H.
    destruct (Qeq_dec (c_weight self) 0) as [Ew | Nw]; [ tauto | ].
    destruct (Qeq_dec (c_impedance self) 0) as [Ez | Nz]; [ tauto | ].
    destruct (Qeq_dec (c_height self) 0) as [Eh | Nh]; [ tauto | ].
    exfalso. revert H.
    destruct (get_lean_body_mass self) as [lbm | ] eqn:Hl;
      [ | apply lean_body_mass_none_iff in Hl; contradiction ].
    assert (Hf : get_fat_percentage self
                 = Some (Py.round1 (Py.max 3.0 (Py.min 60.0
                     ((c_weight self - lbm) / c_weight self * 100))))).
    { unfold get_fat_percentage. rewrite Hl. cbn [bind].
      now rewrite div_some. }
    pose proof (bone_mass_some self _ Hl) as Hb.
    pose proof (muscle_mass_some self _ _ Hl Hb) as Hm.
    pose proof (water_percentage_some self _ Hf) as Hwa.
    pose proof (bmr_some self _ Hl) as Hbmr.
    pose proof (metabolic_age_some self _ Hf) as Hage.
    assert (Hp : get_protein_percentage self <> None).
    { unfold get_protein_percentage. rewrite Hm. cbn [bind].
      rewrite div_some by exact Nw. discriminate. }
    pose proof (body_type_some self _ _ Hf Hm) as Ht.
    match type of Ht with
    | _ = nth_error _ (?f * 3 + ?m)%nat =>
        destruct (body_types_index f m
                    (fat_level_le _ _) (muscle_level_le _ _ _))
          as (s & Hs & _)
    end.
    rewrite Hs in Ht.
    unfold calculate_all, get_bmi, get_ideal_weight, get_visceral_fat.
    rewrite div_some by (rewrite sq_zero_iff; exact Nh).
    rewrite Hf, Hm, Hb, Hwa, Hbmr, Hage, Ht, Hl. cbn [bind].
    destruct (get_protein_percentage self); [ discriminate | contradiction ].
  - intros H. unfold calculate_all.
    destruct (get_bmi self) as [b | ] eqn:Hb; cbn [bind]; [ | reflexivity ].
    destruct (get_fat_percentage self) as [f | ] eqn:Hf; cbn [bind];
      [ | reflexivity ].
    exfalso.
    assert (Hnf : get_fat_percentage self <> None) by congruence.
    rewrite fat_percentage_none_iff in Hnf.
    destruct H as [H | [H | H]]; [ tauto | tauto | ].
    unfold get_bmi in Hb. rewrite div_none in Hb; [ discriminate | ].
    now apply sq_zero_iff.
Qed.

(** ** body_metrics.py: monotonicity in the impedance *)

Lemma max_mono (a a' b b' : Q) :
  a <= a' -> b <= b' -> Py.max a b <= Py.max a' b'.
Proof.
  intros Ha Hb.
  destruct (max_cases a b) as [[H ->] | [H ->]];
    destruct (max_cases a' b') as [[H' ->] | [H' ->]]; lra.
Qed.

Lemma min_mono (a a' b b' : Q) :
  a <= a' -> b <= b' -> Py.min a b <= Py.min a' b'.
Proof.
  intros Ha Hb.
  destruct (min_cases a b) as [[H ->] | [H ->]];
    destruct (min_cases a' b') as [[H' ->] | [H' ->]]; lra.
Qed.

Lemma div_antitone (a z1 z2 : Q) :
  0 <= a -> 0 < z1 -> z1 <= z2 -> a / z2 <= a / z1.
Proof.
  intros Ha Hz1 Hz.
  apply Qle_shift_div_r; [ lra | ].
  pose proof (div_nonneg a z1 Ha Hz1) as Hq.
  assert (E : a == a / z1 * z1) by (field; lra).
  rewrite E at 1. nra.
Qed.

Lemma div_mono_l (a b w : Q) : 0 < w -> a <= b -> a / w <= b / w.
Proof.
  intros Hw H. unfold Qdiv. apply Qmult_le_compat_r; [ exact H | ].
  apply Qinv_le_0_compat. lra.
Qed.

Lemma sq_nonneg (a : Q) : 0 <= Py.sq a.
Proof. unfold Py.sq. simpl. nra. Qed.

(** X2.  With weight, height, age and sex fixed, a larger impedance never
    gives a larger lean body mass nor a smaller body fat percentage. *)
Theorem body_fat_monotone_in_impedance
  (w h : Q) (a : Z) (s : string) (z1 z2 : Q) :
  0 < w -> 0 < z1 -> z1 <= z2 ->
  exists l1 l2 f1 f2,
    get_lean_body_mass (mkCalculator w z1 h a s) = Some l1
    /\ get_lean_body_mass (mkCalculator w z2 h a s) = Some l2
    /\ get_fat_percentage (mkCalculator w z1 h a s) = Some f1
    /\ get_fat_percentage (mkCalculator w z2 h a s) = Some f2
    /\ l2 <= l1
    /\ f1 <= f2.
Proof.
  intros Hw Hz1 Hz.
  assert (Hz2 : 0 < z2) by lra.
  destruct (lean_body_mass_some (mkCalculator w z1 h a s) Hz1)
    as (raw1 & Hl1 & Hr1).
  destruct (lean_body_mass_some (mkCalculator w z2 h a s) Hz2)
    as (raw2 & Hl2 & Hr2).
  pose proof (fat_percentage_some (mkCalculator w z1 h a s) _ Hw Hl1) as Hf1.
  pose proof (fat_percentage_some (mkCalculator w z2 h a s) _ Hw Hl2) as Hf2.
  cbn [c_weight c_impedance c_height c_age] in *.
  assert (Hraw : raw2 <= raw1).
  { rewrite Hr1, Hr2. unfold is_male. cbn [c_sex].
    pose proof (sq_nonneg (h / 100)) as Hsq.
    destruct (String.eqb s "male").
    - pose proof (div_antitone (45.0 * Py.sq (h / 100)) z1 z2
                    ltac:(lra) Hz1 Hz). lra.
    - pose proof (div_antitone (55.0 * Py.sq (h / 100)) z1 z2
                    ltac:(lra) Hz1 Hz). lra. }
  assert (Hlbm : Py.max raw2 (w * 0.25) <= Py.max raw1 (w * 0.25))
    by (apply max_mono; lra).
  do 4 eexists.
  split; [ exact Hl1 | ]. split; [ exact Hl2 | ].
  split; [ exact Hf1 | ]. split; [ exact Hf2 | ].
  split; [ exact Hlbm | ].
  apply round1_mono, max_mono; [ lra | ]. apply min_mono; [ lra | ].
  assert (Hd : (w - Py.max raw1 (w * 0.25)) / w
               <= (w - Py.max raw2 (w * 0.25)) / w)
    by (apply div_mono_l; lra).
  lra.
Qed.

(** Witness of X2: 500 against 600 Ohm. *)
Lemma body_fat_monotone_in_impedance_witness :
  exists l1 l2 f1 f2,
    get_lean_body_mass (mkCalculator 75 500 175 30 "male") = Some l1
    /\ get_lean_body_mass (mkCalculator 75 600 175 30 "male") = Some l2
    /\ get_fat_percentage (mkCalculator 75 500 175 30 "male") = Some f1
    /\ get_fat_percentage (mkCalculator 75 600 175 30 "male") = Some f2
    /\ l2 <= l1
    /\ f1 <= f2.
Proof.
  apply (body_fat_monotone_in_impedance 75 175 30 "male" 500 600);
    vm_compute; congruence.
Defined.

(** ** body_metrics.py: what the chained clamps imply *)

(** X3.  Because the fat percentage it consumes is at least 3.0, the
    reported water percentage never exceeds 69.1: the upper clamp of
    75.0 in [get_water_percentage] is never the one that applies. *)
Theorem water_percentage_at_most_69_1 (self : BodyMetricsCalculator) :
  valid_input self ->
  exists r,
    calculate_all self = Some r
    /\ 35.0 <= water_percentage r <= 69.1.
Proof.
  intros Hv.
  destruct (calculate_all_some self Hv)
    as (lbm & fat & bone & muscle & water & visceral & v_bmr & v_age
        & protein & v_type & Hl & Hf & _ & _ & Hwa & _ & _ & _ & _ & _ & Hc).
  destruct Hv as (Hw & Hz & Hh).
  eexists. split; [ exact Hc | ]. cbn [water_percentage].
  rewrite (water_percentage_some self _ Hf) in Hwa. injection Hwa as <-.
  rewrite (fat_percentage_some self _ Hw Hl) in Hf. injection Hf as E.
  assert (Hfat : 3.0 <= fat).
  { rewrite <- E. apply (round1_clamp_bounds 3.0 60.0 30 600); tenths. }
  split.
  - apply (round1_clamp_bounds 35.0 75.0 350 750); tenths.
  - set (x := Py.max 35.0 (Py.min 75.0 ((100 - fat) * 0.7126))).
    assert (Hx : x <= 69.1222).
    { unfold x.
      destruct (max_cases 35.0 (Py.min 75.0 ((100 - fat) * 0.7126)))
        as [[H ->] | [H ->]]; [ lra | ].
      destruct (min_cases 75.0 ((100 - fat) * 0.7126))
        as [[H' ->] | [H' ->]]; lra. }
    clearbody x. unfold Py.round1. rewrite div10.
    assert (Hr : (Py.round (x * 10) <= 691)%Z).
    { apply round_below_half. change (inject_Z 691) with 691. lra. }
    rewrite Zle_Qle in Hr. change (inject_Z 691) with 691 in Hr. lra.
Qed.

(** Witness of X3. *)
Lemma water_percentage_at_most_69_1_witness :
  exists r,
    calculate_all light_adult = Some r
    /\ 35.0 <= water_percentage r <= 69.1.
Proof.
  apply (water_percentage_at_most_69_1 light_adult). repeat split.
Defined.

(** X4.  The row of [BODY_TYPES] is chosen by the fat percentage alone:
    below the lower threshold (15 for a man, 22 otherwise) the type is
    one of Obese, Overweight, Thick-set; from the upper threshold (25 for
    a man, 32 otherwise) on it is one of Skinny, Balanced-skinny,
    Skinny-muscular; in between it is one of the three middle entries. *)
Theorem body_type_row_follows_fat (self : BodyMetricsCalculator) :
  valid_input self ->
  exists r,
    calculate_all self = Some r
    /\ (body_fat r < (if is_male self then 15.0 else 22.0) ->
        In (body_type r) [ "Obese"; "Overweight"; "Thick-set" ]%string)
    /\ ((if is_male self then 15.0 else 22.0) <= body_fat r
        /\ body_fat r < (if is_male self then 25.0 else 32.0) ->
        In (body_type r)
           [ "Lack-exercise"; "Balanced"; "Balanced-muscular" ]%string)
    /\ ((if is_male self then 25.0 else 32.0) <= body_fat r ->
        In (body_type r)
           [ "Skinny"; "Balanced-skinny"; "Skinny-muscular" ]%string).
Proof.
  intros Hv.
  destruct (calculate_all_some self Hv)
    as (lbm & fat & bone & muscle & water & visceral & v_bmr & v_age
        & protein & v_type & _ & Hf & _ & Hm & _ & _ & _ & _ & _ & Ht & Hc).
  eexists. split; [ exact Hc | ]. cbn [body_fat body_type].
  rewrite (body_type_some self _ _ Hf Hm) in Ht.
  pose proof (muscle_level_le (is_male self) muscle (c_weight self)) as Hml.
  set (ml := muscle_level (is_male self) muscle (c_weight self)) in *.
  assert (Hcases : (ml = 0 \/ ml = 1 \/ ml = 2)%nat) by lia.
  clearbody ml. unfold fat_level in Ht.
  destruct (is_male self);
    repeat match type of Ht with
           | context [Py.ltb ?a ?b] =>
               let E := fresh "E" in
               destruct (Py.ltb a b) eqn:E;
               [ apply ltb_true in E | apply ltb_false in E ]
           end;
    (split; [ | split ]); intros Hfat; try lra;
    destruct Hcases as [-> | [-> | ->]]; cbn in Ht; injection Ht as <-;
    cbn; tauto.
Qed.

(** Witness of X4: a man with 25.6 percent of fat. *)
Lemma body_type_row_follows_fat_witness :
  exists r,
    calculate_all adult_a = Some r
    /\ (body_fat r < (if is_male adult_a then 15.0 else 22.0) ->
        In (body_type r) [ "Obese"; "Overweight"; "Thick-set" ]%string)
    /\ ((if is_male adult_a then 15.0 else 22.0) <= body_fat r
        /\ body_fat r < (if is_male adult_a then 25.0 else 32.0) ->
        In (body_type r)
           [ "Lack-exercise"; "Balanced"; "Balanced-muscular" ]%string)
    /\ ((if is_male adult_a then 25.0 else 32.0) <= body_fat r ->
        In (body_type r)
           [ "Skinny"; "Balanced-skinny"; "Skinny-muscular" ]%string).
Proof.
  apply (body_type_row_follows_fat adult_a). repeat split.
Defined.

(** ** body_metrics.py: the sex string *)

Lemma calculate_all_depends_on_is_male (c1 c2 : BodyMetricsCalculator) :
  c_weight c1 = c_weight c2 ->
  c_impedance c1 = c_impedance c2 ->
  c_height c1 = c_height c2 ->
  c_age c1 = c_age c2 ->
  is_male c1 = is_male c2 ->
  calculate_all c1 = calculate_all c2.
Proof.
  intros Hw Hz Hh Ha Hs.
  unfold calculate_all, get_bmi, get_ideal_weight, get_body_type,
    get_protein_percentage, get_metabolic_age, get_bmr, get_visceral_fat,
    get_water_percentage, get_muscle_mass, get_bone_mass,
    get_fat_percentage, get_lean_body_mass.
  rewrite Hw, Hz, Hh, Ha, Hs. reflexivity.
Qed.

(** X5.  The sex is only ever compared with ["male"]: any other string,
    ["Male"] or the empty string included, gives exactly the result of
    ["female"]. *)
Theorem any_other_sex_is_female
  (w z h : Q) (a : Z) (s : string) :
  s <> "male"%string ->
  calculate_all (mkCalculator w z h a s)
  = calculate_all (mkCalculator w z h a "female").
Proof.
  intros Hs. apply calculate_all_depends_on_is_male; try reflexivity.
  unfold is_male. cbn [c_sex]. apply String.eqb_neq in Hs. now rewrite Hs.
Qed.

(** Witness of X5: a capitalised ["Male"]. *)
Lemma any_other_sex_is_female_witness :
  calculate_all (mkCalculator 75 500 175 30 "Male")
  = calculate_all (mkCalculator 75 500 175 30 "female").
Proof.
  apply (any_other_sex_is_female 75 500 175 30 "Male"). discriminate.
Defined.

(** ** body_metrics.py: BMI and ideal weight *)

(** X6.  The ideal weight is the weight at which the BMI is 22: whenever
    [get_bmi] returns, the BMI equals 22 exactly when the weight equals
    the ideal weight. *)
Theorem bmi_22_at_ideal_weight (self : BodyMetricsCalculator) (b i : Q) :
  get_bmi self = Some b ->
  get_ideal_weight self = Some i ->
  (b == 22 <-> c_weight self == i).
Proof.
  unfold get_bmi, get_ideal_weight. intros Hb Hi. injection Hi as <-.
  destruct (Qeq_dec (Py.sq (c_height self / 100)) 0) as [E | NE].
  - rewrite div_none in Hb by exact E. discriminate.
  - rewrite div_some in Hb by exact NE. injection Hb as <-.
    set (q := Py.sq (c_height self / 100)) in *. clearbody q.
    split; intros H.
    + assert (E : c_weight self == c_weight self / q * q) by (field; exact NE).
      rewrite E, H. reflexivity.
    + rewrite H. field. exact NE.
Qed.

(** Witness of X6: 67.375 kg at 175 cm. *)
Lemma bmi_22_at_ideal_weight_witness :
  (inject_Z 67375 / 1000) / Py.sq (175 / 100) == 22
  <-> c_weight (mkCalculator (inject_Z 67375 / 1000) 500 175 30 "male")
      == 22 * Py.sq (175 / 100).
Proof.
  apply (bmi_22_at_ideal_weight
           (mkCalculator (inject_Z 67375 / 1000) 500 175 30 "male"));
    reflexivity.
Defined.

(** ** sensor.py: a recomputation that raises *)

Lemma zero_input_raises (self : BodyMetricsCalculator) :
  c_weight self == 0 \/ c_impedance self == 0 \/ c_height self == 0 ->
  calculate_all self = None.
Proof.
  intros H. unfold calculate_all.
  destruct (get_bmi self) as [b | ] eqn:Hb; cbn [bind]; [ | reflexivity ].
  destruct (get_fat_percentage self) as [f | ] eqn:Hf; cbn [bind];
    [ | reflexivity ].
  exfalso.
  assert (Hnf : get_fat_percentage self <> None) by congruence.
  rewrite fat_percentage_none_iff in Hnf.
  destruct H as [H | [H | H]]; [ tauto | tauto | ].
  unfold get_bmi in Hb. rewrite div_none in Hb; [ discriminate | ].
  now apply sq_zero_iff.
Qed.

(** X7.  When everything is cached and the weight is inside the range,
    but the final weight, the impedance or the profile's height is zero,
    the division fault of the calculator is caught: the exception is
    logged under the profile's name, nothing is published and the entity
    keeps its native value and last result. *)
Theorem failed_recomputation_is_logged
  (client : Client) (self : Entity) (z w : Q) (st : EufyLifeBLEState) :
  impedance_final client = Some z ->
  state client = Some st ->
  final_weight_kg st = Some w ->
  in_range (profile_config self) w = true ->
  w == 0 \/ z == 0 \/ height (profile (profile_config self)) == 0 ->
  _handle_extended_update client self
  = (self,
     [ CalculatorInvoked w z (profile (profile_config self));
       LogException (name (profile_config self)) ]).
Proof.
  intros Hz Hs Hw Hin Hzero. unfold _handle_extended_update.
  rewrite Hz, Hs, Hw, Hin. cbn [negb].
  rewrite zero_input_raises; [ reflexivity | exact Hzero ].
Qed.

(** Witness of X7: a final weight of 0 kg and a range that starts at 0. *)
Lemma failed_recomputation_is_logged_witness :
  _handle_extended_update (client_with_final 0)
    (mkEntity BodyFatSensor
       (mkProfileConfig "a" "A" (mkUserProfile 30 175 "male") 0 90 "kg")
       None None)
  = (mkEntity BodyFatSensor
       (mkProfileConfig "a" "A" (mkUserProfile 30 175 "male") 0 90 "kg")
       None None,
     [ CalculatorInvoked 0 500 (mkUserProfile 30 175 "male");
       LogException "A" ]).
Proof.
  apply (failed_recomputation_is_logged (client_with_final 0)
           (mkEntity BodyFatSensor
              (mkProfileConfig "a" "A" (mkUserProfile 30 175 "male")
                 0 90 "kg") None None)
           500 0 (mkBLEState 0 (Some 0) None false));
    try reflexivity.
  left. reflexivity.
Defined.

(** ** sensor.py: the published value and the last result agree *)

Lemma handle_update_consistent (client : Client) (self : Entity) :
  entity_consistent self ->
  entity_consistent (fst (_handle_extended_update client self)).
Proof.
  intros Hc. unfold _handle_extended_update.
  destruct (impedance_final client) as [z | ]; [ | exact Hc ].
  destruct (state client) as [st | ]; [ | exact Hc ].
  destruct (final_weight_kg st) as [w | ]; [ | exact Hc ].
  destruct (negb (in_range (profile_config self) w)); [ exact Hc | ].
  destruct (calculate_all _) as [r | ]; [ | exact Hc ].
  destruct (extract_value (kind self) r) as [[v | ] | ] eqn:Ev;
    cbn [fst]; unfold entity_consistent; cbn; intros Hk.
  - now rewrite Ev.
  - destruct (kind self); cbn in Ev; congruence.
  - destruct (kind self); cbn in Ev; congruence.
Qed.

Lemma fire_callbacks_consistent (client : Client) (entities : list Entity) :
  Forall entity_consistent entities ->
  Forall entity_consistent (fst (fire_callbacks client entities)).
Proof.
  induction 1 as [ | e rest He Hrest IH]; cbn.
  - constructor.
  - pose proof (handle_update_consistent client e He) as He'.
    destruct (_handle_extended_update client e) as [e' fx].
    destruct (fire_callbacks client rest) as [rest' fxs].
    cbn in *. now constructor.
Qed.

Lemma deliver_consistent (fired : list Notification)
  (entities : list Entity) :
  Forall entity_consistent entities ->
  Forall entity_consistent (fst (deliver fired entities)).
Proof.
  revert entities. induction fired as [ | n rest IH]; intros entities Hall.
  - exact Hall.
  - cbn.
    pose proof (fire_callbacks_consistent (snapshot_of n) entities Hall) as Hf.
    destruct (fire_callbacks (snapshot_of n) entities) as [entities' fx].
    pose proof (IH entities' Hf) as Hd.
    destruct (deliver rest entities') as [entities'' fxs].
    exact Hd.
Qed.

Lemma step_consistent (s : System) (ev : Event) :
  Forall entity_consistent (sys_entities s) ->
  Forall entity_consistent (sys_entities (step s ev)).
Proof.
  intros Hall. unfold step.
  destruct (client_step (sys_client s) ev) as [[client' fired] | ];
    [ | exact Hall ].
  pose proof (deliver_consistent fired (sys_entities s) Hall) as Hd.
  destruct (deliver fired (sys_entities s)) as [entities' fx].
  exact Hd.
Qed.

(** X8.  Starting from entities that have no result yet, after any
    sequence of events every body-composition sensor that holds a last
    result publishes exactly the field of that result its class
    extracts. *)
Theorem published_value_matches_last_result
  (entities : list Entity) (evs : list Event) :
  Forall (fun e => last_result e = None) entities ->
  Forall entity_consistent (sys_entities (run (init_system entities) evs)).
Proof.
  intros Hinit.
  assert (H0 : Forall entity_consistent
                 (sys_entities (init_system entities))).
  { cbn. eapply Forall_impl; [ | exact Hinit ].
    intros e He. unfold entity_consistent. now rewrite He. }
  unfold run. generalize dependent (init_system entities).
  induction evs as [ | ev rest IH]; intros s Hs; cbn.
  - exact Hs.
  - apply IH. now apply step_consistent.
Qed.

(** Witness of X8: one final notification with one sensor registered. *)
Lemma published_value_matches_last_result_witness :
  Forall entity_consistent
    (sys_entities (run (init_system [child_body_fat])
                     [GattNotification t9148_final_packet])).
Proof.
  apply (published_value_matches_last_result [child_body_fat]
           [GattNotification t9148_final_packet]).
  repeat constructor.
Defined.

(** ** extended_client.py: little-endian fields *)

Lemma byte_at_range (data : bytearray) (i : nat) (b : Z) :
  byte_at data i = Some b -> (0 <= b <= 255)%Z.
Proof.
  unfold byte_at. destruct (nth_error data i) as [x | ]; [ | discriminate ].
  intros [= <-]. pose proof (Byte.to_N_bounded x). lia.
Qed.

Lemma land_high_low (k lo n : Z) :
  (0 <= n)%Z -> (0 <= lo < 2 ^ n)%Z -> Z.land (k * 2 ^ n) lo = 0%Z.
Proof.
  intros Hn Hlo. apply Z.bits_inj'. intros m Hm.
  rewrite Z.land_spec, Z.bits_0.
  destruct (Z.lt_ge_cases m n) as [L | G].
  - now rewrite Z.mul_pow2_bits_low.
  - destruct (Z.eq_dec lo 0) as [-> | NZ].
    + rewrite Z.bits_0. apply andb_false_r.
    + rewrite (Z.bits_above_log2 lo m); [ apply andb_false_r | lia | ].
      apply Z.lt_le_trans with n; [ | exact G ].
      apply Z.log2_lt_pow2; lia.
Qed.

Lemma lor_high_low (k lo n : Z) :
  (0 <= n)%Z -> (0 <= lo < 2 ^ n)%Z ->
  Z.lor (k * 2 ^ n) lo = (k * 2 ^ n + lo)%Z.
Proof.
  intros Hn Hlo.
  pose proof (Z.add_lor_land (k * 2 ^ n) lo) as H.
  rewrite land_high_low in H by assumption. lia.
Qed.

(** [(hi << 8) | lo] and [lo | (hi << 8)] are [lo + 256 * hi]. *)
Lemma uint16_le (lo hi : Z) :
  (0 <= lo <= 255)%Z ->
  Z.lor (Z.shiftl hi 8) lo = (lo + 256 * hi)%Z
  /\ Z.lor lo (Z.shiftl hi 8) = (lo + 256 * hi)%Z.
Proof.
  intros Hlo. rewrite (Z.lor_comm lo).
  rewrite Z.shiftl_mul_pow2 by lia.
  rewrite (lor_high_low hi lo 8) by (change (2 ^ 8)%Z with 256%Z; lia).
  change (2 ^ 8)%Z with 256%Z. lia.
Qed.

(** [(b2 << 16) | (b1 << 8) | b0] is [b0 + 256 * b1 + 65536 * b2]. *)
Lemma uint24_le (b0 b1 b2 : Z) :
  (0 <= b0 <= 255)%Z -> (0 <= b1 <= 255)%Z ->
  Z.lor (Z.lor (Z.shiftl b2 16) (Z.shiftl b1 8)) b0
  = (b0 + 256 * b1 + 65536 * b2)%Z.
Proof.
  intros H0 H1.
  rewrite !Z.shiftl_mul_pow2 by lia.
  rewrite (lor_high_low b2 (b1 * 2 ^ 8) 16) by (change (2 ^ 8)%Z with 256%Z;
    change (2 ^ 16)%Z with 65536%Z; lia).
  replace (b2 * 2 ^ 16 + b1 * 2 ^ 8)%Z with ((b2 * 256 + b1) * 2 ^ 8)%Z
    by (change (2 ^ 8)%Z with 256%Z; change (2 ^ 16)%Z with 65536%Z; lia).
  rewrite (lor_high_low (b2 * 256 + b1) b0 8)
    by (change (2 ^ 8)%Z with 256%Z; lia).
  change (2 ^ 8)%Z with 256%Z. lia.
Qed.

(** ** extended_client.py: what the cached values can be *)

Lemma ok_set_heart_rate (c : Client) (hr : Z) :
  extended_values_ok c -> (1 <= hr <= 255)%Z ->
  extended_values_ok (set_heart_rate_extended c hr).
Proof.
  intros (H1 & H2 & H3 & H4) Hhr. unfold extended_values_ok. cbn.
  repeat split; auto; lia.
Qed.

Lemma ok_set_impedance (c : Client) (z : Q) :
  extended_values_ok c -> 0 < z <= 16777215 ->
  extended_values_ok (set_impedance c z).
Proof.
  intros (H1 & H2 & H3 & H4) [Hz1 Hz2]. unfold extended_values_ok. cbn.
  repeat split; auto; intros; discriminate.
Qed.

Lemma ok_set_impedance_final (c : Client) (z : Q) :
  extended_values_ok c -> impedance c <> None -> 0 < z <= 16777215 ->
  extended_values_ok (set_impedance_final c z).
Proof.
  intros (H1 & H2 & H3 & H4) Hi [Hz1 Hz2]. unfold extended_values_ok. cbn.
  repeat split; auto.
Qed.

Lemma ok_set_state (c : Client) (st : EufyLifeBLEState) :
  extended_values_ok c ->
  extended_values_ok (fst (_set_state_and_fire_callbacks c st)).
Proof.
  intros H. unfold _set_state_and_fire_callbacks.
  destruct (state c) as [old | ]; [ destruct (state_eqb old st) | ]; exact H.
Qed.

Lemma ok_after_state (c : Client) (fired : list Notification)
  (st : EufyLifeBLEState) (c' : Client) (fired' : list Notification) :
  extended_values_ok c ->
  (let '(c1, f1) := _set_state_and_fire_callbacks c st in
   Some (c1, fired ++ f1)) = Some (c', fired') ->
  extended_values_ok c'.
Proof.
  intros Hok H. pose proof (ok_set_state c st Hok) as Hs.
  destruct (_set_state_and_fire_callbacks c st) as [c1 f1].
  injection H as <- _. exact Hs.
Qed.

Lemma t9150_body_comp_values_ok (self : Client) (data : bytearray)
  (self' : Client) (fired : list Notification) :
  extended_values_ok self ->
  _handle_t9150_body_comp_packet self data = Some (self', fired) ->
  extended_values_ok self'.
Proof.
  intros Hok. unfold _handle_t9150_body_comp_packet.
  destruct (byte_at data 10) as [status | ]; cbn [bind]; [ | discriminate ].
  destruct (byte_at data 15) as [hr | ] eqn:Ehr; cbn [bind];
    [ | discriminate ].
  pose proof (byte_at_range _ _ _ Ehr) as Hhr.
  assert (Hok1 : extended_values_ok
                   (if (0 <? hr)%Z then set_heart_rate_extended self hr
                    else self)).
  { destruct (0 <? hr)%Z eqn:Hpos; [ | exact Hok ].
    apply Z.ltb_lt in Hpos. apply ok_set_heart_rate; [ exact Hok | lia ]. }
  set (self1 := if (0 <? hr)%Z then set_heart_rate_extended self hr else self)
    in *.
  clearbody self1.
  destruct (19 <=? len data)%Z.
  - destruct (byte_at data 17) as [b17 | ] eqn:E17; cbn [bind];
      [ | discriminate ].
    destruct (byte_at data 18) as [b18 | ] eqn:E18; cbn [bind];
      [ | discriminate ].
    pose proof (byte_at_range _ _ _ E17) as H17.
    pose proof (byte_at_range _ _ _ E18) as H18.
    destruct (uint16_le b17 b18 H17) as [_ Eraw]. rewrite Eraw.
    destruct (0 <? b17 + 256 * b18)%Z eqn:Hraw; cbn [bind].
    + apply Z.ltb_lt in Hraw.
      assert (Hz : 0 < inject_Z (b17 + 256 * b18) / 10.0 <= 16777215).
      { split; [ now apply tenth_positive | ].
        apply Qle_shift_div_r; [ reflexivity | ].
        assert (L : (b17 + 256 * b18 <= 65535)%Z) by lia.
        rewrite Zle_Qle in L. change (inject_Z 65535) with 65535 in L. lra. }
      destruct (byte_at data 13); cbn [bind]; [ | discriminate ].
      destruct (byte_at data 12); cbn [bind]; [ | discriminate ].
      apply ok_after_state.
      pose proof (ok_set_impedance self1 _ Hok1 Hz) as Hok2.
      destruct (negb _); [ | exact Hok2 ].
      apply ok_set_impedance_final; [ exact Hok2 | discriminate | exact Hz ].
    + destruct (byte_at data 13); cbn [bind]; [ | discriminate ].
      destruct (byte_at data 12); cbn [bind]; [ | discriminate ].
      now apply ok_after_state.
  - cbn [bind].
    destruct (byte_at data 13); cbn [bind]; [ | discriminate ].
    destruct (byte_at data 12); cbn [bind]; [ | discriminate ].
    now apply ok_after_state.
Qed.

Lemma t9148_values_ok (self : Client) (data : bytearray)
  (self' : Client) (fired : list Notification) :
  extended_values_ok self ->
  _handle_weight_update_t9148_t9149 self data = Some (self', fired) ->
  extended_values_ok self'.
Proof.
  intros Hok. unfold _handle_weight_update_t9148_t9149.
  destruct (negb (len data =? 16)%Z); [ now intros [= <- _] | ].
  destruct (byte_at data 0) as [b0 | ]; cbn [bind]; [ | discriminate ].
  destruct (negb (b0 =? 0xCF)%Z); [ now intros [= <- _] | ].
  destruct (byte_at data 2) as [b2 | ]; cbn [bind]; [ | discriminate ].
  destruct (negb (b2 =? 0x00)%Z); [ now intros [= <- _] | ].
  destruct (byte_at data 7) as [b7 | ]; cbn [bind]; [ | discriminate ].
  destruct (byte_at data 6) as [b6 | ]; cbn [bind]; [ | discriminate ].
  destruct (byte_at data 12) as [b12 | ]; cbn [bind]; [ | discriminate ].
  destruct (byte_at data 10) as [b10 | ] eqn:E10; cbn [bind];
    [ | discriminate ].
  destruct (byte_at data 9) as [b9 | ] eqn:E9; cbn [bind]; [ | discriminate ].
  destruct (byte_at data 8) as [b8 | ] eqn:E8; cbn [bind]; [ | discriminate ].
  pose proof (byte_at_range _ _ _ E10) as H10.
  pose proof (byte_at_range _ _ _ E9) as H9.
  pose proof (byte_at_range _ _ _ E8) as H8.
  rewrite (uint24_le b8 b9 b10 H8 H9).
  destruct (0 <? b8 + 256 * b9 + 65536 * b10)%Z eqn:Hraw.
  - apply Z.ltb_lt in Hraw.
    assert (Hz : 0 < inject_Z (b8 + 256 * b9 + 65536 * b10) <= 16777215).
    { assert (L : (b8 + 256 * b9 + 65536 * b10 <= 16777215)%Z) by lia.
      rewrite Zlt_Qlt in Hraw. rewrite Zle_Qle in L. split; assumption. }
    apply ok_after_state.
    pose proof (ok_set_impedance self _ Hok Hz) as Hok2.
    destruct (b12 =? 0)%Z; [ | exact Hok2 ].
    apply ok_set_impedance_final; [ exact Hok2 | discriminate | exact Hz ].
  - now apply ok_after_state.
Qed.

Lemma client_step_values_ok (self : Client) (ev : Event)
  (self' : Client) (fired : list Notification) :
  extended_values_ok self ->
  client_step self ev = Some (self', fired) ->
  extended_values_ok self'.
Proof.
  intros Hok. destruct ev as [values upstream | data | st]; cbn.
  - unfold _handle_t9150_advertisement.
    destruct values as [ | v rest]; [ now intros [= <- _] | ].
    destruct (select_packets (v :: rest) None None) as [[body weight] | ];
      cbn [bind]; [ | discriminate ].
    destruct body as [body | ].
    + now apply t9150_body_comp_values_ok.
    + destruct weight as [weight | ]; [ | now intros [= <- _] ].
      destruct upstream as [st | ]; [ | now intros [= <- _] ].
      intros [= E]. pose proof (ok_set_state self st Hok) as Hs.
      destruct (_set_state_and_fire_callbacks self st) as [c f].
      injection E as <- _. exact Hs.
  - now apply t9148_values_ok.
  - intros [= E]. pose proof (ok_set_state self st Hok) as Hs.
    destruct (_set_state_and_fire_callbacks self st) as [c f].
    injection E as <- _. exact Hs.
Qed.

(** X9.  In every reachable state the cached impedance and the cached
    final impedance are absent or strictly positive and at most 2^24 - 1,
    a final impedance is never cached without a current one, and the
    cached extended heart rate is absent or between 1 and 255. *)
Theorem cached_values_stay_plausible (s : System) :
  reachable s -> extended_values_ok (sys_client s).
Proof.
  induction 1 as [entities | s ev Hr IH].
  - cbn. unfold extended_values_ok. cbn. repeat split; auto.
  - unfold step.
    destruct (client_step (sys_client s) ev) as [[client' fired] | ] eqn:E;
      [ | exact IH ].
    pose proof (client_step_values_ok _ _ _ _ IH E) as Hok.
    destruct (deliver fired (sys_entities s)) as [entities' fx].
    exact Hok.
Qed.

(** Witness of X9: after one final T9150 advertisement. *)
Lemma cached_values_stay_plausible_witness :
  extended_values_ok
    (sys_client (step (init_system [])
                   (T9150Advertisement [t9150_final_packet] None))).
Proof.
  apply (cached_values_stay_plausible
           (step (init_system [])
              (T9150Advertisement [t9150_final_packet] None))).
  apply reachable_step. apply reachable_init.
Defined.

(** ** extended_client.py: which advertisement packet is handled *)

Lemma find_last_cons {A : Type} (f : A -> bool) (x : A) (l : list A) :
  find_last f (x :: l)
  = match find_last f l with
    | Some y => Some y
    | None => if f x then Some x else None
    end.
Proof.
  unfold find_last. cbn [rev].
  induction (rev l) as [ | y r IH]; cbn.
  - reflexivity.
  - destruct (f y); [ reflexivity | exact IH ].
Qed.

Lemma packet_tests (data : bytearray) :
  (if (19 <=? len data)%Z then
     b10 <- byte_at data 10 ;;
     Some (negb (Z.land b10 _T9150_BODY_COMP_FLAG =? 0)%Z)
   else Some false) = Some (is_body_comp_packet data)
  /\ (is_body_comp_packet data = false ->
      (if (18 <=? len data)%Z then
         b10 <- byte_at data 10 ;;
         Some ((b10 =? 0x01)%Z || (b10 =? 0x05)%Z)
       else Some false) = Some (is_weight_packet data)).
Proof.
  unfold is_weight_packet, is_body_comp_packet.
  destruct (19 <=? len data)%Z eqn:H19.
  - apply Z.leb_le in H19.
    destruct (byte_at_some data 10 ltac:(lia)) as (b10 & ->). cbn [bind].
    split; [ reflexivity | ]. cbn [andb]. intros ->. cbn [negb andb].
    assert (H18 : (18 <=? len data)%Z = true) by (apply Z.leb_le; lia).
    now rewrite H18.
  - cbn [andb negb]. split; [ reflexivity | ]. intros _.
    destruct (18 <=? len data)%Z eqn:H18; [ | reflexivity ].
    apply Z.leb_le in H18.
    destruct (byte_at_some data 10 ltac:(lia)) as (b10 & ->). reflexivity.
Qed.

Lemma select_packets_spec (values : list bytearray)
  (body weight : option bytearray) :
  select_packets values body weight
  = Some (match find_last is_body_comp_packet values with
          | Some d => Some d
          | None => body
          end,
          match find_last is_weight_packet values with
          | Some d => Some d
          | None => weight
          end).
Proof.
  revert body weight.
  induction values as [ | data rest IH]; intros body weight.
  - reflexivity.
  - cbn [select_packets]. rewrite !find_last_cons.
    destruct (packet_tests data) as [-> Hw]. cbn [bind].
    destruct (is_body_comp_packet data) eqn:Eb.
    + rewrite IH.
      assert (Ew : is_weight_packet data = false)
        by (unfold is_weight_packet; now rewrite Eb).
      rewrite Ew.
      destruct (find_last is_body_comp_packet rest);
        destruct (find_last is_weight_packet rest); reflexivity.
    + rewrite (Hw eq_refl). cbn [bind].
      destruct (is_weight_packet data); rewrite IH;
        destruct (find_last is_body_comp_packet rest);
        destruct (find_last is_weight_packet rest); reflexivity.
Qed.

(** X10.  [_handle_t9150_advertisement] handles the last packet that
    carries the body-composition flag, whatever else the advertisement
    holds and in whatever order; only without such a packet does a
    weight-only packet reach the upstream handler, and without either the
    client is left alone. *)
Theorem body_comp_packet_has_priority (self : Client)
  (values : list bytearray) (upstream : option EufyLifeBLEState) :
  _handle_t9150_advertisement self values upstream
  = match find_last is_body_comp_packet values with
    | Some body_comp_data =>
        _handle_t9150_body_comp_packet self body_comp_data
    | None =>
        match find_last is_weight_packet values, upstream with
        | Some _, Some st => Some (_set_state_and_fire_callbacks self st)
        | _, _ => Some (self, [])
        end
    end.
Proof.
  unfold _handle_t9150_advertisement.
  destruct values as [ | v rest]; [ reflexivity | ].
  rewrite select_packets_spec. cbn [bind].
  destruct (find_last is_body_comp_packet (v :: rest)); [ reflexivity | ].
  destruct (find_last is_weight_packet (v :: rest)); [ | reflexivity ].
  destruct upstream; reflexivity.
Qed.

(** ** extended_client.py: the order of callbacks and state *)

Lemma set_state_fires_no_extended (self : Client) (st : EufyLifeBLEState)
  (snap : Client) :
  ~ In (ExtendedCallbacks snap) (snd (_set_state_and_fire_callbacks self st)).
Proof.
  unfold _set_state_and_fire_callbacks.
  destruct (state self) as [old | ]; [ destruct (state_eqb old st) | ];
    cbn; intros H; try destruct H as [H | H]; try discriminate; auto.
Qed.

Lemma set_state_keeps_impedances (self : Client) (st : EufyLifeBLEState) :
  impedance (fst (_set_state_and_fire_callbacks self st)) = impedance self
  /\ impedance_final (fst (_set_state_and_fire_callbacks self st))
     = impedance_final self.
Proof.
  unfold _set_state_and_fire_callbacks.
  destruct (state self) as [old | ]; [ destruct (state_eqb old st) | ];
    split; reflexivity.
Qed.

(** What X11 says of one handler outcome. *)
Lemma extended_before_state (self self1 : Client) (st : EufyLifeBLEState)
  (fired : list Notification) (self' : Client) (fired' : list Notification)
  (snap : Client) :
  state self1 = state self ->
  (forall n, In n fired -> n = ExtendedCallbacks self1) ->
  (let '(c, f) := _set_state_and_fire_callbacks self1 st in
   Some (c, fired ++ f)) = Some (self', fired') ->
  In (ExtendedCallbacks snap) fired' ->
  state snap = state self
  /\ impedance snap = impedance self'
  /\ impedance_final snap = impedance_final self'.
Proof.
  intros Hst Hfired H Hin.
  pose proof (set_state_fires_no_extended self1 st snap) as Hno.
  pose proof (set_state_keeps_impedances self1 st) as [Hi Hf].
  destruct (_set_state_and_fire_callbacks self1 st) as [c f].
  injection H as <- <-. cbn [fst snd] in *.
  apply in_app_or in Hin. destruct Hin as [Hin | Hin]; [ | contradiction ].
  apply Hfired in Hin. injection Hin as ->.
  now rewrite Hi, Hf.
Qed.

(** X11.  Both packet handlers run the extended callbacks before they
    store the new state: a callback sees the impedance values of the
    packet together with the state left by the previous packet. *)
Theorem extended_callbacks_see_previous_state
  (self : Client) (data : bytearray) (self' : Client)
  (fired : list Notification) (snap : Client) :
  _handle_t9150_body_comp_packet self data = Some (self', fired)
  \/ _handle_weight_update_t9148_t9149 self data = Some (self', fired) ->
  In (ExtendedCallbacks snap) fired ->
  state snap = state self
  /\ impedance snap = impedance self'
  /\ impedance_final snap = impedance_final self'.
Proof.
  intros [H | H] Hin; revert H.
  - unfold _handle_t9150_body_comp_packet.
    destruct (byte_at data 10) as [status | ]; cbn [bind]; [ | discriminate ].
    destruct (byte_at data 15) as [hr | ]; cbn [bind]; [ | discriminate ].
    set (self1 := if (0 <? hr)%Z then set_heart_rate_extended self hr
                  else self).
    assert (Hst1 : state self1 = state self)
      by (unfold self1; destruct (0 <? hr)%Z; reflexivity).
    clearbody self1.
    destruct (19 <=? len data)%Z;
      [ destruct (byte_at data 17) as [b17 | ]; cbn [bind];
        [ | discriminate ];
        destruct (byte_at data 18) as [b18 | ]; cbn [bind];
        [ | discriminate ];
        destruct (0 <? Z.lor b17 (Z.shiftl b18 8))%Z | ];
      cbn [bind];
      (destruct (byte_at data 13); cbn [bind]; [ | discriminate ]);
      (destruct (byte_at data 12); cbn [bind]; [ | discriminate ]);
      intros H;
      (eapply extended_before_state; [ | | exact H | exact Hin ]);
      try (destruct (negb _); cbn; exact Hst1);
      try exact Hst1;
      try (intros n [<- | []]; reflexivity);
      try (intros n []).
  - unfold _handle_weight_update_t9148_t9149.
    destruct (negb (len data =? 16)%Z);
      [ intros [= <- <-]; destruct Hin | ].
    destruct (byte_at data 0) as [b0 | ]; cbn [bind]; [ | discriminate ].
    destruct (negb (b0 =? 0xCF)%Z); [ intros [= <- <-]; destruct Hin | ].
    destruct (byte_at data 2) as [b2 | ]; cbn [bind]; [ | discriminate ].
    destruct (negb (b2 =? 0x00)%Z); [ intros [= <- <-]; destruct Hin | ].
    destruct (byte_at data 7); cbn [bind]; [ | discriminate ].
    destruct (byte_at data 6); cbn [bind]; [ | discriminate ].
    destruct (byte_at data 12) as [b12 | ]; cbn [bind]; [ | discriminate ].
    destruct (byte_at data 10); cbn [bind]; [ | discriminate ].
    destruct (byte_at data 9); cbn [bind]; [ | discriminate ].
    destruct (byte_at data 8); cbn [bind]; [ | discriminate ].
    match goal with
    | |- context [(0 <? ?raw)%Z] => destruct (0 <? raw)%Z
    end; intros H;
      (eapply extended_before_state; [ | | exact H | exact Hin ]);
      try (destruct (b12 =? 0)%Z; reflexivity);
      try reflexivity;
      try (intros n [<- | []]; reflexivity);
      try (intros n []).
Qed.

(** Witness of X11: a second final notification on a client that still
    holds the previous final reading of 30 kg. *)
Lemma extended_callbacks_see_previous_state_witness :
  state client_seen_by_callbacks = state (client_with_final 30)
  /\ impedance client_seen_by_callbacks = impedance client_after_heavier
  /\ impedance_final client_seen_by_callbacks
     = impedance_final client_after_heavier.
Proof.
  apply (extended_callbacks_see_previous_state
           (client_with_final 30) t9148_heavier_packet
           client_after_heavier
           [ ExtendedCallbacks client_seen_by_callbacks;
             StateCallbacks client_after_heavier ]
           client_seen_by_callbacks).
  - right. reflexivity.
  - left. reflexivity.
Defined.

(** ** extended_client.py: the stored state *)

Lemma stored_state (c : Client) (st : EufyLifeBLEState) :
  exists st',
    state (fst (_set_state_and_fire_callbacks c st)) = Some st'
    /\ same_reading st' st.
Proof.
  unfold _set_state_and_fire_callbacks, same_reading.
  destruct (state c) as [old | ] eqn:Eold;
    [ destruct (state_eqb old st) eqn:E | ]; cbn [fst].
  - exists old. split; [ exact Eold | ].
    unfold state_eqb in E. rewrite !andb_true_iff in E.
    destruct E as [[[Ew Ef] _] _].
    split; [ now apply Qeq_bool_eq | ].
    unfold option_Q_eqb in Ef.
    destruct (final_weight_kg old), (final_weight_kg st);
      try discriminate; auto. now apply Qeq_bool_eq.
  - exists st. split; [ reflexivity | ].
    split; [ reflexivity | ]. destruct (final_weight_kg st); auto.
    reflexivity.
  - exists st. split; [ reflexivity | ].
    split; [ reflexivity | ]. destruct (final_weight_kg st); auto.
    reflexivity.
Qed.

(** X12.  A T9148/T9149 notification of 16 bytes that starts with 0xCF
    and has a zero third byte always leaves a state whose weight is
    [(data[6] + 256 * data[7]) / 100] kg, between 0 and 655.35, and whose
    final weight is that same weight when [data[12]] is 0 and absent
    otherwise. *)
Theorem t9148_weight_decoding
  (self : Client) (data : bytearray) (b6 b7 b12 : Z) :
  len data = 16%Z ->
  byte_at data 0 = Some 0xCF%Z ->
  byte_at data 2 = Some 0%Z ->
  byte_at data 6 = Some b6 ->
  byte_at data 7 = Some b7 ->
  byte_at data 12 = Some b12 ->
  exists self' fired st,
    _handle_weight_update_t9148_t9149 self data = Some (self', fired)
    /\ state self' = Some st
    /\ weight_kg st == inject_Z (b6 + 256 * b7) / 100
    /\ 0 <= weight_kg st <= 655.35
    /\ match final_weight_kg st with
       | Some w => b12 = 0%Z /\ w == weight_kg st
       | None => b12 <> 0%Z
       end.
Proof.
  intros Hlen E0 E2 E6 E7 E12.
  unfold _handle_weight_update_t9148_t9149.
  rewrite Hlen, E0, E2, E7, E6, E12. cbn [Z.eqb negb bind].
  change (negb (207 =? 207)%Z) with false.
  change (negb (0 =? 0)%Z) with false. cbv iota.
  destruct (byte_at_some data 10 ltac:(lia)) as (b10 & ->).
  destruct (byte_at_some data 9 ltac:(lia)) as (b9 & ->).
  destruct (byte_at_some data 8 ltac:(lia)) as (b8 & ->).
  cbn [bind].
  pose proof (byte_at_range _ _ _ E6) as H6.
  pose proof (byte_at_range _ _ _ E7) as H7.
  destruct (uint16_le b6 b7 H6) as [Ew _]. rewrite Ew.
  set (w := inject_Z (b6 + 256 * b7) / 100).
  assert (Hw : 0 <= w <= 655.35).
  { unfold w.
    assert (L0 : (0 <= b6 + 256 * b7)%Z) by lia.
    assert (L1 : (b6 + 256 * b7 <= 65535)%Z) by lia.
    rewrite Zle_Qle in L0, L1.
    change (inject_Z 0) with 0 in L0.
    change (inject_Z 65535) with 65535 in L1.
    split; [ apply Qle_shift_div_l | apply Qle_shift_div_r ]; lra. }
  match goal with
  | |- context [if (0 <? ?raw)%Z then ?a else ?b] =>
      set (branch := if (0 <? raw)%Z then a else b)
  end.
  destruct branch as [self3 fired3].
  set (new := mkBLEState w (if (b12 =? 0)%Z then Some w else None) None false).
  destruct (stored_state self3 new) as (st & Hst & Hwq & Hfq).
  destruct (_set_state_and_fire_callbacks self3 new) as [self4 fired4].
  cbn [fst] in Hst.
  exists self4, (fired3 ++ fired4), st.
  split; [ reflexivity | ]. split; [ exact Hst | ].
  cbn [weight_kg final_weight_kg new] in Hwq, Hfq.
  split; [ exact Hwq | ]. split; [ lra | ].
  destruct (final_weight_kg st) as [fw | ];
    destruct (b12 =? 0)%Z eqn:Eb; try contradiction.
  - apply Z.eqb_eq in Eb. split; [ exact Eb | lra ].
  - now apply Z.eqb_neq in Eb.
Qed.

(** Witness of X12: 0x0BB8 hundredths of a kilogram. *)
Lemma t9148_weight_decoding_witness :
  exists self' fired st,
    _handle_weight_update_t9148_t9149 init_client t9148_final_packet
    = Some (self', fired)
    /\ state self' = Some st
    /\ weight_kg st == inject_Z (184 + 256 * 11) / 100
    /\ 0 <= weight_kg st <= 655.35
    /\ match final_weight_kg st with
       | Some w => 0%Z = 0%Z /\ w == weight_kg st
       | None => 0%Z <> 0%Z
       end.
Proof.
  apply (t9148_weight_decoding init_client t9148_final_packet 184 11 0);
    reflexivity.
Defined.

Lemma after_set_state (self1 : Client) (new : EufyLifeBLEState)
  (fired : list Notification) (self' : Client) (fired' : list Notification) :
  (let '(c, f) := _set_state_and_fire_callbacks self1 new in
   Some (c, fired ++ f)) = Some (self', fired') ->
  impedance self' = impedance self1
  /\ impedance_final self' = impedance_final self1
  /\ heart_rate_extended self' = heart_rate_extended self1
  /\ exists st, state self' = Some st /\ same_reading st new.
Proof.
  intros H.
  pose proof (set_state_keeps_impedances self1 new) as [Hi Hf].
  pose proof (stored_state self1 new) as Hst.
  assert (Hhr : heart_rate_extended
                  (fst (_set_state_and_fire_callbacks self1 new))
                = heart_rate_extended self1).
  { unfold _set_state_and_fire_callbacks.
    destruct (state self1) as [old | ]; [ destruct (state_eqb old new) | ];
      reflexivity. }
  destruct (_set_state_and_fire_callbacks self1 new) as [c f].
  injection H as <- _. cbn [fst] in *. auto.
Qed.

(** X13.  Neither packet handler updates the final impedance alone: when
    a packet changes it, the same packet carries the final flag, so the
    state it leaves holds a final weight, and the current impedance is
    set to the same value. *)
Theorem final_impedance_comes_with_final_weight
  (self : Client) (data : bytearray) (self' : Client)
  (fired : list Notification) :
  _handle_t9150_body_comp_packet self data = Some (self', fired)
  \/ _handle_weight_update_t9148_t9149 self data = Some (self', fired) ->
  impedance_final self' = impedance_final self
  \/ exists st z,
       state self' = Some st
       /\ final_weight_kg st <> None
       /\ impedance_final self' = Some z
       /\ impedance self' = Some z.
Proof.
  intros [H | H]; revert H.
  - unfold _handle_t9150_body_comp_packet.
    destruct (byte_at data 10) as [status | ]; cbn [bind]; [ | discriminate ].
    destruct (byte_at data 15) as [hr | ]; cbn [bind]; [ | discriminate ].
    set (self1 := if (0 <? hr)%Z then set_heart_rate_extended self hr
                  else self).
    assert (Hf1 : impedance_final self1 = impedance_final self)
      by (unfold self1; destruct (0 <? hr)%Z; reflexivity).
    clearbody self1.
    destruct (19 <=? len data)%Z;
      [ destruct (byte_at data 17) as [b17 | ]; cbn [bind];
        [ | discriminate ];
        destruct (byte_at data 18) as [b18 | ]; cbn [bind];
        [ | discriminate ];
        destruct (0 <? Z.lor b17 (Z.shiftl b18 8))%Z | ];
      cbn [bind];
      (destruct (byte_at data 13); cbn [bind]; [ | discriminate ]);
      (destruct (byte_at data 12); cbn [bind]; [ | discriminate ]);
      intros H; apply after_set_state in H;
      destruct H as (Hi & Hf & _ & st & Hst & _ & Hfin);
      cbn [final_weight_kg] in Hfin.
    + destruct (negb (Z.land status _T9150_FINAL_FLAG =? 0)%Z).
      * right. exists st. eexists.
        split; [ exact Hst | ].
        split; [ destruct (final_weight_kg st); [ discriminate | contradiction ] | ].
        split; [ rewrite Hf | rewrite Hi ]; reflexivity.
      * left. now rewrite Hf.
    + left. now rewrite Hf.
    + left. now rewrite Hf.
  - unfold _handle_weight_update_t9148_t9149.
    destruct (negb (len data =? 16)%Z); [ intros [= <- _]; now left | ].
    destruct (byte_at data 0) as [b0 | ]; cbn [bind]; [ | discriminate ].
    destruct (negb (b0 =? 0xCF)%Z); [ intros [= <- _]; now left | ].
    destruct (byte_at data 2) as [b2 | ]; cbn [bind]; [ | discriminate ].
    destruct (negb (b2 =? 0x00)%Z); [ intros [= <- _]; now left | ].
    destruct (byte_at data 7); cbn [bind]; [ | discriminate ].
    destruct (byte_at data 6); cbn [bind]; [ | discriminate ].
    destruct (byte_at data 12) as [b12 | ]; cbn [bind]; [ | discriminate ].
    destruct (byte_at data 10); cbn [bind]; [ | discriminate ].
    destruct (byte_at data 9); cbn [bind]; [ | discriminate ].
    destruct (byte_at data 8); cbn [bind]; [ | discriminate ].
    match goal with
    | |- context [(0 <? ?raw)%Z] => destruct (0 <? raw)%Z
    end; intros H; apply after_set_state in H;
      destruct H as (Hi & Hf & _ & st & Hst & _ & Hfin);
      cbn [final_weight_kg] in Hfin.
    + destruct (b12 =? 0)%Z.
      * right. exists st. eexists.
        split; [ exact Hst | ].
        split; [ destruct (final_weight_kg st); [ discriminate | contradiction ] | ].
        split; [ rewrite Hf | rewrite Hi ]; reflexivity.
      * left. now rewrite Hf.
    + left. now rewrite Hf.
Qed.

(** Witness of X13. *)
Lemma final_impedance_comes_with_final_weight_witness :
  impedance_final client_after_heavier
  = impedance_final (client_with_final 30)
  \/ exists st z,
       state client_after_heavier = Some st
       /\ final_weight_kg st <> None
       /\ impedance_final client_after_heavier = Some z
       /\ impedance client_after_heavier = Some z.
Proof.
  apply (final_impedance_comes_with_final_weight
           (client_with_final 30) t9148_heavier_packet
           client_after_heavier
           [ ExtendedCallbacks client_seen_by_callbacks;
             StateCallbacks client_after_heavier ]).
  right. reflexivity.
Defined.

(** ** The matcher on the callbacks of one packet *)

Lemma invoked_when_complete (client : Client) (self : Entity)
  (z w : Q) (st : EufyLifeBLEState) :
  impedance_final client = Some z ->
  state client = Some st ->
  final_weight_kg st = Some w ->
  in_range (profile_config self) w = true ->
  In (CalculatorInvoked w z (profile (profile_config self)))
     (snd (_handle_extended_update client self)).
Proof.
  intros Hz Hs Hw Hin. unfold _handle_extended_update.
  rewrite Hz, Hs, Hw, Hin. cbn [negb].
  destruct (calculate_all _) as [r | ]; [ | now left ].
  destruct (extract_value (kind self) r) as [[v | ] | ]; now left.
Qed.

Lemma fire_callbacks_effects (client : Client) (entities : list Entity)
  (e : Entity) (fx : Effect) :
  In e entities ->
  In fx (snd (_handle_extended_update client e)) ->
  In fx (snd (fire_callbacks client entities)).
Proof.
  intros He Hfx. induction entities as [ | e0 rest IH]; [ destruct He | ].
  cbn [fire_callbacks].
  destruct (_handle_extended_update client e0) as [e0' fx0] eqn:E0.
  destruct (fire_callbacks client rest) as [rest' fxs].
  cbn [snd] in *. apply in_or_app.
  destruct He as [<- | He].
  - left. rewrite E0 in Hfx. exact Hfx.
  - right. now apply IH.
Qed.

Lemma deliver_first_effects (n : Notification) (rest : list Notification)
  (entities : list Entity) (fx : Effect) :
  In fx (snd (fire_callbacks (snapshot_of n) entities)) ->
  In fx (snd (deliver (n :: rest) entities)).
Proof.
  intros H. cbn [deliver].
  destruct (fire_callbacks (snapshot_of n) entities) as [entities' fx0].
  destruct (deliver rest entities') as [entities'' fxs].
  cbn [snd] in *. apply in_or_app. now left.
Qed.

(** X14.  A final T9148/T9149 notification with a positive impedance that
    arrives while the client still holds a final weight makes every
    entity whose range contains that earlier weight recompute from the
    earlier weight and the new impedance, whatever weight the
    notification itself carries. *)
Theorem final_packet_recomputes_with_previous_weight
  (s : System) (data : bytearray) (e : Entity) (st : EufyLifeBLEState)
  (w : Q) (b8 b9 b10 : Z) :
  len data = 16%Z ->
  byte_at data 0 = Some 0xCF%Z ->
  byte_at data 2 = Some 0%Z ->
  byte_at data 12 = Some 0%Z ->
  byte_at data 8 = Some b8 ->
  byte_at data 9 = Some b9 ->
  byte_at data 10 = Some b10 ->
  (0 < b8 + 256 * b9 + 65536 * b10)%Z ->
  state (sys_client s) = Some st ->
  final_weight_kg st = Some w ->
  In e (sys_entities s) ->
  in_range (profile_config e) w = true ->
  In (CalculatorInvoked w (inject_Z (b8 + 256 * b9 + 65536 * b10))
        (profile (profile_config e)))
     (sys_trace (step s (GattNotification data))).
Proof.
  intros Hlen E0 E2 E12 E8 E9 E10 Hraw Hst Hw He Hin.
  unfold step. cbn [client_step].
  unfold _handle_weight_update_t9148_t9149.
  rewrite Hlen, E0, E2, E12, E10, E9, E8.
  destruct (byte_at_some data 7 ltac:(lia)) as (b7 & ->).
  destruct (byte_at_some data 6 ltac:(lia)) as (b6 & ->).
  cbn [bind].
  change (negb (16 =? 16)%Z) with false.
  change (negb (207 =? 207)%Z) with false.
  change (negb (0 =? 0)%Z) with false.
  change (0 =? 0)%Z with true. cbv iota.
  rewrite (uint24_le b8 b9 b10 (byte_at_range _ _ _ E8)
             (byte_at_range _ _ _ E9)).
  apply Z.ltb_lt in Hraw. rewrite Hraw.
  set (z := inject_Z (b8 + 256 * b9 + 65536 * b10)).
  set (snap := set_impedance_final (set_impedance (sys_client s) z) z).
  destruct (_set_state_and_fire_callbacks snap _) as [self4 fired'].
  cbn [app].
  assert (Hfx : In (CalculatorInvoked w z (profile (profile_config e)))
                  (snd (deliver (ExtendedCallbacks snap :: fired')
                          (sys_entities s)))).
  { apply deliver_first_effects. cbn [snapshot_of].
    apply (fire_callbacks_effects snap _ e); [ exact He | ].
    apply (invoked_when_complete snap e z w st); auto. }
  destruct (deliver (ExtendedCallbacks snap :: fired') (sys_entities s))
    as [entities' fx].
  cbn [sys_trace snd] in *. apply in_or_app. now right.
Qed.

(** Witness of X14: the client holds a final 30 kg; a final notification
    of 100 kg and 600 Ohm arrives; the sensor of the 60..90 lb profile is
    recomputed from 30 kg and 600 Ohm. *)
Lemma final_packet_recomputes_with_previous_weight_witness :
  In (CalculatorInvoked 30 (inject_Z (88 + 256 * 2 + 65536 * 0))
        (profile child_lbs))
     (sys_trace
        (step (mkSystem (client_with_final 30) [child_body_fat] [])
           (GattNotification t9148_heavier_packet))).
Proof.
  apply (final_packet_recomputes_with_previous_weight
           (mkSystem (client_with_final 30) [child_body_fat] [])
           t9148_heavier_packet child_body_fat
           (mkBLEState 30 (Some 30) None false) 30 88 2 0);
    try reflexivity.
  left. reflexivity.
Defined.

(** ** config_flow.py: heights in feet and inches *)

Lemma div12 (a : Q) : a / 12 == a * (1 # 12).
Proof. unfold Qdiv. reflexivity. Qed.

Lemma py_int_of_floor (z : Z) : py_int (NFloat (inject_Z z)) = z.
Proof. cbn. apply Z.quot_1_r. Qed.

Lemma modulo_12_range (a : Q) : 0 <= modulo a 12 < 12.
Proof.
  unfold modulo.
  pose proof (div12 a) as E.
  pose proof (Qfloor_le (a / 12)) as Hlo.
  pose proof (Qlt_floor (a / 12)) as Hhi.
  rewrite inject_Z_succ in Hhi.
  set (q := a / 12) in *. clearbody q. lra.
Qed.

(** X15.  [_cm_to_ftin] returns inches between 0 and 12 inclusive, and
    feet and inches together are within 0.05 inch of the height; the
    value 12.0 does occur, for instance 91.4 cm is 2 ft 12.0 in. *)
Theorem cm_to_ftin_range (height_cm : Q) :
  0 <= snd (_cm_to_ftin height_cm) <= 12
  /\ Qabs (12 * inject_Z (fst (_cm_to_ftin height_cm))
           + snd (_cm_to_ftin height_cm) - height_cm / 2.54) <= 0.05
  /\ fst (_cm_to_ftin 91.4) = 2%Z
  /\ snd (_cm_to_ftin 91.4) == 12.
Proof.
  split; [ | split; [ | split; reflexivity ] ];
    unfold _cm_to_ftin, floordiv; cbn [fst snd]; rewrite ?py_int_of_floor;
    set (total := height_cm / 2.54);
    pose proof (modulo_12_range total) as [Hlo Hhi];
    pose proof (round1_error (modulo total 12)) as Herr.
  - split.
    + apply (round1_ge 0 0); [ reflexivity | exact Hlo ].
    + apply (round1_le 12 120); [ reflexivity | lra ].
  - apply Qabs_Qle_condition.
    set (inches := Py.round1 (modulo total 12)) in *. clearbody inches.
    unfold modulo in Herr. clearbody total. lra.
Qed.

(** X16.  Pre-filling the height form and reading it back unchanged gives
    a height within 0.18 cm of the stored one, in either unit; in
    centimetres it is the stored height rounded to one decimal. *)
Theorem height_form_round_trip (height_cm : Q) (height_unit : string) :
  exists h,
    _extract_height_cm (_height_defaults height_cm height_unit) height_unit
    = Some h
    /\ Qabs (h - height_cm) <= 0.18
    /\ (String.eqb height_unit HEIGHT_UNIT_FTIN = false ->
        h = Py.round1 height_cm).
Proof.
  unfold _extract_height_cm, _height_defaults.
  destruct (String.eqb height_unit HEIGHT_UNIT_FTIN).
  - unfold _cm_to_ftin, floordiv. rewrite py_int_of_floor.
    cbn [getitem String.eqb CONF_HEIGHT_FT CONF_HEIGHT_IN Ascii.eqb Bool.eqb
           bind py_int py_float].
    eexists. split; [ reflexivity | ]. split; [ | discriminate ].
    unfold _ftin_to_cm.
    set (total := height_cm / 2.54).
    assert (Et : height_cm == total * 2.54) by (unfold total; field).
    pose proof (round1_error (modulo total 12)) as H1.
    set (inches := Py.round1 (modulo total 12)) in *. clearbody inches.
    pose proof (round1_error
                  (inject_Z (Qfloor (total / 12)) * 30.48 + inches * 2.54))
      as H2.
    unfold modulo in H1.
    apply Qabs_Qle_condition. rewrite Et.
    set (f := inject_Z (Qfloor (total / 12))) in *. clearbody f.
    set (r := Py.round1 (f * 30.48 + inches * 2.54)) in *. clearbody r.
    clearbody total. lra.
  - cbn [getitem String.eqb CONF_USER_HEIGHT Ascii.eqb Bool.eqb bind py_float].
    eexists. split; [ reflexivity | ].
    split; [ | reflexivity ].
    apply Qabs_Qle_condition. pose proof (round1_error height_cm). lra.
Qed.

(** ** config_flow.py: the converted range *)

(** X17.  The auto-conversion of a weight range keeps its order and its
    sign, whatever the two unit strings are: a range with
    [weight_min <= weight_max] stays one, and a non-negative bound stays
    non-negative. *)
Theorem conversion_keeps_range_order (old_wu new_wu : string) (lo hi : Q) :
  lo <= hi ->
  converted old_wu new_wu lo <= converted old_wu new_wu hi
  /\ (0 <= lo -> 0 <= converted old_wu new_wu lo).
Proof.
  intros H. unfold converted.
  destruct (negb (String.eqb old_wu new_wu)); [ | split; [ exact H | auto ] ].
  destruct (String.eqb old_wu WEIGHT_UNIT_KG && String.eqb new_wu WEIGHT_UNIT_LBS).
  - unfold KG_TO_LBS. split.
    + apply round1_mono. lra.
    + intros H0. apply (round1_ge 0 0); [ reflexivity | lra ].
  - change (1.0 / KG_TO_LBS) with (1000000 # 2204620). split.
    + apply round1_mono. lra.
    + intros H0. apply (round1_ge 0 0); [ reflexivity | lra ].
Qed.

(** Witness of X17: 30 to 40.8 kg turned into pounds. *)
Lemma conversion_keeps_range_order_witness :
  converted WEIGHT_UNIT_KG WEIGHT_UNIT_LBS 30
  <= converted WEIGHT_UNIT_KG WEIGHT_UNIT_LBS 40.8
  /\ (0 <= 30 -> 0 <= converted WEIGHT_UNIT_KG WEIGHT_UNIT_LBS 30).
Proof.
  apply (conversion_keeps_range_order WEIGHT_UNIT_KG WEIGHT_UNIT_LBS 30 40.8).
  discriminate.
Defined.

(** X18.  Switching a profile from kilograms to pounds moves the set of
    readings it matches by less than 23 g at either end: every reading at
    least 0.023 kg inside the old range still matches, and every reading
    that matches afterwards is within 0.023 kg of the old range. *)
Theorem unit_change_keeps_matches (pc pc' : ProfileConfig) (w : Q) :
  weight_unit pc' = WEIGHT_UNIT_LBS ->
  weight_min pc'
  = converted WEIGHT_UNIT_KG WEIGHT_UNIT_LBS (weight_min pc) ->
  weight_max pc'
  = converted WEIGHT_UNIT_KG WEIGHT_UNIT_LBS (weight_max pc) ->
  (weight_min pc + 0.023 <= w <= weight_max pc - 0.023 ->
   in_range pc' w = true)
  /\ (in_range pc' w = true ->
      weight_min pc - 0.023 <= w <= weight_max pc + 0.023).
Proof.
  intros Hu Hmin Hmax.
  rewrite in_range_spec. unfold measured. rewrite Hu, Hmin, Hmax.
  rewrite !kg_to_lbs_unfold. cbn [String.eqb WEIGHT_UNIT_LBS Ascii.eqb Bool.eqb].
  unfold KG_TO_LBS.
  pose proof (round1_error (weight_min pc * 2.20462)) as H1.
  pose proof (round1_error (weight_max pc * 2.20462)) as H2.
  split; intros H; lra.
Qed.

(** Witness of X18: the range 27.2 to 40.8 kg and a reading of 30 kg. *)
Lemma unit_change_keeps_matches_witness :
  (27.2 + 0.023 <= 30 <= 40.8 - 0.023 ->
   in_range (mkProfileConfig "c" "C" (mkUserProfile 10 140 "female")
               (converted WEIGHT_UNIT_KG WEIGHT_UNIT_LBS 27.2)
               (converted WEIGHT_UNIT_KG WEIGHT_UNIT_LBS 40.8)
               WEIGHT_UNIT_LBS) 30 = true)
  /\ (in_range (mkProfileConfig "c" "C" (mkUserProfile 10 140 "female")
                  (converted WEIGHT_UNIT_KG WEIGHT_UNIT_LBS 27.2)
                  (converted WEIGHT_UNIT_KG WEIGHT_UNIT_LBS 40.8)
                  WEIGHT_UNIT_LBS) 30 = true ->
      27.2 - 0.023 <= 30 <= 40.8 + 0.023).
Proof.
  apply (unit_change_keeps_matches
           (mkProfileConfig "c" "C" (mkUserProfile 10 140 "female")
              27.2 40.8 WEIGHT_UNIT_KG)
           (mkProfileConfig "c" "C" (mkUserProfile 10 140 "female")
              (converted WEIGHT_UNIT_KG WEIGHT_UNIT_LBS 27.2)
              (converted WEIGHT_UNIT_KG WEIGHT_UNIT_LBS 40.8)
              WEIGHT_UNIT_LBS) 30);
    reflexivity.
Defined.


(** ** sensor.py: which stored profiles become sensors *)

Lemma build_complete (pid : string) (data : StoredProfile) :
  is_complete (pid, data) = true ->
  exists pc,
    build_profile_config pid data = Some pc /\ profile_id pc = pid.
Proof.
  unfold is_complete, build_profile_config. cbn [snd].
  destruct (s_profile_name data), (s_user_age data), (s_user_height data),
    (s_user_sex data); cbn; try discriminate.
  intros _. eexists. split; reflexivity.
Qed.

Lemma build_incomplete (pid : string) (data : StoredProfile) :
  is_complete (pid, data) = false ->
  build_profile_config pid data = None.
Proof.
  unfold is_complete, build_profile_config. cbn [snd].
  destruct (s_profile_name data), (s_user_age data), (s_user_height data),
    (s_user_sex data); cbn; try discriminate; reflexivity.
Qed.

(** X19.  [_get_profiles] keeps, in their stored order and under their
    stored ids, exactly the profiles that have a name, an age, a height
    and a sex.  It logs a warning exactly for those that have a name and
    an age but lack the height or the sex; a profile without name or
    without age is dropped silently. *)
Theorem get_profiles_keeps_complete_ones
  (profiles_data : list (string * StoredProfile)) :
  map profile_id (fst (_get_profiles profiles_data))
  = map fst (filter is_complete profiles_data)
  /\ snd (_get_profiles profiles_data)
     = map fst (filter is_malformed profiles_data).
Proof.
  induction profiles_data as [ | [pid data] rest [IH1 IH2]].
  - split; reflexivity.
  - cbn [_get_profiles filter].
    destruct (_get_profiles rest) as [result warned]. cbn [fst snd] in *.
    destruct (is_complete (pid, data)) eqn:Ec.
    + destruct (build_complete _ _ Ec) as (pc & Hb & Hid).
      assert (Em : is_malformed (pid, data) = false).
      { unfold is_complete, is_malformed in *. cbn [snd] in *.
        destruct (has (s_profile_name data)), (has (s_user_age data)),
          (has (s_user_height data)), (has (s_user_sex data));
          try discriminate; reflexivity. }
      rewrite Em, Hb.
      unfold is_complete in Ec. cbn [snd] in Ec.
      destruct (s_profile_name data); [ | discriminate ].
      destruct (s_user_age data); [ | cbn in Ec; discriminate ].
      cbn [fst snd map]. split; [ now rewrite Hid, IH1 | exact IH2 ].
    + rewrite (build_incomplete _ _ Ec).
      destruct (s_profile_name data) as [n | ] eqn:En;
        [ destruct (s_user_age data) as [a | ] eqn:Ea | ].
      * assert (Em : is_malformed (pid, data) = true).
        { unfold is_complete, is_malformed in *. cbn [snd] in *.
          rewrite En, Ea in *. cbn in *.
          destruct (has (s_user_height data)), (has (s_user_sex data));
            try discriminate; reflexivity. }
        rewrite Em. cbn [fst snd map]. split; [ exact IH1 | now rewrite IH2 ].
      * assert (Em : is_malformed (pid, data) = false)
          by (unfold is_malformed; cbn [snd]; rewrite En, Ea; reflexivity).
        rewrite Em. split; assumption.
      * assert (Em : is_malformed (pid, data) = false)
          by (unfold is_malformed; cbn [snd]; rewrite En; reflexivity).
        rewrite Em. split; assumption.
Qed.

(** X20.  A stored profile without range and without unit gets the range
    66 to 330 in kilograms: whatever the rest of it says, it matches a
    reading exactly when the reading is between 66 kg and 330 kg. *)
Theorem profile_without_range_matches_66_to_330_kg
  (pid : string) (data : StoredProfile) (pc : ProfileConfig) (w : Q) :
  s_weight_min data = None ->
  s_weight_max data = None ->
  s_weight_unit data = None ->
  build_profile_config pid data = Some pc ->
  weight_unit pc = WEIGHT_UNIT_KG
  /\ (in_range pc w = true <-> 66 <= w <= 330).
Proof.
  intros Hmin Hmax Hu Hb. unfold build_profile_config in Hb.
  destruct (s_profile_name data); cbn [bind] in Hb; [ | discriminate ].
  destruct (s_user_age data); cbn [bind] in Hb; [ | discriminate ].
  destruct (s_user_height data); cbn [bind] in Hb; [ | discriminate ].
  destruct (s_user_sex data); cbn [bind] in Hb; [ | discriminate ].
  rewrite Hmin, Hmax, Hu in Hb. injection Hb as <-.
  split; [ reflexivity | ].
  rewrite in_range_spec. unfold measured.
  cbn [weight_unit weight_min weight_max get_default py_float].
  unfold WEIGHT_UNIT_KG, WEIGHT_UNIT_LBS, DEFAULT_WEIGHT_MIN,
    DEFAULT_WEIGHT_MAX.
  cbn [String.eqb Ascii.eqb Bool.eqb]. lra.
Qed.

(** Witness of X20: the legacy profile. *)
Lemma profile_without_range_matches_66_to_330_kg_witness :
  weight_unit
    (mkProfileConfig "default" "Default" (mkUserProfile 30 170 "male")
       66.0 330.0 "kg") = WEIGHT_UNIT_KG
  /\ (in_range
        (mkProfileConfig "default" "Default" (mkUserProfile 30 170 "male")
           66.0 330.0 "kg") 60 = true
      <-> 66 <= 60 <= 330).
Proof.
  apply (profile_without_range_matches_66_to_330_kg
           "default" legacy_profile
           (mkProfileConfig "default" "Default" (mkUserProfile 30 170 "male")
              66.0 330.0 "kg") 60);
    reflexivity.
Defined.

(** ** config_flow.py: a new profile never takes a used id *)

Lemma append_cancel (s a b : string) :
  (s ++ a = s ++ b)%string -> a = b.
Proof.
  induction s as [ | c s IH]; cbn; intros H; [ exact H | ].
  injection H as H. now apply IH.
Qed.

Lemma append_length (s t : string) :
  String.length (s ++ t) = (String.length s + String.length t)%nat.
Proof.
  induction s as [ | c s IH]; cbn; [ reflexivity | now rewrite IH ].
Qed.

Lemma decimal_inj (n m : nat) : decimal n = decimal m -> n = m.
Proof.
  unfold decimal. intros H.
  apply Unsigned.to_uint_inj.
  assert (E : Some (Nat.to_uint n) = Some (Nat.to_uint m))
    by (rewrite <- !NilEmpty.usu; now rewrite H).
  now injection E.
Qed.

Lemma candidate_inj (base_id : string) (n m : nat) :
  candidate base_id n = candidate base_id m -> n = m.
Proof.
  unfold candidate, numbered_id.
  destruct n as [ | n], m as [ | m]; intros H.
  - reflexivity.
  - apply (f_equal String.length) in H. rewrite append_length in H.
    cbn in H. lia.
  - apply (f_equal String.length) in H. rewrite append_length in H.
    cbn in H. lia.
  - apply append_cancel in H. apply append_cancel in H.
    apply decimal_inj in H. lia.
Qed.

Lemma has_key_iff (keys : list string) (key : string) :
  has_key keys key = true <-> In key keys.
Proof.
  unfold has_key. rewrite existsb_exists. split.
  - intros (x & Hx & E). apply String.eqb_eq in E. now subst.
  - intros H. exists key. split; [ exact H | apply String.eqb_refl ].
Qed.

(** As many distinct candidates as there are keys cannot all be keys
    with one more. *)
Lemma candidates_run_out (keys : list string) (base_id : string) (n : nat) :
  (forall j, (j < n)%nat -> In (candidate base_id j) keys) ->
  (n <= List.length keys)%nat.
Proof.
  intros H.
  assert (Hnd : NoDup (map (candidate base_id) (seq 0 n))).
  { apply Injective_map_NoDup; [ | apply seq_NoDup ].
    intros a b. apply candidate_inj. }
  assert (Hincl : incl (map (candidate base_id) (seq 0 n)) keys).
  { intros x Hx. apply in_map_iff in Hx as (j & <- & Hj).
    apply in_seq in Hj. apply H. lia. }
  pose proof (NoDup_incl_length Hnd Hincl) as L.
  now rewrite length_map, length_seq in L.
Qed.

Lemma free_profile_id_spec (keys : list string) (base_id : string)
  (fuel n : nat) :
  (List.length keys <= n + fuel)%nat ->
  (forall j, (j < n)%nat -> In (candidate base_id j) keys) ->
  exists k,
    free_profile_id fuel keys base_id (candidate base_id n) (S (S n))
    = Some (candidate base_id k)
    /\ ~ In (candidate base_id k) keys
    /\ (forall j, (j < k)%nat -> In (candidate base_id j) keys).
Proof.
  revert n. induction fuel as [ | fuel IH]; intros n Hfuel Hused;
    cbn [free_profile_id];
    destruct (has_key keys (candidate base_id n)) eqn:E.
  - exfalso. apply has_key_iff in E.
    assert (L : (S n <= List.length keys)%nat).
    { apply (candidates_run_out keys base_id). intros j Hj.
      destruct (Nat.eq_dec j n) as [-> | NE]; [ exact E | apply Hused; lia ]. }
    lia.
  - exists n. split; [ reflexivity | ]. split; [ | exact Hused ].
    intros Hin. apply has_key_iff in Hin. congruence.
  - apply has_key_iff in E.
    change (numbered_id base_id (S (S n))) with (candidate base_id (S n)).
    apply IH; [ lia | ].
    intros j Hj.
    destruct (Nat.eq_dec j n) as [-> | NE]; [ exact E | apply Hused; lia ].
  - exists n. split; [ reflexivity | ]. split; [ | exact Hused ].
    intros Hin. apply has_key_iff in Hin. congruence.
Qed.

(** X21.  The loop that picks the id of a new profile ends within as
    many iterations as there are profiles, and the id it returns is not
    in use, so storing the new profile never overwrites another one.  The
    id is the slug itself when that is free, and otherwise the slug with
    the smallest free suffix [_2], [_3], ... *)
Theorem new_profile_id_is_fresh (keys : list string) (base_id : string) :
  exists k,
    new_profile_id keys base_id = Some (candidate base_id k)
    /\ ~ In (candidate base_id k) keys
    /\ (k <= List.length keys)%nat
    /\ (forall j, (j < k)%nat -> In (candidate base_id j) keys).
Proof.
  unfold new_profile_id.
  destruct (free_profile_id_spec keys base_id (List.length keys) 0)
    as (k & Hk & Hfree & Hused); [ lia | intros j Hj; lia | ].
  exists k. cbn [candidate] in Hk.
  split; [ exact Hk | ]. split; [ exact Hfree | ].
  split; [ | exact Hused ].
  now apply (candidates_run_out keys base_id).
Qed.

(** An instance: with "anna" and "anna_2" taken the new id is
    "anna_3". *)
Lemma new_profile_id_example :
  new_profile_id [ "bob"; "anna_2"; "anna" ]%string "anna"
  = Some "anna_3"%string.
Proof. reflexivity. Qed.

(** ** extended_client.py: registering and unregistering a callback *)

Lemma list_remove_last (l : list Callback) (cb : Callback) :
  ~ In cb l -> list_remove (l ++ [cb]) cb = Some l.
Proof.
  induction l as [ | y rest IH]; cbn; intros H.
  - now rewrite Nat.eqb_refl.
  - destruct (Nat.eqb y cb) eqn:E.
    + apply Nat.eqb_eq in E. tauto.
    + rewrite IH by tauto. reflexivity.
Qed.

Lemma list_remove_none (l : list Callback) (cb : Callback) :
  list_remove l cb = None <-> ~ In cb l.
Proof.
  induction l as [ | y rest IH]; cbn.
  - tauto.
  - destruct (Nat.eqb y cb) eqn:E.
    + apply Nat.eqb_eq in E. split; [ discriminate | tauto ].
    + apply Nat.eqb_neq in E.
      destruct (list_remove rest cb); cbn.
      * split; [ discriminate | ]. intros H. exfalso. apply H. right.
        destruct (in_dec Nat.eq_dec cb rest) as [Hin | Hn]; [ exact Hin | ].
        apply IH in Hn. discriminate.
      * split; [ | reflexivity ]. intros _ [H | H]; [ congruence | ].
        now apply IH in H.
Qed.

Lemma list_remove_count (l l' : list Callback) (cb x : Callback) :
  list_remove l cb = Some l' ->
  count_occ Nat.eq_dec l x
  = (count_occ Nat.eq_dec l' x + if Nat.eq_dec cb x then 1 else 0)%nat.
Proof.
  revert l'. induction l as [ | y rest IH]; cbn; intros l' H;
    [ discriminate | ].
  destruct (Nat.eqb y cb) eqn:E.
  - apply Nat.eqb_eq in E. subst y. injection H as <-.
    destruct (Nat.eq_dec cb x); lia.
  - destruct (list_remove rest cb) as [r | ]; [ | discriminate ].
    injection H as <-. cbn. specialize (IH r eq_refl).
    destruct (Nat.eq_dec y x); lia.
Qed.

(** X22.  The function returned by [register_extended_callback] undoes
    the registration once: it succeeds, leaves every other callback with
    the number of registrations it had, and gives back the very list of
    before when the callback was not registered already; called a second
    time in that case it raises. *)
Theorem unregister_undoes_register (callbacks : list Callback)
  (callback : Callback) :
  let '(registered, unregister_callback) :=
    register_extended_callback callbacks callback in
  exists remaining,
    unregister_callback registered = Some remaining
    /\ (forall x,
          count_occ Nat.eq_dec remaining x
          = count_occ Nat.eq_dec callbacks x)
    /\ (~ In callback callbacks ->
        remaining = callbacks /\ unregister_callback remaining = None).
Proof.
  cbn.
  destruct (list_remove (callbacks ++ [callback]) callback) as [r | ] eqn:E.
  - exists r. split; [ reflexivity | ]. split.
    + intros x. pose proof (list_remove_count _ _ _ x E) as H.
      rewrite count_occ_app in H. cbn [count_occ] in H.
      unfold Callback in *. destruct (Nat.eq_dec callback x); lia.
    + intros Hn. rewrite list_remove_last in E by exact Hn.
      injection E as <-. split; [ reflexivity | ].
      now apply list_remove_none.
  - apply list_remove_none in E. exfalso. apply E.
    apply in_or_app. right. now left.
Qed.

(** ** sensor.py: the entities created for a device *)

Lemma extend_with_profiles_spec (entities : list SensorEntity)
  (profiles : list ProfileConfig) :
  extend_with_profiles entities profiles
  = entities ++ flat_map profile_sensors profiles.
Proof.
  revert entities. induction profiles as [ | pc rest IH]; intros entities;
    cbn.
  - now rewrite app_nil_r.
  - now rewrite IH, <- app_assoc.
Qed.

Lemma flat_map_profile_sensors_length (profiles : list ProfileConfig) :
  List.length (flat_map profile_sensors profiles)
  = (9 * List.length profiles)%nat.
Proof.
  induction profiles as [ | pc rest IH]; cbn [flat_map List.length].
  - reflexivity.
  - rewrite length_app, IH. cbn [profile_sensors List.length]. lia.
Qed.

Lemma in_profile_sensors (k : SensorKind) (pc pc' : ProfileConfig) :
  In (BodyCompositionSensorEntity k pc) (profile_sensors pc')
  <-> pc = pc' /\ k <> BaseSensor.
Proof.
  unfold profile_sensors. cbn [In]. split.
  - intros H.
    repeat match type of H with
           | _ \/ _ => destruct H as [H | H]
           end; try contradiction;
      injection H as <- <-; (split; [ reflexivity | discriminate ]).
  - intros [<- Hk]. destruct k; try contradiction; tauto.
Qed.

(** X23.  [async_setup_entry] creates the weight and real-time weight
    sensors, a heart-rate sensor and an impedance sensor when the model
    supports them, and, on a model with body composition, exactly the
    nine body-composition sensors of every profile: never the base class
    whose [_extract_value] raises, and none at all on another model. *)
Theorem setup_creates_nine_sensors_per_profile
  (model_id : string) (profiles : list ProfileConfig) :
  List.length (async_setup_entry model_id profiles)
  = (2 + (if supports_heart_rate model_id then 1 else 0)
     + (if supports_body_composition model_id
        then 1 + 9 * List.length profiles else 0))%nat
  /\ (forall k pc,
        In (BodyCompositionSensorEntity k pc)
           (async_setup_entry model_id profiles)
        <-> supports_body_composition model_id = true
            /\ In pc profiles /\ k <> BaseSensor).
Proof.
  assert (E : async_setup_entry model_id profiles
              = ([ WeightSensorEntity; RealTimeWeightSensorEntity ]
                 ++ (if supports_heart_rate model_id
                     then [ HeartRateSensorEntity ] else [])
                 ++ (if supports_body_composition model_id
                     then [ ImpedanceSensorEntity ] else []))
                ++ (if supports_body_composition model_id
                    then flat_map profile_sensors profiles else [])).
  { unfold async_setup_entry.
    destruct profiles as [ | pc rest];
      [ | rewrite extend_with_profiles_spec ];
      destruct (supports_heart_rate model_id),
        (supports_body_composition model_id); reflexivity. }
  rewrite E. split.
  - rewrite !length_app.
    destruct (supports_heart_rate model_id),
      (supports_body_composition model_id);
      rewrite ?flat_map_profile_sensors_length; cbn [List.length]; lia.
  - intros k pc. rewrite in_app_iff. split.
    + intros [H | H].
      * exfalso.
        destruct (supports_heart_rate model_id),
          (supports_body_composition model_id); cbn in H;
          repeat destruct H as [H | H]; try discriminate; auto.
      * destruct (supports_body_composition model_id); [ | destruct H ].
        apply in_flat_map in H as (pc' & Hin & Hs).
        apply in_profile_sensors in Hs as [-> Hk]. auto.
    + intros (Hbc & Hin & Hk). right. rewrite Hbc.
      apply in_flat_map. exists pc. split; [ exact Hin | ].
      now apply in_profile_sensors.
Qed.

(** ** config_flow.py and sensor.py: the migrated legacy profile *)

(** X24.  When no profile is stored and the old options hold an age, the
    migration stores one profile that [_get_profiles] accepts without
    warning, under the id ["default"], with the range 66 to 330 in
    pounds: it matches a reading exactly when the reading times 2.20462
    is between 66 and 330.  With a profile already stored, or without an
    age, the migration changes nothing. *)
Theorem migrated_profile_matches_in_pounds
  (profiles : list (string * StoredProfile)) (options : LegacyOptions) :
  (profiles <> [] \/ o_user_age options = None ->
   migrate_legacy_options profiles options = profiles)
  /\ (profiles = [] -> o_user_age options <> None ->
      exists pc,
        _get_profiles (migrate_legacy_options profiles options) = ([pc], [])
        /\ profile_id pc = "default"%string
        /\ weight_unit pc = WEIGHT_UNIT_LBS
        /\ forall w, in_range pc w = true <-> 66 <= w * 2.20462 <= 330).
Proof.
  split.
  - intros [H | H]; unfold migrate_legacy_options.
    + destruct profiles; [ contradiction | reflexivity ].
    + rewrite H. now destruct profiles.
  - intros -> Hage. unfold migrate_legacy_options.
    destruct (o_user_age options) as [a | ]; [ | contradiction ].
    eexists. split; [ reflexivity | ].
    split; [ reflexivity | ]. split; [ reflexivity | ].
    intros w. rewrite in_range_spec. unfold measured.
    cbn [weight_unit weight_min weight_max get_default py_float
           s_weight_min s_weight_max s_weight_unit].
    unfold DEFAULT_WEIGHT_UNIT, WEIGHT_UNIT_LBS, DEFAULT_WEIGHT_MIN,
      DEFAULT_WEIGHT_MAX, KG_TO_LBS.
    cbn [String.eqb Ascii.eqb Bool.eqb]. lra.
Qed.
